(** * The transactional mail engine of express-boilerplate

    A shallow embedding of [src/mailer/config.ts] (the [EmailSMTPService]
    class), [src/mailer/schema.ts] (the zod schemas), [src/mailer/service.ts]
    (the lookup bridge and the direct-template helper), [EmailService] with
    its controller, [EmailTemplateService], [ApiResponse] and the two seeders
    of [src/seed], together with the properties of these functions.

    Conventions.
    - A JavaScript [number] is an IEEE 754 binary64 value, taken from the
      inductive specification [spec_float] with precision 53 and maximal
      exponent 1024.
    - A JavaScript string is a [string]; where the code turns a string into
      bytes ([Buffer.from]) the string is read as its UTF-8 byte sequence.
    - A [Map] is a [gmap].
    - Anything the code calls but does not define (zod's e-mail format,
      Handlebars, nodemailer, the database) is a variable of the section that
      uses it. *)

From Stdlib Require Import ZArith String Ascii List Bool Lia.
From Stdlib Require Import Floats.SpecFloat.
From stdpp Require Import base option strings gmap.

Local Open Scope string_scope.

(* ===================================================================== *)
(** ** JavaScript values and control flow *)
(* ===================================================================== *)

Module JS.

(** *** Numbers *)

Abbreviation number := spec_float.

Definition prec : Z := 53.
Definition emax : Z := 1024.

(** [m * 2^e] rounded to binary64; integers are [of_Z]. *)
Definition of_dyadic (m e : Z) : number := binary_normalize prec emax m e false.
Definition of_Z (z : Z) : number := of_dyadic z 0.

Definition zero : number := S754_zero false.
Definition neg_zero : number := S754_zero true.
Definition NaN : number := S754_nan.

(** [a === b] and [a !== b] on two numbers. *)
Definition strict_eq (a b : number) : bool := SFeqb a b.
Definition strict_ne (a b : number) : bool := negb (SFeqb a b).

Definition le (a b : number) : bool := SFleb a b.

Definition add (a b : number) : number := SFadd prec emax a b.
Definition sub (a b : number) : number := SFsub prec emax a b.
Definition mul (a b : number) : number := SFmul prec emax a b.
Definition div (a b : number) : number := SFdiv prec emax a b.

(** [a % b]: the remainder of the truncating division, exact, with the
    sign of the dividend (ECMAScript Number::remainder). *)
Definition rem (a b : number) : number :=
  match a, b with
  | S754_nan, _ | _, S754_nan => S754_nan
  | S754_infinity _, _ => S754_nan
  | _, S754_zero _ => S754_nan
  | _, S754_infinity _ => a
  | S754_zero _, _ => a
  | S754_finite sa ma ea, S754_finite _ mb eb =>
      let e := Z.min ea eb in
      let A := (Z.pos ma * 2 ^ (ea - e))%Z in
      let B := (Z.pos mb * 2 ^ (eb - e))%Z in
      binary_normalize prec emax (cond_Zopp sa (Z.rem A B)) e sa
  end.

(** A port as a caller may hand it over: a number, or a string (in
    [process.env], or in a request that no schema has parsed). *)
Inductive PortInput :=
| PortNumber (n : number)
| PortString (s : string).

(** [Number(x)]: a number is left as it is, a string is converted, by the
    conversion given as [Number_of_string]. *)
Definition Number (Number_of_string : string -> number) (x : PortInput) : number :=
  match x with
  | PortNumber n => n
  | PortString s => Number_of_string s
  end.

(** A number is zero when it is [+0] or [-0]. *)
Definition is_zero (a : number) : bool :=
  match a with S754_zero _ => true | _ => false end.

(** A number is an integer when it is finite with no fractional part. *)
Definition is_integer (a : number) : bool :=
  match a with
  | S754_zero _ => true
  | S754_finite _ m e =>
      if (0 <=? e)%Z then true else (Z.pos m mod 2 ^ (- e) =? 0)%Z
  | _ => false
  end.

(** *** Truthiness of strings and optional strings *)

Definition truthy_string (s : string) : bool :=
  match s with EmptyString => false | _ => true end.

(** An optional field is [undefined] when it is [None]. *)
Definition truthy (o : option string) : bool :=
  match o with Some s => truthy_string s | None => false end.

(** [a || b] on optional strings and on a string with a default. *)
Definition or_else (a b : option string) : option string :=
  if truthy a then a else b.
Definition or_default (a : option string) (d : string) : string :=
  match a with Some s => if truthy_string s then s else d | None => d end.

(** *** Values found in template data *)

#[local] Set Warnings "-register-all".

Inductive value :=
| VNull
| VBool (b : bool)
| VNum (n : number)
| VStr (s : string)
| VArr (l : list value)
| VObj (fields : list (string * value)).

(** *** Exceptions *)

(** What a [throw] carries: an [Error] (or a subclass, with its
    message), an [HttpError] with its status, or any other value, of which
    only [String(value)] and, for the objects shaped like an API error, the
    status and message are observed. *)
Inductive thrown :=
| Error (message : string)
| HttpError (status : nat) (message : string)
| Other (apiShape : option (nat * string)) (rendered : string).

(** [error instanceof Error ? error.message : fallback] *)
Definition message_or (fallback : thrown -> string) (e : thrown) : string :=
  match e with
  | Error m => m
  | HttpError _ m => m
  | Other _ _ => fallback e
  end.

Definition String_of (e : thrown) : string :=
  match e with
  | Error m => "Error: " +:+ m
  | HttpError _ m => "HttpError: " +:+ m
  | Other _ r => r
  end.

(** [hay.includes(needle)] *)
Definition includes (needle hay : string) : Prop :=
  exists before after, hay = before +:+ needle +:+ after.

(** The completion of a call: a value, or a thrown exception. *)
Inductive completion (A : Type) :=
| Return (a : A)
| Throw (e : thrown).
Arguments Return {A} a.
Arguments Throw {A} e.

End JS.

Export JS (completion, Return, Throw).

(* ===================================================================== *)
(** ** The Handlebars math helpers ([initializeHandlebars]) *)
(* ===================================================================== *)

Module Helpers.

Import JS.

Definition add (a b : number) : number := JS.add a b.
Definition subtract (a b : number) : number := JS.sub a b.
Definition multiply (a b : number) : number := JS.mul a b.
Definition divide (a b : number) : number :=
  if strict_ne b zero then JS.div a b else zero.
Definition modulo (a b : number) : number :=
  if strict_ne b zero then JS.rem a b else zero.

(** The registry after the five [registerHelper] calls of the math
    section, in source order; a later registration of a name replaces an
    earlier one. *)
Definition registerHelper (name : string) (h : number -> number -> number)
    (registry : gmap string (number -> number -> number)) :=
  <[name := h]> registry.

Definition mathHelpers : gmap string (number -> number -> number) :=
  registerHelper "modulo" modulo
    (registerHelper "divide" divide
      (registerHelper "multiply" multiply
        (registerHelper "subtract" subtract
          (registerHelper "add" add ∅)))).

(** The call the renderer makes for [{{name x y}}]: the helper registered
    under [name], applied to the two resolved parameters. *)
Definition callHelper (name : string) (x y : number) : option number :=
  (fun h => h x y) <$> mathHelpers !! name.

End Helpers.

(* ===================================================================== *)
(** ** Base64, as [Buffer.from(s).toString("base64")] produces it *)
(* ===================================================================== *)

Module Base64.

Definition alphabet : string :=
  "ABCDEFGHIJKLMNOPQRSTUVWXYZabcdefghijklmnopqrstuvwxyz0123456789+/".

(** The character of a six-bit group. *)
Definition digit (n : N) : ascii :=
  match String.get (N.to_nat n) alphabet with
  | Some c => c
  | None => "="%char
  end.

Definition code (c : ascii) : N := N_of_ascii c.

(** The four characters of three bytes. *)
Definition quad (a b c : ascii) : string :=
  String (digit (N.shiftr (code a) 2))
    (String (digit (N.lor (N.shiftl (N.land (code a) 3) 4) (N.shiftr (code b) 4)))
      (String (digit (N.lor (N.shiftl (N.land (code b) 15) 2) (N.shiftr (code c) 6)))
        (String (digit (N.land (code c) 63)) EmptyString))).

(** Three bytes at a time; one or two bytes left over are padded. *)
Fixpoint encode (s : string) : string :=
  match s with
  | EmptyString => EmptyString
  | String a EmptyString =>
      String (digit (N.shiftr (code a) 2))
        (String (digit (N.shiftl (N.land (code a) 3) 4)) "==")
  | String a (String b EmptyString) =>
      String (digit (N.shiftr (code a) 2))
        (String (digit (N.lor (N.shiftl (N.land (code a) 3) 4) (N.shiftr (code b) 4)))
          (String (digit (N.shiftl (N.land (code b) 15) 2)) "="))
  | String a (String b (String c rest)) => quad a b c +:+ encode rest
  end.

End Base64.

(* ===================================================================== *)
(** ** The zod schemas of [src/mailer/schema.ts] *)
(* ===================================================================== *)

Module Schema.

Import JS.

(** [validateEmailOrArray]: one address or an array of addresses. *)
Inductive EmailOrArray :=
| One (address : string)
| Many (addresses : list string).

Inductive AttachmentContent :=
| ContentString (s : string)
| ContentBuffer (bytes : string).

Record Attachment := {
  filename : string;
  path : option string;
  content : option AttachmentContent;
  contentType : option string
}.

(** [z.record(z.string(), z.any())] *)
Definition TemplateDataType : Type := list (string * value).

(** [EmailMessageSchemaType]; an optional key that is missing is [None]. *)
Record EmailMessage := {
  to : EmailOrArray;
  subject : string;
  text : option string;
  html : option string;
  templateHtml : option string;
  templateData : option TemplateDataType;
  name : option string;
  from : option string;
  cc : option EmailOrArray;
  bcc : option EmailOrArray;
  attachments : option (list Attachment)
}.

Record Auth := { user : string; pass : string }.

Record Tls := { rejectUnauthorized : option bool }.

(** The argument of the [EmailSMTPService] constructor. *)
Record EmailConfigInput := {
  in_host : string;
  in_port : PortInput;
  in_secure : bool;
  in_auth : Auth;
  in_service : option string;
  in_tls : option Tls
}.

(** [EmailConfigSchemaType], the parsed configuration. *)
Record EmailConfig := {
  host : string;
  port : number;
  secure : bool;
  auth : Auth;
  service : option string;
  tls : option Tls
}.

Section Zod.

(** zod's e-mail format check, the conversion [Number(string)] that
    [z.coerce.number] applies, and the message of the [ZodError] that
    [parse] throws for a rejected input. *)
Variable isEmail : string -> bool.
Variable Number_of_string : string -> number.
Variable zodMessageIssues : EmailMessage -> string.
Variable zodConfigIssues : EmailConfigInput -> string.

(** [baseString(name, { min: 1 })] *)
Definition min1 (s : string) : bool := (1 <=? String.length s)%nat.

(** [validateEmail = baseString("Email", { min: 1 }).email(...)] *)
Definition validateEmail (s : string) : bool := min1 s && isEmail s.

(** [validateEmailOrArray]: the union of [validateEmail] and an array of
    [validateEmail]. *)
Definition validateEmailOrArray (v : EmailOrArray) : bool :=
  match v with
  | One a => validateEmail a
  | Many l => forallb validateEmail l
  end.

Definition optional {A} (check : A -> bool) (o : option A) : bool :=
  match o with Some a => check a | None => true end.

Definition validAttachment (a : Attachment) : bool := min1 (filename a).

(** The object schema: every field against its validator. *)
Definition messageFieldsValid (m : EmailMessage) : bool :=
  validateEmailOrArray (to m)
  && min1 (subject m)
  && optional validateEmail (from m)
  && optional validateEmailOrArray (cc m)
  && optional validateEmailOrArray (bcc m)
  && optional (forallb validAttachment) (attachments m).

(** [.refine(data => data.text || data.html || data.templateHtml)] *)
Definition contentProvided (m : EmailMessage) : bool :=
  truthy (or_else (or_else (text m) (html m)) (templateHtml m)).

Definition messageValid (m : EmailMessage) : bool :=
  messageFieldsValid m && contentProvided m.

(** How many messages of a batch the schema rejects. *)
Definition countInvalid (messages : list EmailMessage) : nat :=
  length (List.filter (fun m => negb (messageValid m)) messages).

(** [emailMessageSchema.parse] *)
Definition emailMessageSchema_parse (m : EmailMessage) : completion EmailMessage :=
  if messageValid m then Return m else Throw (Error (zodMessageIssues m)).

(** [z.coerce.number]: [Number(input)]. *)
Definition coerceNumber (p : PortInput) : number := Number Number_of_string p.

(** [validateNumber("Port", { min: 1 }).max(65535)] on the coerced port. *)
Definition portValid (n : number) : bool :=
  le (of_Z 1) n && le n (of_Z 65535).

Definition configValid (c : EmailConfigInput) : bool :=
  min1 (in_host c)
  && portValid (coerceNumber (in_port c))
  && validateEmail (user (in_auth c))
  && min1 (pass (in_auth c)).

(** [emailConfigSchema.parse] *)
Definition emailConfigSchema_parse (c : EmailConfigInput) : completion EmailConfig :=
  if configValid c then
    Return {| host := in_host c;
              port := coerceNumber (in_port c);
              secure := in_secure c;
              auth := in_auth c;
              service := in_service c;
              tls := in_tls c |}
  else Throw (Error (zodConfigIssues c)).

End Zod.

End Schema.

(* ===================================================================== *)
(** ** What nodemailer is given *)
(* ===================================================================== *)

Module Nodemailer.

Import JS.

(** The options of [nodemailer.createTransport] that the code sets. *)
Record TransportOptions := {
  host : string;
  port : number;
  secure : bool;
  requireTLS : option bool;
  auth : Schema.Auth;
  service : option string;
  tls : option Schema.Tls
}.

(** [SendMailOptions] *)
Record SendMailOptions := {
  from : string;
  to : Schema.EmailOrArray;
  subject : string;
  text : option string;
  html : option string;
  cc : option Schema.EmailOrArray;
  bcc : option Schema.EmailOrArray;
  attachments : option (list Schema.Attachment)
}.

(** What [sendMail] resolves to; the SMTP transport always sets the
    message id. *)
Record SentMessageInfo := { messageId : string }.

End Nodemailer.

(* ===================================================================== *)
(** ** State and exceptions threaded through the methods *)
(* ===================================================================== *)

Module Eff.

Import JS.

(** A computation over a state [St] that returns or throws; the state
    survives a throw, as object mutations do in JavaScript. *)
Definition M (St A : Type) : Type := St -> completion A * St.

Section Ops.
Context {St : Type}.

Definition ret {A} (a : A) : M St A := fun s => (Return a, s).
Definition throw {A} (e : thrown) : M St A := fun s => (Throw e, s).
Definition lift {A} (c : completion A) : M St A := fun s => (c, s).

Definition bind {A B} (m : M St A) (k : A -> M St B) : M St B :=
  fun s =>
    match m s with
    | (Return a, s') => k a s'
    | (Throw e, s') => (Throw e, s')
    end.

(** [try { body } catch (error) { handler }] *)
Definition try_catch {A} (body : M St A) (handler : thrown -> M St A) : M St A :=
  fun s =>
    match body s with
    | (Return a, s') => (Return a, s')
    | (Throw e, s') => handler e s'
    end.

Definition get : M St St := fun s => (Return s, s).
Definition modify (f : St -> St) : M St unit := fun s => (Return tt, f s).

(** Every call of [l.map(f)] runs, in order, whatever the earlier ones
    completed with; the completions are collected. *)
Fixpoint map_calls {A B} (f : A -> M St B) (l : list A) (s : St)
    : list (completion B) * St :=
  match l with
  | [] => ([], s)
  | a :: l' =>
      let '(c, s1) := f a s in
      let '(cs, s2) := map_calls f l' s1 in
      (c :: cs, s2)
  end.

End Ops.

(** [Promise.all]: all the values in order, or the first rejection. *)
Fixpoint Promise_all {A} (l : list (completion A)) : completion (list A) :=
  match l with
  | [] => Return []
  | Return a :: l' =>
      match Promise_all l' with
      | Return r => Return (a :: r)
      | Throw e => Throw e
      end
  | Throw e :: _ => Throw e
  end.

End Eff.

Notation "'let*' x ':=' m 'in' k" := (Eff.bind m (fun x => k))
  (at level 10, x pattern, m at level 100, k at level 200).

(* ===================================================================== *)
(** ** [EmailSMTPService] of [src/mailer/config.ts] *)
(* ===================================================================== *)

Module Mailer.

Import JS Eff.

(** A compiled template ([Handlebars.TemplateDelegate]): the function
    object made by the [delegateId]-th call of [Handlebars.compile], from
    the source [delegateSource]. Two delegates are the same object when
    they are equal. *)
Record TemplateDelegate := {
  delegateId : nat;
  delegateSource : string
}.

(** The instance fields. *)
Record EmailSMTPService := {
  transporter : Nodemailer.TransportOptions;
  defaultFrom : string;
  templateCache : gmap string TemplateDelegate;
  helpersRegistered : bool
}.

(** What happens outside the instance: the sources handed to
    [Handlebars.compile] and the requests handed to [sendMail], each with
    the transport it went through, both in call order. *)
Record World := {
  compileCalls : list string;
  outbox : list (Nodemailer.TransportOptions * Nodemailer.SendMailOptions)
}.

Definition State : Type := EmailSMTPService * World.

(** [{ success, messageId?, error? }] *)
Record SendResult := {
  success : bool;
  messageId : option string;
  error : option string
}.

Definition set_cache (key : string) (d : TemplateDelegate) (this : EmailSMTPService)
    : EmailSMTPService :=
  {| transporter := transporter this;
     defaultFrom := defaultFrom this;
     templateCache := <[key := d]> (templateCache this);
     helpersRegistered := helpersRegistered this |}.

Definition log_compile (src : string) (w : World) : World :=
  {| compileCalls := compileCalls w ++ [src]; outbox := outbox w |}.

Definition log_send (t : Nodemailer.TransportOptions) (o : Nodemailer.SendMailOptions)
    (w : World) : World :=
  {| compileCalls := compileCalls w; outbox := outbox w ++ [(t, o)] |}.

(** The function object that [Handlebars.compile] makes when the world is
    [w]: its identity is the number of the call. *)
Definition newDelegate (templateHtml : string) (w : World) : TemplateDelegate :=
  {| delegateId := length (compileCalls w); delegateSource := templateHtml |}.

(** [new Error(`Failed to compile template: ${...}`)] and
    [new Error(`Failed to render template: ${...}`)] *)
Definition compileError (error : thrown) : thrown :=
  Error ("Failed to compile template: " +:+ message_or (fun _ => "Unknown error") error).

Definition renderError (error : thrown) : thrown :=
  Error ("Failed to render template: " +:+ message_or (fun _ => "Unknown error") error).

(** The cache key of a templated send:
    [`template_${Buffer.from(templateHtml).toString("base64").substring(0, 32)}`] *)
Definition deriveCacheKey (templateHtml : string) : string :=
  "template_" +:+ String.substring 0 32 (Base64.encode templateHtml).

(** How many results say [success: false], and how many [success: true]. *)
Definition countFailed (results : list SendResult) : nat :=
  length (List.filter (fun r => negb (success r)) results).

Definition countSucceeded (results : list SendResult) : nat :=
  length (List.filter success results).

(** The template of a message, when [if (validMessage.templateHtml)] lets
    it through. *)
Definition templateOf (m : Schema.EmailMessage) : option string :=
  match Schema.templateHtml m with
  | Some t => if truthy_string t then Some t else None
  | None => None
  end.

(** [validMessage.templateData ? `template_...` : undefined] *)
Definition cacheKeyOf (m : Schema.EmailMessage) (templateHtml : string) : option string :=
  match Schema.templateData m with
  | Some _ => Some (deriveCacheKey templateHtml)
  | None => None
  end.

(** [{ success: true, messageId: info.messageId }] *)
Definition delivered (info : Nodemailer.SentMessageInfo) : SendResult :=
  {| success := true; messageId := Some (Nodemailer.messageId info); error := None |}.

Section Service.

Variable isEmail : string -> bool.
Variable Number_of_string : string -> number.
Variable zodMessageIssues : Schema.EmailMessage -> string.
Variable zodConfigIssues : Schema.EmailConfigInput -> string.

(** [Handlebars.compile(source)] returns or throws; calling the delegate
    compiled from [source] on the data returns the text or throws. (The
    library compiles lazily: [compile] returns on every string, and a
    template that does not parse throws when its delegate is first called.
    Nothing here depends on it.) *)
Variable Handlebars_compile : string -> completion unit.
Variable Handlebars_run : string -> Schema.TemplateDataType -> completion string.

(** What the transport answers to a request, given the requests made
    before it. *)
Variable transporter_sendMail :
  list (Nodemailer.TransportOptions * Nodemailer.SendMailOptions) ->
  Nodemailer.TransportOptions -> Nodemailer.SendMailOptions ->
  completion Nodemailer.SentMessageInfo.

(** The constructor: validate the configuration, create the transport,
    remember the default sender, register the helpers. The two spreads
    [...(validConfig.service && { service })] and
    [...(validConfig.tls && { tls })] add their key only for a truthy
    value: an empty [service] is left out, and an object [tls] (even an
    empty one) is passed as it is. *)
Definition new_EmailSMTPService (config : Schema.EmailConfigInput)
    : completion EmailSMTPService :=
  match Schema.emailConfigSchema_parse isEmail Number_of_string zodConfigIssues config with
  | Throw e => Throw e
  | Return validConfig =>
      Return
        {| transporter :=
             {| Nodemailer.host := Schema.host validConfig;
                Nodemailer.port := Schema.port validConfig;
                Nodemailer.secure := Schema.secure validConfig;
                Nodemailer.requireTLS := None;
                Nodemailer.auth := Schema.auth validConfig;
                Nodemailer.service :=
                  if truthy (Schema.service validConfig)
                  then Schema.service validConfig else None;
                Nodemailer.tls := Schema.tls validConfig |};
           defaultFrom := Schema.user (Schema.auth validConfig);
           templateCache := ∅;
           helpersRegistered := true |}
  end.

(** The call [Handlebars.compile(templateHtml)]: logged, and on success
    a new function object. *)
Definition call_compile (templateHtml : string) : M State TemplateDelegate :=
  fun '(this, w) =>
    let w' := log_compile templateHtml w in
    match Handlebars_compile templateHtml with
    | Return _ =>
        (Return (newDelegate templateHtml w), (this, w'))
    | Throw e => (Throw e, (this, w'))
    end.

(** [this.templateCache.has(cacheKey)] and [.get(cacheKey)!] behind the
    guard [cacheKey && ...]. *)
Definition cached (cacheKey : option string) (this : EmailSMTPService)
    : option TemplateDelegate :=
  match cacheKey with
  | Some key => if truthy_string key then templateCache this !! key else None
  | None => None
  end.

(** [if (cacheKey) this.templateCache.set(cacheKey, compiledTemplate)] *)
Definition store (cacheKey : option string) (d : TemplateDelegate) : M State unit :=
  match cacheKey with
  | Some key =>
      if truthy_string key
      then modify (fun '(this, w) => (set_cache key d this, w))
      else ret tt
  | None => ret tt
  end.

Definition compileTemplate (templateHtml : string) (cacheKey : option string)
    : M State TemplateDelegate :=
  let* (this, _) := get in
  match cached cacheKey this with
  | Some d => ret d
  | None =>
      try_catch
        (let* compiledTemplate := call_compile templateHtml in
         let* _ := store cacheKey compiledTemplate in
         ret compiledTemplate)
        (fun error => throw (compileError error))
  end.

Definition renderTemplate (templateHtml : string) (data : Schema.TemplateDataType)
    (cacheKey : option string) : M State string :=
  try_catch
    (let* template := compileTemplate templateHtml cacheKey in
     lift (Handlebars_run (delegateSource template) data))
    (fun error => throw (renderError error)).

(** [clearTemplateCache] *)
Definition clearTemplateCache : M State unit :=
  modify (fun '(this, w) =>
    ({| transporter := transporter this;
        defaultFrom := defaultFrom this;
        templateCache := ∅;
        helpersRegistered := helpersRegistered this |}, w)).

(** [await this.transporter.sendMail(mailOptions)] *)
Definition call_sendMail (mailOptions : Nodemailer.SendMailOptions)
    : M State Nodemailer.SentMessageInfo :=
  fun '(this, w) =>
    (transporter_sendMail (outbox w) (transporter this) mailOptions,
     (this, log_send (transporter this) mailOptions w)).

(** The [from] header. *)
Definition resolveFrom (validMessage : Schema.EmailMessage) (this : EmailSMTPService)
    : string :=
  match Schema.name validMessage with
  | Some n =>
      if truthy_string n
      then n +:+ " <" +:+ or_default (Schema.from validMessage) (defaultFrom this) +:+ ">"
      else defaultFrom this
  | None => defaultFrom this
  end.

(** The rendering step of [sendEmail]: [htmlContent]. *)
Definition htmlContentOf (validMessage : Schema.EmailMessage) : M State (option string) :=
  match templateOf validMessage with
  | Some templateHtml =>
      let cacheKey := cacheKeyOf validMessage templateHtml in
      let* rendered :=
        renderTemplate templateHtml
          (default [] (Schema.templateData validMessage)) cacheKey in
      ret (Some rendered)
  | None => ret (Schema.html validMessage)
  end.

Definition mailOptionsOf (validMessage : Schema.EmailMessage)
    (htmlContent : option string) (this : EmailSMTPService)
    : Nodemailer.SendMailOptions :=
  {| Nodemailer.from := resolveFrom validMessage this;
     Nodemailer.to := Schema.to validMessage;
     Nodemailer.subject := Schema.subject validMessage;
     Nodemailer.text := Schema.text validMessage;
     Nodemailer.html := htmlContent;
     Nodemailer.cc := Schema.cc validMessage;
     Nodemailer.bcc := Schema.bcc validMessage;
     Nodemailer.attachments := Schema.attachments validMessage |}.

Definition failed (e : thrown) : SendResult :=
  {| success := false;
     messageId := None;
     error := Some (message_or (fun _ => "Unknown error occurred") e) |}.

(** The body of the [try] of [sendEmail]. *)
Definition sendEmail_try (message : Schema.EmailMessage) : M State SendResult :=
  let* validMessage := lift (Schema.emailMessageSchema_parse isEmail zodMessageIssues message) in
  let* htmlContent := htmlContentOf validMessage in
  let* (this, _) := get in
  let mailOptions := mailOptionsOf validMessage htmlContent this in
  let* info := call_sendMail mailOptions in
  ret (delivered info).

Definition sendEmail (message : Schema.EmailMessage) : M State SendResult :=
  try_catch (sendEmail_try message) (fun error => ret (failed error)).

(** What [htmlContent] becomes when the delegate compiled from [source] is
    invoked on the data of the message. *)
Definition rendered (source : string) (m : Schema.EmailMessage) : completion (option string) :=
  match Handlebars_run source (default [] (Schema.templateData m)) with
  | Return text => Return (Some text)
  | Throw e => Throw (renderError e)
  end.

(** What [sendEmail] does once [htmlContent] is known: the request goes to
    the transport, and its answer becomes the result. *)
Definition dispatch (m : Schema.EmailMessage) (h : option string)
    (this : EmailSMTPService) (w : World) : completion SendResult * State :=
  let o := mailOptionsOf m h this in
  (match transporter_sendMail (outbox w) (transporter this) o with
   | Return info => Return (delivered info)
   | Throw e => Return (failed e)
   end,
   (this, log_send (transporter this) o w)).

(** [Promise.all(messages.map(message => this.sendEmail(message)))]:
    each call runs up to its [await] of [sendMail] before the next one
    starts, so the cache and the two logs change in index order; what
    each request is answered is [transporter_sendMail]'s business. *)
Definition sendBulkEmails (messages : list Schema.EmailMessage)
    : M State (list SendResult) :=
  fun s =>
    let '(cs, s') := map_calls sendEmail messages s in
    (Promise_all cs, s').

End Service.

End Mailer.

(* ===================================================================== *)
(** ** [ServiceResponse] of [src/utils/serviceApi.ts] *)
(* ===================================================================== *)

Module ServiceApi.

Import JS.

Record ServiceApiResponse (T : Type) := {
  status : nat;
  message : string;
  data : T
}.
Arguments status {T} _.
Arguments message {T} _.
Arguments data {T} _.

Definition OK : nat := 200.
Definition NOT_FOUND : nat := 404.
Definition INTERNAL_SERVER_ERROR : nat := 500.

Definition createResponse {T} (status : nat) (message : string) (data : T)
    : ServiceApiResponse T :=
  {| status := status; message := message; data := data |}.

(** [createErrorResponse] never returns: it rethrows an [HttpError],
    turns an object shaped like an API error into one, and anything else
    into a 500. *)
Definition createErrorResponse {A} (error : thrown) : completion A :=
  match error with
  | HttpError _ _ => Throw error
  | Other (Some (st, msg)) _ => Throw (HttpError st msg)
  | _ => Throw (HttpError INTERNAL_SERVER_ERROR "Internal Server Error")
  end.

End ServiceApi.

(* ===================================================================== *)
(** ** [EmailService] of [src/app/email/email.service.ts] *)
(* ===================================================================== *)

Module EmailService.

Import JS ServiceApi.

(** [EmailUpdateSchemaType] *)
Record EmailUpdate := {
  host : string;
  port : PortInput;
  secure : bool;
  username : string;
  password : string;
  fromName : string;
  fromEmail : string
}.

(** [EmailSchemaType], a row of the [email] table of [email.model.ts]: its
    key, its unique name, and the columns that [EmailUpdateSchemaType] also
    has (without the timestamps, which nothing here reads). *)
Record EmailRow := {
  id : nat;
  emailConfigName : string;
  settings : EmailUpdate
}.

(** The options of the transient transport of [validateSmtpConnection]. *)
Record ProbeOptions := {
  probe_host : string;
  probe_port : number;
  probe_secure : bool;
  probe_requireTLS : bool;
  probe_user : string;
  probe_pass : string;
  probe_rejectUnauthorized : bool;
  probe_minVersion : string;
  probe_ciphers : string;
  probe_connectionTimeout : Z;
  probe_greetingTimeout : Z;
  probe_socketTimeout : Z
}.

Section Service.

(** [Number] on strings, [this.db.query.email.findFirst] by configuration
    name, and [transporter.verify()]. *)
Variable Number_of_string : string -> number.
Variable db_findFirst : string -> completion (option EmailRow).
Variable transporter_verify : ProbeOptions -> completion unit.

(** [emailUpdateSchema.safeParse] of [email.validators.ts], which the
    controller applies to a request body before it calls the service: the
    strings and the flag as they are, the port coerced to a number that has
    to lie between 1 and 65535. *)
Definition emailUpdateSchema_safeParse (body : EmailUpdate) : option EmailUpdate :=
  let n := Number Number_of_string (port body) in
  if Schema.portValid n then
    Some {| host := host body;
            port := PortNumber n;
            secure := secure body;
            username := username body;
            password := password body;
            fromName := fromName body;
            fromEmail := fromEmail body |}
  else None.

(** Lines 168-207: the port, the two flags derived from it, and the
    argument of [nodemailer.createTransport]. *)
Definition probeOptions (smtpConfig : EmailUpdate) : ProbeOptions :=
  let port := Number Number_of_string (port smtpConfig) in
  let secure := secure smtpConfig in
  let requireTLS := false in
  let '(secure, requireTLS) :=
    if strict_eq port (of_Z 465) then (true, requireTLS)
    else if strict_eq port (of_Z 587) || strict_eq port (of_Z 25) then (false, true)
    else (secure, requireTLS) in
  {| probe_host := host smtpConfig;
     probe_port := port;
     probe_secure := secure;
     probe_requireTLS := requireTLS;
     probe_user := username smtpConfig;
     probe_pass := password smtpConfig;
     probe_rejectUnauthorized := false;
     probe_minVersion := "TLSv1";
     probe_ciphers := "SSLv3";
     probe_connectionTimeout := 10000;
     probe_greetingTimeout := 10000;
     probe_socketTimeout := 10000 |}.

Definition retrieveOneByConfigName (configName : string)
    : completion (ServiceApiResponse (option EmailRow)) :=
  match db_findFirst configName with
  | Return None => Return (createResponse NOT_FOUND "Email not found" None)
  | Return (Some row) =>
      Return (createResponse OK "Email retrieved successfully" (Some row))
  | Throw error => createErrorResponse error
  end.

Definition validateSmtpConnection (smtpConfig : EmailUpdate)
    : completion (ServiceApiResponse bool) :=
  match transporter_verify (probeOptions smtpConfig) with
  | Return _ =>
      Return (createResponse OK "SMTP connection validated successfully" true)
  | Throw error => createErrorResponse error
  end.

End Service.

End EmailService.

(* ===================================================================== *)
(** ** The lookup bridge of [src/mailer/service.ts] *)
(* ===================================================================== *)

Module MailerService.

Import JS Eff ServiceApi.

(** [process.env], as far as [createEmailService] reads it. *)
Record Env := {
  SMTP_HOST : string;
  SMTP_PORT : JS.PortInput;
  SMTP_USER : string;
  SMTP_PASSWORD : string
}.

(** The stored template, as far as the bridge reads it. *)
Record EmailTemplateRow := {
  template_subject : string;
  template_html : string
}.

(** [interface SendEmailWithTemplate], without the two service objects,
    which are the variables [retrieveEmailTemplate] and [db_findFirst]. *)
Record SendEmailWithTemplate := {
  templateName : string;
  emailConfigName : string;
  to : string;
  templateData : option Schema.TemplateDataType;
  subject : option string
}.

(** [process.env.SMTP_PORT === 465] *)
Definition portIs465 (p : JS.PortInput) : bool :=
  match p with
  | JS.PortNumber n => strict_eq n (of_Z 465)
  | JS.PortString _ => false
  end.

Section Bridge.

Variable isEmail : string -> bool.
Variable Number_of_string : string -> number.
Variable zodMessageIssues : Schema.EmailMessage -> string.
Variable zodConfigIssues : Schema.EmailConfigInput -> string.
Variable Handlebars_compile : string -> completion unit.
Variable Handlebars_run : string -> Schema.TemplateDataType -> completion string.
Variable transporter_sendMail :
  list (Nodemailer.TransportOptions * Nodemailer.SendMailOptions) ->
  Nodemailer.TransportOptions -> Nodemailer.SendMailOptions ->
  completion Nodemailer.SentMessageInfo.

Variable env : Env.

(** [emailTemplateService.retrieveEmailTemplate]: it resolves to nothing,
    or to a response whose [data] may be [null]. *)
Variable retrieveEmailTemplate :
  string -> completion (option (ServiceApiResponse (option EmailTemplateRow))).
Variable db_findFirst : string -> completion (option EmailService.EmailRow).

Definition envConfig : Schema.EmailConfigInput :=
  {| Schema.in_host := SMTP_HOST env;
     Schema.in_port := SMTP_PORT env;
     Schema.in_secure := portIs465 (SMTP_PORT env);
     Schema.in_auth := {| Schema.user := SMTP_USER env; Schema.pass := SMTP_PASSWORD env |};
     Schema.in_service := None;
     Schema.in_tls := None |}.

(** [createEmailService] *)
Definition createEmailService : completion Mailer.EmailSMTPService :=
  Mailer.new_EmailSMTPService isEmail Number_of_string zodConfigIssues envConfig.

(** The message that [sendEmailWithTemplate] hands to [sendEmail]. *)
Definition templateMessage (config : SendEmailWithTemplate)
    (template : EmailTemplateRow) (emailService : EmailService.EmailRow)
    : Schema.EmailMessage :=
  {| Schema.to := Schema.One (to config);
     Schema.subject := or_default (subject config) (template_subject template);
     Schema.text := None;
     Schema.html := None;
     Schema.templateHtml := Some (template_html template);
     Schema.templateData := templateData config;
     Schema.name := Some (EmailService.fromName (EmailService.settings emailService));
     Schema.from := Some (EmailService.fromEmail (EmailService.settings emailService));
     Schema.cc := None;
     Schema.bcc := None;
     Schema.attachments := None |}.

(** [template?.data] and [emailService?.data] *)
Definition dataOf {T} (r : option (ServiceApiResponse (option T))) : option T :=
  match r with
  | Some resp => data resp
  | None => None
  end.

(** The body of the [try] of [sendEmailWithTemplate]; the state is the
    world outside, the service instance is local to the call. *)
Definition sendEmailWithTemplate_try (config : SendEmailWithTemplate)
    : M Mailer.World unit :=
  let* template := lift (retrieveEmailTemplate (templateName config)) in
  match dataOf template with
  | None =>
      throw (Error ("Email template '" +:+ templateName config
                    +:+ "' not found or has no data"))
  | Some templateRow =>
      let* emailService :=
        lift (EmailService.retrieveOneByConfigName db_findFirst (emailConfigName config)) in
      match data emailService with
      | None =>
          throw (Error ("Email service configuration '" +:+ emailConfigName config
                        +:+ "' not found or has no data"))
      | Some emailRow =>
          let* emailServiceInstance := lift createEmailService in
          let* result :=
            (fun w =>
               let '(c, (_, w')) :=
                 Mailer.sendEmail isEmail zodMessageIssues Handlebars_compile
                   Handlebars_run transporter_sendMail
                   (templateMessage config templateRow emailRow)
                   (emailServiceInstance, w) in
               (c, w')) in
          if Mailer.success result then ret tt
          else throw (Error (or_default (Mailer.error result) "Failed to send email"))
      end
  end.

(** Nothing failed: both lookups resolved to data, the service was
    constructed, and its [sendEmail] returned [success: true]. *)
Definition delivers (config : SendEmailWithTemplate) (w : Mailer.World) : Prop :=
  exists template templateRow emailRow emailServiceInstance result st,
    retrieveEmailTemplate (templateName config) = Return template
    /\ dataOf template = Some templateRow
    /\ db_findFirst (emailConfigName config) = Return (Some emailRow)
    /\ createEmailService = Return emailServiceInstance
    /\ Mailer.sendEmail isEmail zodMessageIssues Handlebars_compile Handlebars_run
         transporter_sendMail (templateMessage config templateRow emailRow)
         (emailServiceInstance, w) = (Return result, st)
    /\ Mailer.success result = true.

Definition wrapped (config : SendEmailWithTemplate) (errorMessage : string) : string :=
  "Failed to send email with template '" +:+ templateName config
  +:+ "' to '" +:+ to config +:+ "': " +:+ errorMessage.

Definition sendEmailWithTemplate (config : SendEmailWithTemplate)
    : M Mailer.World unit :=
  try_catch (sendEmailWithTemplate_try config)
    (fun error =>
       throw (Error (wrapped config (message_or String_of error)))).

End Bridge.

End MailerService.

(* ===================================================================== *)
(** ** What the template cache of a service holds *)
(* ===================================================================== *)

Module CacheInvariant.

Import Mailer.

(** Every cached renderer is stored under the key derived from the source
    it was compiled from. [compileTemplate] and [renderTemplate] take any
    key, but they are private: the cache is filled by [sendEmail] alone,
    which only ever passes a derived key. *)
Definition cacheProvenance (this : EmailSMTPService) : Prop :=
  forall key d, templateCache this !! key = Some d ->
                key = deriveCacheKey (delegateSource d).

(** From [s] to [s'] every cache entry has been kept, the two logs have
    only been extended, and the transport and the default sender are the
    same. *)
Definition extends (s s' : State) : Prop :=
  (forall key d, templateCache (fst s) !! key = Some d ->
                 templateCache (fst s') !! key = Some d)
  /\ compileCalls (snd s) `prefix_of` compileCalls (snd s')
  /\ outbox (snd s) `prefix_of` outbox (snd s')
  /\ transporter (fst s') = transporter (fst s)
  /\ defaultFrom (fst s') = defaultFrom (fst s).

End CacheInvariant.

(* ===================================================================== *)
(** ** Requests and the messages they are made from *)
(* ===================================================================== *)

Module Requests.

(** The fields that [mailOptions] copies from the message. *)
Definition carries (m : Schema.EmailMessage) (o : Nodemailer.SendMailOptions) : Prop :=
  Nodemailer.to o = Schema.to m
  /\ Nodemailer.subject o = Schema.subject m
  /\ Nodemailer.text o = Schema.text m
  /\ Nodemailer.cc o = Schema.cc m
  /\ Nodemailer.bcc o = Schema.bcc m
  /\ Nodemailer.attachments o = Schema.attachments m.

End Requests.

(* ===================================================================== *)
(** ** [EmailTemplateService] of [src/app/emailTemplate/emailTemplate.service.ts] *)
(* ===================================================================== *)

Module EmailTemplateService.

Import JS ServiceApi.

Section Service.

(** [this.getDb().query.emailTemplates.findFirst] by template name. *)
Variable db_findTemplate : string -> completion (option MailerService.EmailTemplateRow).

Definition retrieveEmailTemplate (name : string)
    : completion (ServiceApiResponse (option MailerService.EmailTemplateRow)) :=
  match db_findTemplate name with
  | Return None => Return (createResponse NOT_FOUND "Email template not found" None)
  | Return (Some template) =>
      Return (createResponse OK "Email template retrieved successfully" (Some template))
  | Throw error => createErrorResponse error
  end.

End Service.

(** What the [await] of the bridge receives from a service method: its
    response, which is never [undefined]. *)
Definition awaited {T} (c : completion T) : completion (option T) :=
  match c with
  | Return r => Return (Some r)
  | Throw e => Throw e
  end.

End EmailTemplateService.

(* ===================================================================== *)
(** ** [sendEmailWithDirectTemplate] of [src/mailer/service.ts] *)
(* ===================================================================== *)

Module DirectTemplate.

Import JS Eff.

(** [interface SendEmailWithDirectTemplate], without the instance, which is
    part of the state: it is an object of the caller's. *)
Record SendEmailWithDirectTemplate := {
  to : string;
  subject : string;
  templateHtml : string;
  templateData : option Schema.TemplateDataType;
  from : option string;
  name : option string
}.

(** The message handed to [sendEmail]. *)
Definition directMessage (args : SendEmailWithDirectTemplate) : Schema.EmailMessage :=
  {| Schema.to := Schema.One (to args);
     Schema.subject := subject args;
     Schema.text := None;
     Schema.html := None;
     Schema.templateHtml := Some (templateHtml args);
     Schema.templateData := templateData args;
     Schema.name := name args;
     Schema.from := from args;
     Schema.cc := None;
     Schema.bcc := None;
     Schema.attachments := None |}.

Section Direct.

Variable isEmail : string -> bool.
Variable Number_of_string : string -> number.
Variable zodMessageIssues : Schema.EmailMessage -> string.
Variable zodConfigIssues : Schema.EmailConfigInput -> string.
Variable Handlebars_compile : string -> completion unit.
Variable Handlebars_run : string -> Schema.TemplateDataType -> completion string.
Variable transporter_sendMail :
  list (Nodemailer.TransportOptions * Nodemailer.SendMailOptions) ->
  Nodemailer.TransportOptions -> Nodemailer.SendMailOptions ->
  completion Nodemailer.SentMessageInfo.
Variable env : MailerService.Env.

(** The state is the instance that the caller passed, if any, and the
    world outside. What the call does to the caller's instance stays; an
    instance made by [createEmailService] is dropped when the call ends. *)
Definition sendEmailWithDirectTemplate (args : SendEmailWithDirectTemplate)
    : M (option Mailer.EmailSMTPService * Mailer.World) unit :=
  fun '(emailServiceInstance, w) =>
    match
      match emailServiceInstance with
      | Some instance => Return instance
      | None => MailerService.createEmailService isEmail Number_of_string zodConfigIssues env
      end
    with
    | Throw e => (Throw e, (emailServiceInstance, w))
    | Return service =>
        let '(c, (service', w')) :=
          Mailer.sendEmail isEmail zodMessageIssues Handlebars_compile Handlebars_run
            transporter_sendMail (directMessage args) (service, w) in
        let kept :=
          match emailServiceInstance with
          | Some _ => Some service'
          | None => None
          end in
        match c with
        | Return result =>
            if Mailer.success result then (Return tt, (kept, w'))
            else (Throw (Error (or_default (Mailer.error result) "Failed to send email")),
                  (kept, w'))
        | Throw e => (Throw e, (kept, w'))
        end
    end.

End Direct.

End DirectTemplate.

(* ===================================================================== *)
(** ** The other methods of [EmailService] *)
(* ===================================================================== *)

Module EmailServiceMethods.

Import JS ServiceApi EmailService.

(** [try { body } catch (error) { handler }] on a call that touches no
    state. *)
Definition try_catch {A} (body : completion A) (handler : thrown -> completion A)
    : completion A :=
  match body with
  | Return a => Return a
  | Throw e => handler e
  end.

Definition and_then {A B} (c : completion A) (k : A -> completion B) : completion B :=
  match c with
  | Return a => k a
  | Throw e => Throw e
  end.

(** [ServiceResponse.createRejectResponse] *)
Definition createRejectResponse {A} (status : nat) (message : string) : completion A :=
  Throw (HttpError status message).

Section Service.

(** [this.db.query.email.findFirst] by id, and
    [this.db.update(email).set(data).where(eq(email.id, id)).returning()]
    followed by [rows[0]]. *)
Variable db_findById : number -> completion (option EmailRow).
Variable db_update : number -> EmailUpdate -> completion (option EmailRow).

Definition retrieveOne (id : number) : completion (ServiceApiResponse EmailRow) :=
  try_catch
    (and_then (db_findById id) (fun data =>
       match data with
       | None => createRejectResponse NOT_FOUND "Email not found"
       | Some row => Return (createResponse OK "Email retrieved successfully" row)
       end))
    createErrorResponse.

Definition update (id : number) (data : EmailUpdate)
    : completion (ServiceApiResponse EmailRow) :=
  try_catch
    (and_then (db_update id data) (fun updatedData =>
       match updatedData with
       | None => createRejectResponse NOT_FOUND "Email not found"
       | Some row => Return (createResponse OK "Email updated successfully" row)
       end))
    createErrorResponse.

End Service.

End EmailServiceMethods.

(* ===================================================================== *)
(** ** [ApiResponse] of [src/utils/serviceApi.ts] *)
(* ===================================================================== *)

Module ApiResponse.

Import ServiceApi.

Definition NO_CONTENT : nat := 204.
Definition BAD_REQUEST : nat := 400.

(** [status >= 200 && status < 300] *)
Definition isSuccessStatus (status : nat) : bool :=
  (200 <=? status)%nat && (status <? 300)%nat.

(** The JSON body; [data] is left out when it is [undefined]. *)
Record Wire (T : Type) := {
  wire_status : nat;
  wire_success : bool;
  wire_message : string;
  wire_data : option T
}.
Arguments wire_status {T} _.
Arguments wire_success {T} _.
Arguments wire_message {T} _.
Arguments wire_data {T} _.

(** What goes out: the status line, and the body unless [.end()] closed
    the response without one. *)
Record Reply (T : Type) := {
  http_status : nat;
  http_body : option (Wire T)
}.
Arguments http_status {T} _.
Arguments http_body {T} _.

(** [sendResponse({ status, message, data })] *)
Definition sendResponse {T} (status : nat) (message : string) (data : option T) : Reply T :=
  if bool_decide (status = NO_CONTENT) then
    {| http_status := status; http_body := None |}
  else
    {| http_status := status;
       http_body := Some {| wire_status := status;
                            wire_success := isSuccessStatus status;
                            wire_message := message;
                            wire_data := data |} |}.

(** [sendResponse(data)] on what a service returned. *)
Definition sendServiceResponse {T} (r : ServiceApiResponse T) : Reply T :=
  sendResponse (status r) (message r) (Some (data r)).

Definition badResponse {T} (message : string) : Reply T :=
  sendResponse BAD_REQUEST message None.

End ApiResponse.

(* ===================================================================== *)
(** ** [EmailController] of [src/app/email/email.controller.ts] *)
(* ===================================================================== *)

Module EmailController.

Import JS Eff ServiceApi EmailService ApiResponse.

(** What a request makes the service do, in call order: a call of
    [transporter.verify()] on a transport with the given options, and an
    update statement on the [email] table. An event is logged when the call
    is made, whatever it answers. *)
Inductive Event :=
| Verify (options : ProbeOptions)
| Save (id : number) (data : EmailUpdate).

(** [this.request]: the [id] of the route and the body. The body has the
    seven fields of the update schema with values of their types, the port
    being a number or a string still. *)
Record Request := {
  params_id : string;
  body : EmailUpdate
}.

(** [isNaN(n)] *)
Definition isNaN (n : number) : bool :=
  match n with S754_nan => true | _ => false end.

Section Controller.

Variable Number_of_string : string -> number.

(** The text of the issues of a rejected body. *)
Variable zodUpdateIssues : EmailUpdate -> string.

(** What [transporter.verify()] and the database answer, given what the
    request has done so far. *)
Variable transporter_verify : list Event -> ProbeOptions -> completion unit.
Variable db_findById : list Event -> number -> completion (option EmailRow).
Variable db_update : list Event -> number -> EmailUpdate -> completion (option EmailRow).

(** The calls of the service methods, logged. *)
Definition call_validateSmtpConnection (data : EmailUpdate)
    : M (list Event) (ServiceApiResponse bool) :=
  fun log =>
    (validateSmtpConnection Number_of_string (transporter_verify log) data,
     (log ++ [Verify (probeOptions Number_of_string data)])%list).

Definition call_update (id : number) (data : EmailUpdate)
    : M (list Event) (ServiceApiResponse EmailRow) :=
  fun log =>
    (EmailServiceMethods.update (db_update log) id data,
     (log ++ [Save id data])%list).

Definition call_retrieveOne (id : number) : M (list Event) (ServiceApiResponse EmailRow) :=
  fun log => (EmailServiceMethods.retrieveOne (db_findById log) id, log).

(** [show] *)
Definition show (request : Request) : M (list Event) (Reply EmailRow) :=
  let id := params_id request in
  if isNaN (Number_of_string id) then ret (badResponse "Email ID must be a number")
  else
    let* data := call_retrieveOne (Number_of_string id) in
    ret (sendServiceResponse data).

(** [update] *)
Definition update (request : Request) : M (list Event) (Reply EmailRow) :=
  let id := params_id request in
  if isNaN (Number_of_string id) then ret (badResponse "Email ID must be a number")
  else
    match emailUpdateSchema_safeParse Number_of_string (body request) with
    | None => ret (badResponse (zodUpdateIssues (body request)))
    | Some check_data =>
        let* _ := call_validateSmtpConnection check_data in
        let* data := call_update (Number_of_string id) check_data in
        ret (sendServiceResponse data)
    end.

(** [testSmtpConnection] *)
Definition testSmtpConnection (request : Request) : M (list Event) (Reply bool) :=
  match emailUpdateSchema_safeParse Number_of_string (body request) with
  | None => ret (badResponse (zodUpdateIssues (body request)))
  | Some check_data =>
      let* smtpValidation := call_validateSmtpConnection check_data in
      ret (sendServiceResponse smtpValidation)
  end.

End Controller.

End EmailController.

(* ===================================================================== *)
(** ** More helpers of [initializeHandlebars] *)
(* ===================================================================== *)

Module TextHelpers.

Import JS.

(** [truncate]: a string (or [undefined], when the template names a
    variable that the data does not have) and a length, which is taken to be
    an integer; the string is read as its sequence of code units.
    [substring(0, length)] counts a negative length as 0. *)
Definition truncate (str : option string) (length : Z) : option string :=
  match str with
  | None => None
  | Some s =>
      if negb (truthy_string s) || (Z.of_nat (String.length s) <=? length)%Z then Some s
      else Some (String.substring 0 (Z.to_nat length) s +:+ "...")
  end.

(** [length], [isEmpty] and [isNotEmpty]: whatever the template passes. *)
Definition length (array : value) : nat :=
  match array with
  | VArr l => List.length l
  | _ => 0
  end.

Definition isEmpty (array : value) : bool :=
  match array with
  | VArr l => (List.length l =? 0)%nat
  | _ => true
  end.

Definition isNotEmpty (array : value) : bool :=
  match array with
  | VArr l => (0 <? List.length l)%nat
  | _ => false
  end.

End TextHelpers.

(* ===================================================================== *)
(** ** The helper registry of Handlebars *)
(* ===================================================================== *)

Module HelperRegistry.

Import JS Eff.

(** A registered helper: the function that [initializeHandlebars] makes
    for a name, or a function of the caller's. *)
Inductive HelperRef :=
| BuiltIn (name : string)
| Custom (helperFunction : nat).

(** [Handlebars.helpers], shared by every service of the process. *)
Abbreviation Registry := (gmap string HelperRef).

(** The names that [initializeHandlebars] registers, in source order. *)
Definition builtInNames : list string :=
  ["formatDate"; "formatCurrency"; "formatNumber";
   "ifEquals"; "ifNotEquals"; "ifGreater"; "ifLess";
   "length"; "isEmpty"; "isNotEmpty";
   "add"; "subtract"; "multiply"; "divide"; "modulo";
   "uppercase"; "lowercase"; "capitalize"; "truncate";
   "json"; "currentYear"; "currentDate";
   "times"].

(** [Handlebars.registerHelper(name, helper)] *)
Definition Handlebars_registerHelper (name : string) (helper : HelperRef)
    (registry : Registry) : Registry :=
  <[name := helper]> registry.

(** [initializeHandlebars], given the [helpersRegistered] of the instance:
    the flag afterwards, and the registry. *)
Definition initializeHandlebars (helpersRegistered : bool) (registry : Registry)
    : bool * Registry :=
  if helpersRegistered then (helpersRegistered, registry)
  else
    (true,
     foldl (fun r name => Handlebars_registerHelper name (BuiltIn name) r)
       registry builtInNames).

(** The public [registerHelper] and [registerHelpers] of a service. *)
Definition registerHelper (name : string) (helperFunction : nat) : M Registry unit :=
  modify (Handlebars_registerHelper name (Custom helperFunction)).

Definition registerHelpers (helpers : list (string * nat)) : M Registry unit :=
  modify (fun registry =>
    foldl (fun r '(name, helper) => Handlebars_registerHelper name (Custom helper) r)
      registry helpers).

Section Construct.

Variable isEmail : string -> bool.
Variable Number_of_string : string -> number.
Variable zodConfigIssues : Schema.EmailConfigInput -> string.

(** The constructor, with the registry: the field [helpersRegistered] of
    a new instance is [false] when [initializeHandlebars] runs. *)
Definition construct (config : Schema.EmailConfigInput)
    : M Registry Mailer.EmailSMTPService :=
  fun registry =>
    match Mailer.new_EmailSMTPService isEmail Number_of_string zodConfigIssues config with
    | Throw e => (Throw e, registry)
    | Return this =>
        let '(helpersRegistered, registry') := initializeHandlebars false registry in
        (Return {| Mailer.transporter := Mailer.transporter this;
                   Mailer.defaultFrom := Mailer.defaultFrom this;
                   Mailer.templateCache := Mailer.templateCache this;
                   Mailer.helpersRegistered := helpersRegistered |},
         registry')
    end.

End Construct.

End HelperRegistry.

(* ===================================================================== *)
(** ** Messages with another recipient field *)
(* ===================================================================== *)

Module Recipients.

(** The message with [to] replaced. *)
Definition withTo (to : Schema.EmailOrArray) (m : Schema.EmailMessage) : Schema.EmailMessage :=
  {| Schema.to := to;
     Schema.subject := Schema.subject m;
     Schema.text := Schema.text m;
     Schema.html := Schema.html m;
     Schema.templateHtml := Schema.templateHtml m;
     Schema.templateData := Schema.templateData m;
     Schema.name := Schema.name m;
     Schema.from := Schema.from m;
     Schema.cc := Schema.cc m;
     Schema.bcc := Schema.bcc m;
     Schema.attachments := Schema.attachments m |}.

End Recipients.

(* ===================================================================== *)
(** ** The seeders of [src/seed] *)
(* ===================================================================== *)

Module TemplateSeeder.

Import JS Eff.

(** [interface EmailTemplateData], which is also what the seeder reads and
    writes of a row of [emailTemplates]. *)
Record EmailTemplateData := {
  name : string;
  subject : string;
  html : string
}.

(** The table, in insertion order. *)
Abbreviation Table := (list EmailTemplateData).

(** The statements that the seeder issues. *)
Inductive Statement :=
| FindFirst (templateName : string)
| UpdateByName (templateName subject html : string)
| Insert (row : EmailTemplateData).

(** [.set({ subject, html })] on a row. *)
Definition setContent (subject html : string) (row : EmailTemplateData) : EmailTemplateData :=
  {| name := name row; subject := subject; html := html |}.

Definition named (templateName : string) (row : EmailTemplateData) : bool :=
  bool_decide (name row = templateName).

Section Seeder.

(** What the database throws, if anything, on a statement given the table
    as it is (a lost connection, a constraint, a value too long). *)
Variable db_fault : Table -> Statement -> option thrown.

(** A statement: it throws and leaves the table alone, or has its effect
    and result. *)
Definition execute {A} (statement : Statement) (effect : Table -> A * Table)
    : M Table A :=
  fun table =>
    match db_fault table statement with
    | Some e => (Throw e, table)
    | None => let '(a, table') := effect table in (Return a, table')
    end.

(** [query.emailTemplates.findFirst({ where: eq(name, ...) })] *)
Definition findFirst (templateName : string) : M Table (option EmailTemplateData) :=
  execute (FindFirst templateName)
    (fun table => (List.find (named templateName) table, table)).

(** [update(emailTemplates).set({ subject, html }).where(eq(name, ...))] *)
Definition update (templateName subject html : string) : M Table unit :=
  execute (UpdateByName templateName subject html)
    (fun table =>
       (tt, map (fun row => if named templateName row
                            then setContent subject html row else row) table)).

(** [insert(emailTemplates).values(template)] *)
Definition insert (template : EmailTemplateData) : M Table unit :=
  execute (Insert template) (fun table => (tt, (table ++ [template])%list)).

(** The body of the loop: [true] where the code counts a success, [false]
    where its [catch] counts an error. *)
Definition seedTemplate (template : EmailTemplateData) : M Table bool :=
  try_catch
    (let* existingTemplate := findFirst (name template) in
     let* _ :=
       match existingTemplate with
       | Some _ => update (name template) (subject template) (html template)
       | None => insert template
       end in
     ret true)
    (fun error => ret false).

(** The loop, with the two counters. *)
Fixpoint seedLoop (templates : list EmailTemplateData) (successCount errorCount : nat)
    : M Table (nat * nat) :=
  match templates with
  | [] => ret (successCount, errorCount)
  | template :: rest =>
      let* succeeded := seedTemplate template in
      if succeeded then seedLoop rest (S successCount) errorCount
      else seedLoop rest successCount (S errorCount)
  end.

(** [createEmailTemplates], over the array [templates] that it declares
    (four templates, named as [seededNames] below, each with a subject and a
    long HTML body): it resolves to nothing, and the two counters are what
    it prints. *)
Definition createEmailTemplates (templates : list EmailTemplateData) : M Table (nat * nat) :=
  seedLoop templates 0 0.

End Seeder.

(** The table after a round of the loop in which nothing throws. *)
Definition upsert (template : EmailTemplateData) (table : Table) : Table :=
  match List.find (named (name template)) table with
  | Some _ =>
      map (fun row => if named (name template) row
                      then setContent (subject template) (html template) row else row) table
  | None => (table ++ [template])%list
  end.

(** The rows whose name is none of [names]. *)
Definition others (names : list string) (table : Table) : Table :=
  List.filter (fun row => negb (bool_decide (name row ∈ names))) table.

(** A template is in place: it is a row, and every row of its name is
    equal to it. *)
Definition inPlace (template : EmailTemplateData) (table : Table) : Prop :=
  template ∈ table
  /\ forall row, row ∈ table -> name row = name template -> row = template.

(** The names of the four templates that the seeder declares. *)
Definition seededNames : list string :=
  ["login_otp"; "password_reset"; "email_verification"; "welcome"].

End TemplateSeeder.

Module EmailSeeder.

Import JS Eff.

(** [interface EmailConfigData], which is a row of [email] without its
    key and timestamps. *)
Record EmailConfigData := {
  emailConfigName : string;
  settings : EmailService.EmailUpdate
}.

Abbreviation Table := (list EmailConfigData).

Inductive Statement :=
| SelectByName (configName : string)
| Insert (row : EmailConfigData)
| UpdateByName (configName : string) (host : string) (port : PortInput)
    (username password : string) (secure : bool) (fromEmail : string).

Definition named (configName : string) (row : EmailConfigData) : bool :=
  bool_decide (emailConfigName row = configName).

(** The three names, in the order of [emailConfigs]. *)
Definition configNames : list string := ["default_smtp"; "notifications"; "support"].

Section Seeder.

Variable env : MailerService.Env.
Variable db_fault : Table -> Statement -> option thrown.

Definition execute {A} (statement : Statement) (effect : Table -> A * Table)
    : M Table A :=
  fun table =>
    match db_fault table statement with
    | Some e => (Throw e, table)
    | None => let '(a, table') := effect table in (Return a, table')
    end.

(** An element of [emailConfigs]. *)
Definition configFor (configName : string) : EmailConfigData :=
  {| emailConfigName := configName;
     settings :=
       {| EmailService.host := MailerService.SMTP_HOST env;
          EmailService.port := MailerService.SMTP_PORT env;
          EmailService.secure := MailerService.portIs465 (MailerService.SMTP_PORT env);
          EmailService.username := MailerService.SMTP_USER env;
          EmailService.password := MailerService.SMTP_PASSWORD env;
          EmailService.fromName := "Webphics";
          EmailService.fromEmail := "info@webphics.com" |} |}.

Definition emailConfigs : list EmailConfigData := map configFor configNames.

(** [select().from(email).where(eq(emailConfigName, ...)).limit(1)] *)
Definition selectByName (configName : string) : M Table (list EmailConfigData) :=
  execute (SelectByName configName)
    (fun table => (take 1 (List.filter (named configName) table), table)).

Definition insert (config : EmailConfigData) : M Table unit :=
  execute (Insert config) (fun table => (tt, (table ++ [config])%list)).

(** The loop of [createEmailConfigurations]: an existing name is skipped,
    and whatever a statement throws is thrown again, which ends the loop.
    The counters are what the method prints when it returns. *)
Fixpoint createLoop (configs : list EmailConfigData) (createdCount skippedCount : nat)
    : M Table (nat * nat) :=
  match configs with
  | [] => ret (createdCount, skippedCount)
  | config :: rest =>
      let* created :=
        try_catch
          (let* existingConfig := selectByName (emailConfigName config) in
           if (0 <? length existingConfig)%nat then ret false
           else
             let* _ := insert config in
             ret true)
          (fun error => throw error) in
      if created then createLoop rest (S createdCount) skippedCount
      else createLoop rest createdCount (S skippedCount)
  end.

Definition createEmailConfigurations : M Table (nat * nat) :=
  createLoop emailConfigs 0 0.

(** [updateData] of [updateEmailConfigurations], without the timestamp. *)
Definition userOr (configName : string) : string :=
  or_default (Some (MailerService.SMTP_USER env)) (configName +:+ "@example.com").

Definition setFromEnv (configName : string) (row : EmailConfigData) : EmailConfigData :=
  {| emailConfigName := emailConfigName row;
     settings :=
       {| EmailService.host := MailerService.SMTP_HOST env;
          EmailService.port := MailerService.SMTP_PORT env;
          EmailService.secure := MailerService.portIs465 (MailerService.SMTP_PORT env);
          EmailService.username := userOr configName;
          EmailService.password := MailerService.SMTP_PASSWORD env;
          EmailService.fromName := EmailService.fromName (settings row);
          EmailService.fromEmail := userOr configName |} |}.

(** [update(email).set(updateData).where(eq(emailConfigName, ...))] *)
Definition updateByName (configName : string) : M Table unit :=
  execute
    (UpdateByName configName (MailerService.SMTP_HOST env) (MailerService.SMTP_PORT env)
       (userOr configName) (MailerService.SMTP_PASSWORD env)
       (MailerService.portIs465 (MailerService.SMTP_PORT env)) (userOr configName))
    (fun table =>
       (tt, map (fun row => if named configName row then setFromEnv configName row else row)
              table)).

(** The loop of [updateEmailConfigurations], with its counter. *)
Fixpoint updateLoop (names : list string) (updatedCount : nat) : M Table nat :=
  match names with
  | [] => ret updatedCount
  | configName :: rest =>
      let* updated :=
        try_catch
          (let* _ := updateByName configName in ret true)
          (fun error => ret false) in
      if updated then updateLoop rest (S updatedCount) else updateLoop rest updatedCount
  end.

Definition updateEmailConfigurations : M Table nat := updateLoop configNames 0.

End Seeder.

End EmailSeeder.

(* ===================================================================== *)
(** ** The environment schema of [src/core/env.ts] *)
(* ===================================================================== *)

Module EnvSchema.

Import JS.

Section Schema.

Variable Number_of_string : string -> number.

(** [if (opts?.min)]: a bound that is 0 counts as no bound. *)
Definition bound (limit : option Z) (check : Z -> bool) : bool :=
  match limit with
  | Some z => if (z =? 0)%Z then true else check z
  | None => true
  end.

(** [validateEnvNumber(name, { min, max, int })] on a value of
    [process.env]: a string that is not empty, whose [Number] is not [NaN],
    lies within the bounds and, with [int], is an integer. The result is
    the number. *)
Definition validateEnvNumber (min max : option Z) (int : bool) (value : PortInput)
    : option number :=
  match value with
  | PortNumber _ => None
  | PortString s =>
      let n := Number_of_string s in
      if Schema.min1 s
         && negb (EmailController.isNaN n)
         && bound min (fun z => le (of_Z z) n)
         && bound max (fun z => le n (of_Z z))
         && (if int then is_integer n else true)
      then Some n else None
  end.

(** [smtpEnvSchema]: the three strings are any strings. *)
Definition smtpEnvSchema_accepts (env : MailerService.Env) : bool :=
  match validateEnvNumber (Some 1%Z) (Some 65535%Z) true (MailerService.SMTP_PORT env) with
  | Some _ => true
  | None => false
  end.

End Schema.

End EnvSchema.

(* ===================================================================== *)
(** * Sample inputs *)
(* ===================================================================== *)

Module Samples.

Import JS.

(** [Number] on the strings that occur here. *)
Definition sampleNumber (s : string) : number :=
  if bool_decide (s = "587") then of_Z 587 else NaN.

(** ** Transport validator *)

(** A port with a fractional part that the update schema accepts. *)
Definition fractionalPortConfig : EmailService.EmailUpdate :=
  {| EmailService.host := "smtp.example.com";
     EmailService.port := PortNumber (of_dyadic 1175 (-1));
     EmailService.secure := true;
     EmailService.username := "user";
     EmailService.password := "secret";
     EmailService.fromName := "Sender";
     EmailService.fromEmail := "sender@example.com" |}.

(** A configuration whose port is still a string. *)
Definition portStringConfig (p : string) : EmailService.EmailUpdate :=
  {| EmailService.host := "smtp.example.com";
     EmailService.port := PortString p;
     EmailService.secure := true;
     EmailService.username := "user";
     EmailService.password := "secret";
     EmailService.fromName := "Sender";
     EmailService.fromEmail := "sender@example.com" |}.

(** A configuration with a given port and [secure] flag. *)
Definition configWith (p : number) (s : bool) : EmailService.EmailUpdate :=
  {| EmailService.host := "smtp.example.com";
     EmailService.port := PortNumber p;
     EmailService.secure := s;
     EmailService.username := "user";
     EmailService.password := "secret";
     EmailService.fromName := "Sender";
     EmailService.fromEmail := "sender@example.com" |}.

(** ** The world outside *)

(** An address is accepted when it has an [@]. *)
Definition hasAt (s : string) : bool :=
  match String.index 0 "@" s with Some _ => true | None => false end.

Definition issuesText (m : Schema.EmailMessage) : string := "Invalid message".
Definition configIssuesText (c : Schema.EmailConfigInput) : string := "Invalid configuration".

(** Every template compiles, and renders to its own source. *)
Definition compileAlways (source : string) : completion unit := Return tt.
Definition runEcho (source : string) (data : Schema.TemplateDataType) : completion string :=
  Return source.

(** A transport that accepts every request, and one that refuses all. *)
Definition transportAccepts
    (sent : list (Nodemailer.TransportOptions * Nodemailer.SendMailOptions))
    (t : Nodemailer.TransportOptions) (o : Nodemailer.SendMailOptions)
    : completion Nodemailer.SentMessageInfo :=
  Return {| Nodemailer.messageId := "<1@example.com>" |}.

Definition transportRefuses
    (sent : list (Nodemailer.TransportOptions * Nodemailer.SendMailOptions))
    (t : Nodemailer.TransportOptions) (o : Nodemailer.SendMailOptions)
    : completion Nodemailer.SentMessageInfo :=
  Throw (Error "connect ECONNREFUSED").

Definition sampleTransport : Nodemailer.TransportOptions :=
  {| Nodemailer.host := "smtp.example.com";
     Nodemailer.port := of_Z 587;
     Nodemailer.secure := false;
     Nodemailer.requireTLS := None;
     Nodemailer.auth := {| Schema.user := "mailer@example.com"; Schema.pass := "secret" |};
     Nodemailer.service := None;
     Nodemailer.tls := None |}.

(** A service as the constructor leaves it, and a world where nothing has
    happened yet. *)
Definition sampleService : Mailer.EmailSMTPService :=
  {| Mailer.transporter := sampleTransport;
     Mailer.defaultFrom := "mailer@example.com";
     Mailer.templateCache := ∅;
     Mailer.helpersRegistered := true |}.

Definition emptyWorld : Mailer.World :=
  {| Mailer.compileCalls := []; Mailer.outbox := [] |}.

Definition sampleState : Mailer.State := (sampleService, emptyWorld).

(** ** Messages *)

Definition plainMessage (text : option string) (name from : option string)
    : Schema.EmailMessage :=
  {| Schema.to := Schema.One "bob@example.com";
     Schema.subject := "Hello";
     Schema.text := text;
     Schema.html := None;
     Schema.templateHtml := None;
     Schema.templateData := None;
     Schema.name := name;
     Schema.from := from;
     Schema.cc := None;
     Schema.bcc := None;
     Schema.attachments := None |}.

(** A message with a text, and one whose text is the empty string. *)
Definition textMessage : Schema.EmailMessage := plainMessage (Some "hi") None None.
Definition emptyTextMessage : Schema.EmailMessage :=
  plainMessage (Some EmptyString) None None.

(** A message with none of the three content fields. *)
Definition noContentMessage : Schema.EmailMessage := plainMessage None None None.

(** A sender address with a display name, and with an empty one. *)
Definition aliceMessage : Schema.EmailMessage :=
  plainMessage (Some "hi") (Some "Alice") (Some "alice@example.com").
Definition emptyNameMessage : Schema.EmailMessage :=
  plainMessage (Some "hi") (Some EmptyString) (Some "alice@example.com").

Definition aliceRequest : Nodemailer.SendMailOptions :=
  {| Nodemailer.from := "Alice <alice@example.com>";
     Nodemailer.to := Schema.One "bob@example.com";
     Nodemailer.subject := "Hello";
     Nodemailer.text := Some "hi";
     Nodemailer.html := None;
     Nodemailer.cc := None;
     Nodemailer.bcc := None;
     Nodemailer.attachments := None |}.

(** Two templates that agree on their first 24 bytes. *)
Definition welcomeTemplate : string := "<p>Hello {{name}}, welcome!</p>".
Definition welcomeBackTemplate : string := "<p>Hello {{name}}, welcome back to us</p>".

Definition templatedMessage (templateHtml : string) (data : option Schema.TemplateDataType)
    : Schema.EmailMessage :=
  {| Schema.to := Schema.One "bob@example.com";
     Schema.subject := "Hello";
     Schema.text := None;
     Schema.html := None;
     Schema.templateHtml := Some templateHtml;
     Schema.templateData := data;
     Schema.name := None;
     Schema.from := None;
     Schema.cc := None;
     Schema.bcc := None;
     Schema.attachments := None |}.

Definition bobData : Schema.TemplateDataType := [("name", VStr "Bob")].
Definition carolData : Schema.TemplateDataType := [("name", VStr "Carol")].

(** ** The lookup bridge *)

(** The environment, and a named configuration that differs from it in
    host, port, security and credentials. *)
Definition sampleEnv : MailerService.Env :=
  {| MailerService.SMTP_HOST := "smtp.env.example";
     MailerService.SMTP_PORT := JS.PortString "587";
     MailerService.SMTP_USER := "mailer@example.com";
     MailerService.SMTP_PASSWORD := "env-secret" |}.

Definition namedRow : EmailService.EmailRow :=
  {| EmailService.id := 3;
     EmailService.emailConfigName := "support";
     EmailService.settings :=
       {| EmailService.host := "smtp.named.example";
          EmailService.port := PortNumber (of_Z 465);
          EmailService.secure := true;
          EmailService.username := "support-login";
          EmailService.password := "named-secret";
          EmailService.fromName := "Support";
          EmailService.fromEmail := "support@example.com" |} |}.

Definition welcomeRow : MailerService.EmailTemplateRow :=
  {| MailerService.template_subject := "Welcome";
     MailerService.template_html := welcomeTemplate |}.

Definition welcomeResponse
    : option (ServiceApi.ServiceApiResponse (option MailerService.EmailTemplateRow)) :=
  Some (ServiceApi.createResponse ServiceApi.OK "Email template retrieved successfully"
          (Some welcomeRow)).

(** Storage that knows the template "welcome" and the configuration
    "support". *)
Definition notFoundResponse
    : option (ServiceApi.ServiceApiResponse (option MailerService.EmailTemplateRow)) :=
  Some (ServiceApi.createResponse ServiceApi.NOT_FOUND "Email template not found" None).

Definition findTemplate (name : string)
    : completion (option (ServiceApi.ServiceApiResponse (option MailerService.EmailTemplateRow))) :=
  if bool_decide (name = "welcome") then Return welcomeResponse
  else Return notFoundResponse.

Definition findConfig (name : string) : completion (option EmailService.EmailRow) :=
  if bool_decide (name = "support") then Return (Some namedRow) else Return None.

Definition welcomeRequest : MailerService.SendEmailWithTemplate :=
  {| MailerService.templateName := "welcome";
     MailerService.emailConfigName := "support";
     MailerService.to := "bob@example.com";
     MailerService.templateData := Some bobData;
     MailerService.subject := None |}.

(** The transport that the environment describes, and the service built
    on it. *)
Definition envTransport : Nodemailer.TransportOptions :=
  {| Nodemailer.host := "smtp.env.example";
     Nodemailer.port := of_Z 587;
     Nodemailer.secure := false;
     Nodemailer.requireTLS := None;
     Nodemailer.auth := {| Schema.user := "mailer@example.com"; Schema.pass := "env-secret" |};
     Nodemailer.service := None;
     Nodemailer.tls := None |}.

Definition envService : Mailer.EmailSMTPService :=
  {| Mailer.transporter := envTransport;
     Mailer.defaultFrom := "mailer@example.com";
     Mailer.templateCache := ∅;
     Mailer.helpersRegistered := true |}.



(** The same request with the empty string as subject override, for a
    template that is not stored, and for a configuration that is not. *)
Definition emptySubjectRequest : MailerService.SendEmailWithTemplate :=
  {| MailerService.templateName := "welcome";
     MailerService.emailConfigName := "support";
     MailerService.to := "bob@example.com";
     MailerService.templateData := Some bobData;
     MailerService.subject := Some EmptyString |}.

Definition unknownTemplateRequest : MailerService.SendEmailWithTemplate :=
  {| MailerService.templateName := "goodbye";
     MailerService.emailConfigName := "support";
     MailerService.to := "bob@example.com";
     MailerService.templateData := Some bobData;
     MailerService.subject := None |}.

Definition unknownConfigRequest : MailerService.SendEmailWithTemplate :=
  {| MailerService.templateName := "welcome";
     MailerService.emailConfigName := "billing";
     MailerService.to := "bob@example.com";
     MailerService.templateData := Some bobData;
     MailerService.subject := None |}.

(** A third welcome template, with the same first 24 bytes, that calls a
    helper nobody has registered once for every element of [items]. *)
Definition shoutTemplate : string :=
  "<p>Hello {{name}}, welcome!</p>{{#each items}}{{shout this}}{{/each}}".

(** Data with a non-empty [items]. *)
Definition itemsData : Schema.TemplateDataType :=
  [("name", VStr "Carol"); ("items", VArr [VStr "a"])].

Fixpoint dataField (name : string) (data : Schema.TemplateDataType) : option value :=
  match data with
  | [] => None
  | (k, v) :: rest => if bool_decide (k = name) then Some v else dataField name rest
  end.

Definition hasItems (data : Schema.TemplateDataType) : bool :=
  match dataField "items" data with
  | Some (VArr (_ :: _)) => true
  | _ => false
  end.

(** [Missing helper: "shout"], the message of what Handlebars throws when
    a template calls the unknown helper [shout] with a parameter. *)
Definition missingHelper : string :=
  "Missing helper: " +:+ String "034"%char ("shout" +:+ String "034"%char EmptyString).

(** [{{name}}] on the sample data. *)
Definition nameOf (data : Schema.TemplateDataType) : string :=
  match dataField "name" data with
  | Some (VStr s) => s
  | _ => EmptyString
  end.

(** What Handlebars renders of the three welcome templates: [{{name}}] is
    replaced by the name; the body of [{{#each items}}] runs, and throws,
    only when [items] has an element. Any other source is taken to have no
    expression and renders to itself. *)
Definition runTemplates (source : string) (data : Schema.TemplateDataType)
    : completion string :=
  if bool_decide (source = shoutTemplate) then
    if hasItems data then Throw (Error missingHelper)
    else Return ("<p>Hello " +:+ nameOf data +:+ ", welcome!</p>")
  else if bool_decide (source = welcomeTemplate) then
    Return ("<p>Hello " +:+ nameOf data +:+ ", welcome!</p>")
  else if bool_decide (source = welcomeBackTemplate) then
    Return ("<p>Hello " +:+ nameOf data +:+ ", welcome back to us</p>")
  else Return source.

(** ** Direct templates *)

Definition welcomeArgs (data : option Schema.TemplateDataType)
    : DirectTemplate.SendEmailWithDirectTemplate :=
  {| DirectTemplate.to := "bob@example.com";
     DirectTemplate.subject := "Hello";
     DirectTemplate.templateHtml := welcomeTemplate;
     DirectTemplate.templateData := data;
     DirectTemplate.from := None;
     DirectTemplate.name := None |}.

(** Template storage that knows "welcome", and storage that is down. *)
Definition findTemplateRow (name : string) : completion (option MailerService.EmailTemplateRow) :=
  if bool_decide (name = "welcome") then Return (Some welcomeRow) else Return None.

Definition templateStoreDown (name : string)
    : completion (option MailerService.EmailTemplateRow) :=
  Throw (Error "connect ECONNREFUSED 127.0.0.1:5432").

(** ** Helpers *)

(** A configuration that the constructor accepts. *)
Definition sampleConfig : Schema.EmailConfigInput :=
  {| Schema.in_host := "smtp.example.com";
     Schema.in_port := PortNumber (of_Z 587);
     Schema.in_secure := false;
     Schema.in_auth := {| Schema.user := "mailer@example.com"; Schema.pass := "secret" |};
     Schema.in_service := None;
     Schema.in_tls := None |}.

(** The same configuration with the two optional settings. *)
Definition optionalConfig (service : option string) (tls : option Schema.Tls)
    : Schema.EmailConfigInput :=
  {| Schema.in_host := "smtp.example.com";
     Schema.in_port := PortNumber (of_Z 587);
     Schema.in_secure := false;
     Schema.in_auth := {| Schema.user := "mailer@example.com"; Schema.pass := "secret" |};
     Schema.in_service := service;
     Schema.in_tls := tls |}.

(** ** Seeders *)

(** A database that never throws. *)
Definition templateDbUp (table : TemplateSeeder.Table) (statement : TemplateSeeder.Statement)
    : option thrown := None.
Definition emailDbUp (table : EmailSeeder.Table) (statement : EmailSeeder.Statement)
    : option thrown := None.

(** Templates with the four seeded names and subjects, and short bodies. *)
Definition seedTemplates : list TemplateSeeder.EmailTemplateData :=
  [ {| TemplateSeeder.name := "login_otp";
       TemplateSeeder.subject := "Webphics - Login Verification Code";
       TemplateSeeder.html := "<p>Your code is {{otp}}</p>" |};
    {| TemplateSeeder.name := "password_reset";
       TemplateSeeder.subject := "Webphics - Password Reset Request";
       TemplateSeeder.html := "<p>Reset: {{resetUrl}}</p>" |};
    {| TemplateSeeder.name := "email_verification";
       TemplateSeeder.subject := "Webphics - Verify Your Email Address";
       TemplateSeeder.html := "<p>Verify: {{verificationUrl}}</p>" |};
    {| TemplateSeeder.name := "welcome";
       TemplateSeeder.subject := "Welcome to Webphics!";
       TemplateSeeder.html := welcomeTemplate |} ].

(** A table with an edited "welcome" row and a row of the user's own. *)
Definition editedTemplates : TemplateSeeder.Table :=
  [ {| TemplateSeeder.name := "welcome";
       TemplateSeeder.subject := "Hi there";
       TemplateSeeder.html := "<p>Edited by hand</p>" |};
    {| TemplateSeeder.name := "newsletter";
       TemplateSeeder.subject := "News";
       TemplateSeeder.html := "<p>{{body}}</p>" |} ].

(** A table that holds the configuration "support" with settings of its
    own. *)
Definition storedConfigs : EmailSeeder.Table :=
  [ {| EmailSeeder.emailConfigName := "support";
       EmailSeeder.settings := EmailService.settings namedRow |} ].

(** ** Port 465 in the environment *)

(** [Number] on the strings that occur as ports. *)
Definition portNumber (s : string) : number :=
  if bool_decide (s = "465") then of_Z 465
  else if bool_decide (s = "587") then of_Z 587 else NaN.

(** The environment as [process.env] holds it, with the port "465", and
    settings with that port handed to the validator. *)
Definition sslEnv : MailerService.Env :=
  {| MailerService.SMTP_HOST := "smtp.env.example";
     MailerService.SMTP_PORT := JS.PortString "465";
     MailerService.SMTP_USER := "mailer@example.com";
     MailerService.SMTP_PASSWORD := "env-secret" |}.

Definition sslService : Mailer.EmailSMTPService :=
  {| Mailer.transporter :=
       {| Nodemailer.host := "smtp.env.example";
          Nodemailer.port := of_Z 465;
          Nodemailer.secure := false;
          Nodemailer.requireTLS := None;
          Nodemailer.auth :=
            {| Schema.user := "mailer@example.com"; Schema.pass := "env-secret" |};
          Nodemailer.service := None;
          Nodemailer.tls := None |};
     Mailer.defaultFrom := "mailer@example.com";
     Mailer.templateCache := ∅;
     Mailer.helpersRegistered := true |}.

End Samples.

(* ===================================================================== *)
(** * Properties *)
(* ===================================================================== *)

(** ** The math helpers *)

Module HelpersSpec.

Import JS Helpers.

(** [b !== 0] is false exactly for [+0] and [-0]; [NaN !== 0] is true. *)
Lemma strict_ne_zero (b : number) : strict_ne b zero = negb (is_zero b).
Proof. destruct b as [s|s| |s m e]; try destruct s; reflexivity. Qed.

Lemma lookup_divide : mathHelpers !! "divide" = Some divide.
Proof.
  unfold mathHelpers, registerHelper.
  rewrite lookup_insert_ne by discriminate.
  apply lookup_insert_eq.
Qed.

Lemma lookup_modulo : mathHelpers !! "modulo" = Some modulo.
Proof. unfold mathHelpers, registerHelper. apply lookup_insert_eq. Qed.

Example divide_10_4 : divide (of_Z 10) (of_Z 4) = of_dyadic 5 (-1).
Proof. vm_compute. reflexivity. Qed.

Example divide_by_negative_zero : divide (of_Z 10) neg_zero = zero.
Proof. reflexivity. Qed.

Example divide_by_NaN : divide (of_Z 10) NaN = NaN.
Proof. reflexivity. Qed.

Example modulo_10_3 : modulo (of_Z 10) (of_Z 3) = of_Z 1.
Proof. vm_compute. reflexivity. Qed.

Example modulo_negative_dividend : modulo (of_Z (-7)) (of_Z 2) = of_Z (-1).
Proof. vm_compute. reflexivity. Qed.

Example modulo_fraction : modulo (of_dyadic 11 (-1)) (of_Z 2) = of_dyadic 3 (-1).
Proof. vm_compute. reflexivity. Qed.

(** C8. For all numbers [a] and [b], the [divide] helper returns [a / b]
    when [b] is not a zero and [0] when it is, the [modulo] helper returns
    [a % b] when [b] is not a zero and [0] when it is, these are the helpers
    that the names "divide" and "modulo" are registered for, and the call
    made for [{{divide a b}}] with [a = 10] and [b = 0] gives [0]. *)
Theorem divide_modulo_zero_divisor (a b : number) :
  divide a b = (if is_zero b then zero else JS.div a b)
  /\ modulo a b = (if is_zero b then zero else JS.rem a b)
  /\ callHelper "divide" a b = Some (divide a b)
  /\ callHelper "modulo" a b = Some (modulo a b)
  /\ callHelper "divide" (of_Z 10) (of_Z 0) = Some (of_Z 0).
Proof.
  unfold callHelper. rewrite lookup_divide, lookup_modulo.
  assert (Hd : divide a b = if is_zero b then zero else JS.div a b).
  { unfold divide. rewrite strict_ne_zero. by destruct (is_zero b). }
  assert (Hm : modulo a b = if is_zero b then zero else JS.rem a b).
  { unfold modulo. rewrite strict_ne_zero. by destruct (is_zero b). }
  repeat split; assumption.
Qed.

End HelpersSpec.

(** ** The transport validator *)

Module EmailServiceSpec.

Import JS EmailService Samples.

Section Facts.

Variable Number_of_string : string -> number.

Local Abbreviation probeOptions := (EmailService.probeOptions Number_of_string).
Local Abbreviation Number := (JS.Number Number_of_string).

(** The port that reaches the transport. *)
Lemma probe_port_Number (c : EmailUpdate) :
  probe_port (probeOptions c) = Number (port c).
Proof.
  unfold EmailService.probeOptions.
  destruct (strict_eq (Number (port c)) (of_Z 465)); [reflexivity |].
  destruct (strict_eq (Number (port c)) (of_Z 587) || strict_eq (Number (port c)) (of_Z 25));
    reflexivity.
Qed.

(** The two flags as a table over the port. *)
Lemma probe_flags (c : EmailUpdate) :
  (probe_secure (probeOptions c), probe_requireTLS (probeOptions c)) =
    (if strict_eq (Number (port c)) (of_Z 465) then (true, false)
     else if strict_eq (Number (port c)) (of_Z 587) || strict_eq (Number (port c)) (of_Z 25)
          then (false, true)
          else (secure c, false)).
Proof.
  unfold EmailService.probeOptions.
  destruct (strict_eq (Number (port c)) (of_Z 465)); [reflexivity |].
  destruct (strict_eq (Number (port c)) (of_Z 587) || strict_eq (Number (port c)) (of_Z 25));
    reflexivity.
Qed.

(** C4, amended. The transport validator passes the port on as
    [Number(port)], which for a port that is a number is that number
    unchanged (an integer only when the caller's is), and derives the flags
    from it: 465 gives [secure = true]; 587 and 25 give [secure = false] and
    [requireTLS = true]; any other port keeps the caller's [secure]; and
    [requireTLS] is false for every port but 587 and 25. *)
Theorem probeOptions_port_and_tls (c : EmailUpdate) :
  probe_port (probeOptions c) = Number (port c)
  /\ (forall n, port c = PortNumber n ->
        probe_port (probeOptions c) = n
        /\ is_integer (probe_port (probeOptions c)) = is_integer n)
  /\ (probe_secure (probeOptions c), probe_requireTLS (probeOptions c)) =
       (if strict_eq (Number (port c)) (of_Z 465) then (true, false)
        else if strict_eq (Number (port c)) (of_Z 587)
                || strict_eq (Number (port c)) (of_Z 25)
             then (false, true)
             else (secure c, false)).
Proof.
  split; [apply probe_port_Number |]. split; [| apply probe_flags].
  intros n Hn. rewrite probe_port_Number, Hn. by split.
Qed.

End Facts.

(** *** On sample inputs *)

Local Abbreviation probeSample := (EmailService.probeOptions sampleNumber).

Example probe_465 (s : bool) :
  probe_secure (probeSample (configWith (of_Z 465) s)) = true
  /\ probe_requireTLS (probeSample (configWith (of_Z 465) s)) = false.
Proof. vm_compute. split; reflexivity. Qed.

Example probe_587 (s : bool) :
  probe_secure (probeSample (configWith (of_Z 587) s)) = false
  /\ probe_requireTLS (probeSample (configWith (of_Z 587) s)) = true.
Proof. vm_compute. split; reflexivity. Qed.

Example probe_25 (s : bool) :
  probe_secure (probeSample (configWith (of_Z 25) s)) = false
  /\ probe_requireTLS (probeSample (configWith (of_Z 25) s)) = true.
Proof. vm_compute. split; reflexivity. Qed.

Example probe_2525 (s : bool) :
  probe_secure (probeSample (configWith (of_Z 2525) s)) = s
  /\ probe_requireTLS (probeSample (configWith (of_Z 2525) s)) = false.
Proof. vm_compute. split; reflexivity. Qed.

Example probe_string_587 :
  probe_port (probeSample (portStringConfig "587")) = of_Z 587
  /\ probe_secure (probeSample (portStringConfig "587")) = false
  /\ probe_requireTLS (probeSample (portStringConfig "587")) = true.
Proof. vm_compute. repeat split. Qed.

(** C4, amended, at the port 465 with [secure] left false by the caller. *)
Lemma probeOptions_port_and_tls_witness :
  probe_port (probeSample (configWith (of_Z 465) false)) = of_Z 465
  /\ (probe_secure (probeSample (configWith (of_Z 465) false)),
      probe_requireTLS (probeSample (configWith (of_Z 465) false))) = (true, false).
Proof.
  destruct (probeOptions_port_and_tls sampleNumber (configWith (of_Z 465) false))
    as (_ & Hn & Hf).
  split; [exact (proj1 (Hn (of_Z 465) eq_refl)) |].
  rewrite Hf. vm_compute. reflexivity.
Defined.

(** C4, as stated, fails: the port 587.5 passes the update schema (which
    asks for [1 <= port <= 65535] and for no integer) and reaches the
    transport as 587.5, which is no integer; it then counts as none of the
    well-known ports. *)
Lemma probeOptions_fractional_port :
  port fractionalPortConfig = PortNumber (of_dyadic 1175 (-1))
  /\ emailUpdateSchema_safeParse sampleNumber fractionalPortConfig
     = Some fractionalPortConfig
  /\ probe_port (probeSample fractionalPortConfig) = of_dyadic 1175 (-1)
  /\ is_integer (probe_port (probeSample fractionalPortConfig)) = false
  /\ probe_secure (probeSample fractionalPortConfig) = true
  /\ probe_requireTLS (probeSample fractionalPortConfig) = false.
Proof. vm_compute. repeat split. Qed.

End EmailServiceSpec.

(** ** Base64 and the cache key *)

Module Base64Spec.

Import Base64.

Lemma substring_0_0 (s : string) : String.substring 0 0 s = EmptyString.
Proof. by destruct s. Qed.

Lemma substring_0_S (n : nat) (c : ascii) (s : string) :
  String.substring 0 (S n) (String c s) = String c (String.substring 0 n s).
Proof. reflexivity. Qed.

Lemma append_cons (c : ascii) (s t : string) : String c s +:+ t = String c (s +:+ t).
Proof. reflexivity. Qed.

Lemma append_nil (t : string) : EmptyString +:+ t = t.
Proof. reflexivity. Qed.

(** The first [4 n] characters of the encoding are those of the encoding
    of the first [3 n] bytes. *)
Lemma encode_prefix (n : nat) :
  forall s : string,
    String.substring 0 (4 * n) (encode s)
    = String.substring 0 (4 * n) (encode (String.substring 0 (3 * n) s)).
Proof.
  induction n as [|n IH]; intros s.
  - by rewrite Nat.mul_0_r, !substring_0_0.
  - replace (4 * S n)%nat with (S (S (S (S (4 * n))))) by lia.
    replace (3 * S n)%nat with (S (S (S (3 * n)))) by lia.
    destruct s as [|a [|b [|c rest]]]; try reflexivity.
    change (encode (String a (String b (String c rest))))
      with (quad a b c +:+ encode rest).
    change (String.substring 0 (S (S (S (3 * n)))) (String a (String b (String c rest))))
      with (String a (String b (String c (String.substring 0 (3 * n) rest)))).
    change (encode (String a (String b (String c (String.substring 0 (3 * n) rest)))))
      with (quad a b c +:+ encode (String.substring 0 (3 * n) rest)).
    unfold quad. rewrite !append_cons, !append_nil, !substring_0_S.
    by rewrite IH.
Qed.

Lemma deriveCacheKey_prefix (s : string) :
  Mailer.deriveCacheKey s = Mailer.deriveCacheKey (String.substring 0 24 s).
Proof.
  unfold Mailer.deriveCacheKey. f_equal. apply (encode_prefix 8).
Qed.

Lemma deriveCacheKey_agree (s1 s2 : string) :
  String.substring 0 24 s1 = String.substring 0 24 s2 ->
  Mailer.deriveCacheKey s1 = Mailer.deriveCacheKey s2.
Proof.
  intros H. by rewrite (deriveCacheKey_prefix s1), (deriveCacheKey_prefix s2), H.
Qed.

Lemma deriveCacheKey_truthy (s : string) :
  JS.truthy_string (Mailer.deriveCacheKey s) = true.
Proof. reflexivity. Qed.

Example encode_Man : encode "Man" = "TWFu".
Proof. reflexivity. Qed.

Example encode_padding : encode "light work." = "bGlnaHQgd29yay4=" /\ encode "light work" = "bGlnaHQgd29yaw==".
Proof. split; reflexivity. Qed.

End Base64Spec.

(** ** The template cache ([compileTemplate], [renderTemplate]) *)

Module CacheSpec.

Import JS Eff Mailer.

Section Facts.

Variable Handlebars_compile : string -> completion unit.
Variable Handlebars_run : string -> Schema.TemplateDataType -> completion string.

Local Abbreviation compileTemplate := (Mailer.compileTemplate Handlebars_compile).
Local Abbreviation renderTemplate := (Mailer.renderTemplate Handlebars_compile Handlebars_run).

(** A key that [if (cacheKey)] lets through. *)
Lemma cached_key (key : string) (this : EmailSMTPService) :
  truthy_string key = true ->
  cached (Some key) this = templateCache this !! key.
Proof. intros H. unfold cached. by rewrite H. Qed.

Lemma cached_empty_key (this : EmailSMTPService) : cached (Some EmptyString) this = None.
Proof. reflexivity. Qed.

(** A hit: the stored delegate, and nothing else happens. *)
Lemma compileTemplate_hit (t : string) (cacheKey : option string) (d : TemplateDelegate)
    (this : EmailSMTPService) (w : World) :
  cached cacheKey this = Some d ->
  compileTemplate t cacheKey (this, w) = (Return d, (this, w)).
Proof.
  intros H. unfold Mailer.compileTemplate, bind, get. by rewrite H.
Qed.

(** A miss with a key: one call of [Handlebars.compile], and the new
    delegate is stored under the key. *)
Lemma compileTemplate_miss_store (t key : string) (this : EmailSMTPService) (w : World) (u : unit) :
  truthy_string key = true ->
  templateCache this !! key = None ->
  Handlebars_compile t = Return u ->
  compileTemplate t (Some key) (this, w)
  = (Return (newDelegate t w), (set_cache key (newDelegate t w) this, log_compile t w)).
Proof.
  intros Hk Hc Ho.
  unfold Mailer.compileTemplate, bind, get, try_catch, call_compile, store, modify, ret.
  rewrite (cached_key _ _ Hk), Hc, Ho, Hk. reflexivity.
Qed.

(** Without a key (or with the empty one): one call of
    [Handlebars.compile], and the instance is left as it was. *)
Lemma compileTemplate_no_key (t : string) (cacheKey : option string)
    (this : EmailSMTPService) (w : World) (u : unit) :
  truthy cacheKey = false ->
  Handlebars_compile t = Return u ->
  compileTemplate t cacheKey (this, w) = (Return (newDelegate t w), (this, log_compile t w)).
Proof.
  intros Hk Ho.
  unfold Mailer.compileTemplate, bind, get, try_catch, call_compile, store, modify, ret, cached.
  destruct cacheKey as [key|]; simpl in Hk; rewrite ?Hk, Ho; reflexivity.
Qed.

(** A miss whose compilation throws: the wrapped error, nothing stored. *)
Lemma compileTemplate_throw (t : string) (cacheKey : option string)
    (this : EmailSMTPService) (w : World) (e : thrown) :
  cached cacheKey this = None ->
  Handlebars_compile t = Throw e ->
  compileTemplate t cacheKey (this, w) = (Throw (compileError e), (this, log_compile t w)).
Proof.
  intros Hc Ho.
  unfold Mailer.compileTemplate, bind, get, try_catch, call_compile, throw.
  by rewrite Hc, Ho.
Qed.

(** [compileTemplate] touches neither the transport nor the outbox, and
    only ever adds to the log of compilations. *)
Lemma compileTemplate_frame (t : string) (cacheKey : option string)
    (this : EmailSMTPService) (w : World) :
  let '(_, (this', w')) := compileTemplate t cacheKey (this, w) in
  transporter this' = transporter this
  /\ defaultFrom this' = defaultFrom this
  /\ outbox w' = outbox w.
Proof.
  unfold Mailer.compileTemplate, bind, get, try_catch, call_compile, store, modify, ret, throw.
  destruct (cached cacheKey this); [done |].
  destruct (Handlebars_compile t); [| done].
  destruct cacheKey as [key|]; [| done]. by destruct (truthy_string key).
Qed.

(** [renderTemplate] in terms of [compileTemplate]. *)
Lemma renderTemplate_unfold (t : string) (data : Schema.TemplateDataType)
    (cacheKey : option string) (s : State) :
  renderTemplate t data cacheKey s =
    match compileTemplate t cacheKey s with
    | (Return d, s') =>
        match Handlebars_run (delegateSource d) data with
        | Return text => (Return text, s')
        | Throw e => (Throw (renderError e), s')
        end
    | (Throw e, s') => (Throw (renderError e), s')
    end.
Proof.
  unfold Mailer.renderTemplate, try_catch, bind, lift, throw.
  destruct (compileTemplate t cacheKey s) as [[d|e] s']; [| done].
  by destruct (Handlebars_run (delegateSource d) data).
Qed.

End Facts.

End CacheSpec.

Module CompileTemplateSpec.

Import JS Eff Mailer Samples CacheSpec.

Example compile_twice_same_key :
  let '(r1, s1) := compileTemplate compileAlways "<p>Hi</p>" (Some "welcome") sampleState in
  let '(r2, s2) := compileTemplate compileAlways "<p>Hi</p>" (Some "welcome") s1 in
  r1 = Return {| delegateId := 0; delegateSource := "<p>Hi</p>" |}
  /\ r2 = r1
  /\ compileCalls (snd s2) = ["<p>Hi</p>"].
Proof. vm_compute. repeat split. Qed.

Example compile_twice_no_key :
  let '(r1, s1) := compileTemplate compileAlways "<p>Hi</p>" None sampleState in
  let '(r2, s2) := compileTemplate compileAlways "<p>Hi</p>" None s1 in
  r1 = Return {| delegateId := 0; delegateSource := "<p>Hi</p>" |}
  /\ r2 = Return {| delegateId := 1; delegateSource := "<p>Hi</p>" |}
  /\ templateCache (fst s2) = ∅
  /\ compileCalls (snd s2) = ["<p>Hi</p>"; "<p>Hi</p>"].
Proof. vm_compute. repeat split. Qed.

(** The guards [if (cacheKey)] read the key by truthiness, so the empty
    string would count as no key. No caller passes it: [compileTemplate] is
    private, and [sendEmail] hands down a derived key, which starts with
    "template_", or none. *)
Example compileTemplate_empty_key_not_stored :
  let '(r1, s1) := compileTemplate compileAlways "<p>Hi</p>" (Some EmptyString) sampleState in
  let '(r2, s2) := compileTemplate compileAlways "<p>Hi</p>" (Some EmptyString) s1 in
  templateCache (fst sampleState) !! EmptyString = None
  /\ r1 = Return {| delegateId := 0; delegateSource := "<p>Hi</p>" |}
  /\ templateCache (fst s1) !! EmptyString = None
  /\ r2 = Return {| delegateId := 1; delegateSource := "<p>Hi</p>" |}
  /\ compileCalls (snd s2) = ["<p>Hi</p>"; "<p>Hi</p>"].
Proof. vm_compute. repeat split. Qed.

Section Facts.

Variable Handlebars_compile : string -> completion unit.

Local Abbreviation compileTemplate := (Mailer.compileTemplate Handlebars_compile).

(** The contract of the cache at any key that is not the empty string. *)
Lemma compileTemplate_nonempty_key (t key : string) (this : EmailSMTPService) (w : World) :
  truthy_string key = true ->
  (forall d, templateCache this !! key = Some d ->
     compileTemplate t (Some key) (this, w) = (Return d, (this, w)))
  /\ (forall u, templateCache this !! key = None -> Handlebars_compile t = Return u ->
        compileTemplate t (Some key) (this, w)
        = (Return (newDelegate t w),
           (set_cache key (newDelegate t w) this, log_compile t w))
        /\ templateCache (set_cache key (newDelegate t w) this) !! key
           = Some (newDelegate t w))
  /\ (forall e, templateCache this !! key = None -> Handlebars_compile t = Throw e ->
        compileTemplate t (Some key) (this, w)
        = (Throw (compileError e), (this, log_compile t w)))
  /\ (forall d s', compileTemplate t (Some key) (this, w) = (Return d, s') ->
        compileTemplate t (Some key) s' = (Return d, s'))
  /\ (forall r this' w', compileTemplate t None (this, w) = (r, (this', w')) ->
        templateCache this' = templateCache this
        /\ compileCalls w' = (compileCalls w ++ [t])%list).
Proof.
  intros Hk.
  split; [| split; [| split; [| split]]].
  - intros d Hd. apply compileTemplate_hit. by rewrite cached_key.
  - intros u Hc Ho. split.
    + by apply (compileTemplate_miss_store _ t key this w u).
    + apply lookup_insert_eq.
  - intros e Hc Ho. apply compileTemplate_throw; [by rewrite cached_key | done].
  - intros d s' H.
    destruct (templateCache this !! key) as [d0|] eqn:Hc.
    + rewrite (compileTemplate_hit _ t (Some key) d0) in H by (by rewrite cached_key).
      inversion H; subst. apply compileTemplate_hit. by rewrite cached_key.
    + destruct (Handlebars_compile t) as [u|e] eqn:Ho.
      * rewrite (compileTemplate_miss_store _ t key this w u Hk Hc Ho) in H.
        inversion H; subst. apply compileTemplate_hit.
        rewrite cached_key by done. apply lookup_insert_eq.
      * rewrite (compileTemplate_throw _ t (Some key) this w e) in H; [done | | done].
        by rewrite cached_key.
  - intros r this' w' H.
    destruct (Handlebars_compile t) as [u|e] eqn:Ho.
    + rewrite (compileTemplate_no_key _ t None this w u) in H by done.
      by inversion H.
    + rewrite (compileTemplate_throw _ t None this w e) in H by done.
      by inversion H.
Qed.

(** C6. [compileTemplate] is private; through [renderTemplate] its one
    caller is [sendEmail], which passes no key or the key derived from a
    template source, "template_" and 32 characters. For every template
    [t], every such key and every state: a key present in the cache gives
    the stored renderer, with no call of [Handlebars.compile] and no change
    of state; a key absent from the cache has the template compiled, and the
    new renderer is stored under the key before the call returns (when the
    compilation throws, the wrapped error is thrown and nothing is stored);
    so whenever a call with the key returns a renderer, the next call with
    that key returns the very same renderer and compiles nothing. A call
    with no key compiles on every call and leaves the cache as it was. *)
Theorem compileTemplate_cache (t source : string) (this : EmailSMTPService) (w : World) :
  (forall m, cacheKeyOf m source = None
             \/ cacheKeyOf m source = Some (deriveCacheKey source))
  /\ (forall d, templateCache this !! deriveCacheKey source = Some d ->
        compileTemplate t (Some (deriveCacheKey source)) (this, w) = (Return d, (this, w)))
  /\ (forall u, templateCache this !! deriveCacheKey source = None ->
        Handlebars_compile t = Return u ->
        compileTemplate t (Some (deriveCacheKey source)) (this, w)
        = (Return {| delegateId := length (compileCalls w); delegateSource := t |},
           ({| transporter := transporter this;
               defaultFrom := defaultFrom this;
               templateCache :=
                 <[deriveCacheKey source := {| delegateId := length (compileCalls w);
                                               delegateSource := t |}]> (templateCache this);
               helpersRegistered := helpersRegistered this |},
            {| compileCalls := compileCalls w ++ [t]; outbox := outbox w |})))
  /\ (forall e, templateCache this !! deriveCacheKey source = None ->
        Handlebars_compile t = Throw e ->
        compileTemplate t (Some (deriveCacheKey source)) (this, w)
        = (Throw (Error ("Failed to compile template: "
                         +:+ match e with
                             | Error text | HttpError _ text => text
                             | Other _ _ => "Unknown error"
                             end)),
           (this, {| compileCalls := compileCalls w ++ [t]; outbox := outbox w |})))
  /\ (forall d s', compileTemplate t (Some (deriveCacheKey source)) (this, w) = (Return d, s') ->
        compileTemplate t (Some (deriveCacheKey source)) s' = (Return d, s'))
  /\ (forall u, Handlebars_compile t = Return u ->
        compileTemplate t None (this, w)
        = (Return {| delegateId := length (compileCalls w); delegateSource := t |},
           (this, {| compileCalls := compileCalls w ++ [t]; outbox := outbox w |})))
  /\ (forall r this' w', compileTemplate t None (this, w) = (r, (this', w')) ->
        templateCache this' = templateCache this
        /\ compileCalls w' = (compileCalls w ++ [t])%list).
Proof.
  destruct (compileTemplate_nonempty_key t (deriveCacheKey source) this w
              (Base64Spec.deriveCacheKey_truthy source)) as (H1 & H2 & H3 & H4 & H5).
  split; [| split; [| split; [| split; [| split; [| split]]]]].
  - intros m. unfold cacheKeyOf. destruct (Schema.templateData m); [by right | by left].
  - exact H1.
  - intros u Hc Ho. by destruct (H2 u Hc Ho) as [E _].
  - intros e Hc Ho. rewrite (H3 e Hc Ho). by destruct e.
  - exact H4.
  - intros u Ho. by rewrite (compileTemplate_no_key _ t None this w u).
  - exact H5.
Qed.

End Facts.

(** The contract of C6 at the key derived from the welcome template. *)
Lemma compileTemplate_cache_witness :
  deriveCacheKey welcomeTemplate = "template_PHA+SGVsbG8ge3tuYW1lfX0sIHdlbGNv"
  /\ (forall d s',
        Mailer.compileTemplate compileAlways welcomeTemplate
          (Some (deriveCacheKey welcomeTemplate)) sampleState = (Return d, s') ->
        Mailer.compileTemplate compileAlways welcomeTemplate
          (Some (deriveCacheKey welcomeTemplate)) s' = (Return d, s')).
Proof.
  split; [reflexivity |].
  exact (proj1 (proj2 (proj2 (proj2 (proj2
    (compileTemplate_cache compileAlways welcomeTemplate welcomeTemplate
       sampleService emptyWorld)))))).
Defined.

End CompileTemplateSpec.

(** ** [sendEmail], step by step *)

Module SendEmailSpec.

Import JS Eff Mailer CacheSpec.

Section Facts.

Variable isEmail : string -> bool.
Variable zodMessageIssues : Schema.EmailMessage -> string.
Variable Handlebars_compile : string -> completion unit.
Variable Handlebars_run : string -> Schema.TemplateDataType -> completion string.
Variable transporter_sendMail :
  list (Nodemailer.TransportOptions * Nodemailer.SendMailOptions) ->
  Nodemailer.TransportOptions -> Nodemailer.SendMailOptions ->
  completion Nodemailer.SentMessageInfo.
Variable Number_of_string : string -> number.
Variable zodConfigIssues : Schema.EmailConfigInput -> string.

Local Abbreviation messageValid := (Schema.messageValid isEmail).
Local Abbreviation parse := (Schema.emailMessageSchema_parse isEmail zodMessageIssues).
Local Abbreviation compileTemplate := (Mailer.compileTemplate Handlebars_compile).
Local Abbreviation renderTemplate := (Mailer.renderTemplate Handlebars_compile Handlebars_run).
Local Abbreviation htmlContentOf := (Mailer.htmlContentOf Handlebars_compile Handlebars_run).
Local Abbreviation rendered := (Mailer.rendered Handlebars_run).
Local Abbreviation sendEmail :=
  (Mailer.sendEmail isEmail zodMessageIssues Handlebars_compile Handlebars_run
     transporter_sendMail).

Lemma parse_valid (m : Schema.EmailMessage) :
  messageValid m = true -> parse m = Return m.
Proof. intros H. unfold Schema.emailMessageSchema_parse. by rewrite H. Qed.

Lemma parse_invalid (m : Schema.EmailMessage) :
  messageValid m = false -> parse m = Throw (Error (zodMessageIssues m)).
Proof. intros H. unfold Schema.emailMessageSchema_parse. by rewrite H. Qed.

(** A rejected message: the failure result, and nothing has happened. *)
Lemma sendEmail_invalid (m : Schema.EmailMessage) (s : State) :
  messageValid m = false ->
  sendEmail m s = (Return (failed (Error (zodMessageIssues m))), s).
Proof.
  intros H.
  unfold Mailer.sendEmail, Mailer.sendEmail_try, try_catch, bind, lift, ret.
  by rewrite (parse_invalid m H).
Qed.

(** An accepted message: render, then hand over to the transport. *)
Lemma sendEmail_valid (m : Schema.EmailMessage) (s : State) :
  messageValid m = true ->
  sendEmail m s =
    match htmlContentOf m s with
    | (Return h, (this', w')) => dispatch transporter_sendMail m h this' w'
    | (Throw e, s') => (Return (failed e), s')
    end.
Proof.
  intros H.
  unfold Mailer.sendEmail, Mailer.sendEmail_try, try_catch, bind, lift, ret, get,
    call_sendMail, dispatch.
  rewrite (parse_valid m H).
  destruct (htmlContentOf m s) as [[h|e] [this' w']]; [| done].
  by destruct (transporter_sendMail _ _ _).
Qed.

Lemma htmlContentOf_plain (m : Schema.EmailMessage) (s : State) :
  templateOf m = None -> htmlContentOf m s = (Return (Schema.html m), s).
Proof. intros H. unfold Mailer.htmlContentOf. by rewrite H. Qed.

Lemma htmlContentOf_template (m : Schema.EmailMessage) (t : string) (s : State) :
  templateOf m = Some t ->
  htmlContentOf m s =
    match renderTemplate t (default [] (Schema.templateData m)) (cacheKeyOf m t) s with
    | (Return text, s') => (Return (Some text), s')
    | (Throw e, s') => (Throw e, s')
    end.
Proof.
  intros H. unfold Mailer.htmlContentOf, bind, ret. rewrite H.
  by destruct (renderTemplate _ _ _ s) as [[text|e] s'].
Qed.

(** Rendering leaves the transport, the default sender and the outbox
    alone. *)
Lemma htmlContentOf_frame (m : Schema.EmailMessage) (this : EmailSMTPService) (w : World) :
  let '(_, (this', w')) := htmlContentOf m (this, w) in
  transporter this' = transporter this
  /\ defaultFrom this' = defaultFrom this
  /\ outbox w' = outbox w.
Proof.
  destruct (templateOf m) as [t|] eqn:Ht.
  - rewrite (htmlContentOf_template m t _ Ht), renderTemplate_unfold.
    pose proof (compileTemplate_frame Handlebars_compile t (cacheKeyOf m t) this w) as F.
    destruct (compileTemplate t (cacheKeyOf m t) (this, w)) as [[d|e] [this' w']]; [| done].
    by destruct (Handlebars_run _ _).
  - by rewrite (htmlContentOf_plain m _ Ht).
Qed.

(** What the rendering step throws is an [Error] whose message starts
    with "Failed to render template: ". *)
Lemma htmlContentOf_throws (m : Schema.EmailMessage) (s : State) (e : thrown) :
  fst (htmlContentOf m s) = Throw e ->
  exists text, e = Error ("Failed to render template: " +:+ text).
Proof.
  destruct (templateOf m) as [t|] eqn:Ht.
  - rewrite (htmlContentOf_template m t _ Ht), renderTemplate_unfold.
    destruct (compileTemplate t (cacheKeyOf m t) s) as [[d|e0] s'].
    + destruct (Handlebars_run _ _) as [text|e1]; simpl; [done |].
      intros H. injection H as <-. by eexists.
    + simpl. intros H. injection H as <-. by eexists.
  - by rewrite (htmlContentOf_plain m _ Ht).
Qed.

(** The [from] header reads the service through its default sender only. *)
Lemma resolveFrom_defaultFrom (m : Schema.EmailMessage) (this this' : EmailSMTPService) :
  defaultFrom this' = defaultFrom this -> resolveFrom m this' = resolveFrom m this.
Proof. intros H. unfold resolveFrom. by rewrite H. Qed.

Lemma mailOptionsOf_defaultFrom (m : Schema.EmailMessage) (h : option string)
    (this this' : EmailSMTPService) :
  defaultFrom this' = defaultFrom this -> mailOptionsOf m h this' = mailOptionsOf m h this.
Proof. intros H. unfold mailOptionsOf. by rewrite (resolveFrom_defaultFrom m this this' H). Qed.

(** The four ways through [sendEmail]. *)
Lemma sendEmail_cases (m : Schema.EmailMessage) (this : EmailSMTPService) (w : World) :
  (messageValid m = false
   /\ sendEmail m (this, w)
      = (Return {| success := false; messageId := None; error := Some (zodMessageIssues m) |},
         (this, w)))
  \/ (exists text this' w',
        messageValid m = true
        /\ htmlContentOf m (this, w)
           = (Throw (Error ("Failed to render template: " +:+ text)), (this', w'))
        /\ outbox w' = outbox w
        /\ sendEmail m (this, w)
           = (Return {| success := false;
                        messageId := None;
                        error := Some ("Failed to render template: " +:+ text) |},
              (this', w')))
  \/ (exists h this' w1 info,
        messageValid m = true
        /\ htmlContentOf m (this, w) = (Return h, (this', w1))
        /\ transporter_sendMail (outbox w) (transporter this) (mailOptionsOf m h this)
           = Return info
        /\ sendEmail m (this, w)
           = (Return {| success := true;
                        messageId := Some (Nodemailer.messageId info);
                        error := None |},
              (this', {| compileCalls := compileCalls w1;
                         outbox := outbox w
                                   ++ [(transporter this, mailOptionsOf m h this)] |})))
  \/ (exists h this' w1 e,
        messageValid m = true
        /\ htmlContentOf m (this, w) = (Return h, (this', w1))
        /\ transporter_sendMail (outbox w) (transporter this) (mailOptionsOf m h this)
           = Throw e
        /\ sendEmail m (this, w)
           = (Return {| success := false;
                        messageId := None;
                        error := Some match e with
                                      | Error text | HttpError _ text => text
                                      | Other _ _ => "Unknown error occurred"
                                      end |},
              (this', {| compileCalls := compileCalls w1;
                         outbox := outbox w
                                   ++ [(transporter this, mailOptionsOf m h this)] |}))).
Proof.
  destruct (messageValid m) eqn:Hv.
  - right. rewrite (sendEmail_valid m _ Hv).
    pose proof (htmlContentOf_frame m this w) as F.
    pose proof (htmlContentOf_throws m (this, w)) as T.
    destruct (htmlContentOf m (this, w)) as [[h|e] [this1 w1]] eqn:Hh.
    + right. destruct F as (Ft & Fd & Fo). unfold dispatch, log_send.
      rewrite Ft, Fo, (mailOptionsOf_defaultFrom m h this this1 Fd).
      destruct (transporter_sendMail (outbox w) (transporter this)
                  (mailOptionsOf m h this)) as [info|e] eqn:Hs.
      * left. by exists h, this1, w1, info.
      * right. exists h, this1, w1, e. repeat (split; [done |]). by destruct e.
    + left. destruct F as (_ & _ & Fo). destruct (T e eq_refl) as [text ->].
      by exists text, this1, w1.
  - left. split; [done |]. by rewrite (sendEmail_invalid m _ Hv).
Qed.


(** Truthiness of an optional string, and of [a || b]. *)
Lemma truthy_spec (o : option string) :
  truthy o = true <-> exists s, s <> EmptyString /\ o = Some s.
Proof.
  destruct o as [[|c x]|]; simpl; split.
  - discriminate.
  - intros (s & Hs & H). congruence.
  - intros _. exists (String c x). by split.
  - done.
  - discriminate.
  - intros (s & _ & H). discriminate.
Qed.

Lemma truthy_or_else (a b : option string) :
  truthy (or_else a b) = truthy a || truthy b.
Proof. unfold or_else. by destruct (truthy a) eqn:H. Qed.

(** The refinement of the schema reads the three fields by truthiness. *)
Lemma contentProvided_spec (m : Schema.EmailMessage) :
  Schema.contentProvided m = true <->
  exists s, s <> EmptyString
    /\ (Schema.text m = Some s \/ Schema.html m = Some s \/ Schema.templateHtml m = Some s).
Proof.
  unfold Schema.contentProvided.
  rewrite !truthy_or_else, !orb_true_iff, !truthy_spec.
  split.
  - intros [[(s & Hs & H) | (s & Hs & H)] | (s & Hs & H)]; exists s; auto.
  - intros (s & Hs & [H | [H | H]]); eauto.
Qed.

Lemma messageValid_content (m : Schema.EmailMessage) :
  Schema.contentProvided m = false -> messageValid m = false.
Proof. intros H. unfold Schema.messageValid. rewrite H. apply andb_false_r. Qed.

(** C3, amended. A message in which none of [text], [html] and
    [templateHtml] is present is rejected by the schema, and [sendEmail]
    returns the failure result with the state (outbox and all) exactly as it
    was, so no request reaches the transport. Conversely the message passes
    this check of the schema exactly when one of the three is present and
    not the empty string. *)
Theorem missing_content_rejected (m : Schema.EmailMessage) (this : EmailSMTPService) (w : World) :
  (Schema.text m = None /\ Schema.html m = None /\ Schema.templateHtml m = None ->
     parse m = Throw (Error (zodMessageIssues m))
     /\ sendEmail m (this, w)
        = (Return {| success := false;
                     messageId := None;
                     error := Some (zodMessageIssues m) |}, (this, w)))
  /\ (Schema.contentProvided m = true <->
      exists s, s <> EmptyString
        /\ (Schema.text m = Some s \/ Schema.html m = Some s \/ Schema.templateHtml m = Some s)).
Proof.
  split; [| apply contentProvided_spec].
  intros (Ht & Hh & Hp).
  assert (Hc : Schema.contentProvided m = false).
  { unfold Schema.contentProvided. by rewrite Ht, Hh, Hp. }
  pose proof (messageValid_content m Hc) as Hv.
  split; [by apply parse_invalid | by rewrite (sendEmail_invalid m _ Hv)].
Qed.

(** *** The rendering step, case by case *)

Lemma htmlContentOf_hit (m : Schema.EmailMessage) (t : string) (d : TemplateDelegate)
    (this : EmailSMTPService) (w : World) :
  templateOf m = Some t ->
  cached (cacheKeyOf m t) this = Some d ->
  htmlContentOf m (this, w) = (rendered (delegateSource d) m, (this, w)).
Proof.
  intros Ht Hc. rewrite (htmlContentOf_template m t _ Ht), renderTemplate_unfold.
  rewrite (compileTemplate_hit _ t _ d this w Hc). unfold Mailer.rendered.
  by destruct (Handlebars_run _ _).
Qed.

Lemma htmlContentOf_miss_key (m : Schema.EmailMessage) (t : string) (u : unit)
    (this : EmailSMTPService) (w : World) :
  templateOf m = Some t ->
  is_Some (Schema.templateData m) ->
  templateCache this !! deriveCacheKey t = None ->
  Handlebars_compile t = Return u ->
  htmlContentOf m (this, w)
  = (rendered t m, (set_cache (deriveCacheKey t) (newDelegate t w) this, log_compile t w)).
Proof.
  intros Ht [data Hd] Hc Ho.
  rewrite (htmlContentOf_template m t _ Ht), renderTemplate_unfold.
  unfold cacheKeyOf, Mailer.rendered. rewrite Hd.
  rewrite (compileTemplate_miss_store _ t (deriveCacheKey t) this w u eq_refl Hc Ho).
  simpl. by destruct (Handlebars_run _ _).
Qed.

Lemma htmlContentOf_no_key (m : Schema.EmailMessage) (t : string)
    (this : EmailSMTPService) (w : World) :
  templateOf m = Some t ->
  Schema.templateData m = None ->
  htmlContentOf m (this, w)
  = (match Handlebars_compile t with
     | Return _ => rendered t m
     | Throw e => Throw (renderError (compileError e))
     end, (this, log_compile t w)).
Proof.
  intros Ht Hd.
  rewrite (htmlContentOf_template m t _ Ht), renderTemplate_unfold.
  unfold cacheKeyOf, Mailer.rendered. rewrite Hd.
  destruct (Handlebars_compile t) as [u|e] eqn:Ho.
  - rewrite (compileTemplate_no_key _ t None this w u eq_refl Ho).
    simpl. by destruct (Handlebars_run _ _).
  - by rewrite (compileTemplate_throw _ t None this w e eq_refl Ho).
Qed.

(** After the rendering step [sendEmail] changes nothing but the outbox. *)
Lemma sendEmail_after_render (m : Schema.EmailMessage) (s : State) :
  messageValid m = true ->
  fst (snd (sendEmail m s)) = fst (snd (htmlContentOf m s))
  /\ compileCalls (snd (snd (sendEmail m s))) = compileCalls (snd (snd (htmlContentOf m s))).
Proof.
  intros Hv. rewrite (sendEmail_valid m s Hv).
  by destruct (htmlContentOf m s) as [[h|e] [this1 w1]].
Qed.

(** The outbox after a send: as before, or longer by the one request made
    from the message. *)
Lemma sendEmail_outbox (m : Schema.EmailMessage) (this : EmailSMTPService) (w : World) :
  outbox (snd (snd (sendEmail m (this, w)))) = outbox w
  \/ exists h this',
       defaultFrom this' = defaultFrom this
       /\ outbox (snd (snd (sendEmail m (this, w))))
          = (outbox w ++ [(transporter this, mailOptionsOf m h this')])%list.
Proof.
  destruct (messageValid m) eqn:Hv.
  - rewrite (sendEmail_valid m _ Hv).
    pose proof (htmlContentOf_frame m this w) as F.
    destruct (htmlContentOf m (this, w)) as [[h|e] [this1 w1]].
    + destruct F as (Ft & Fd & Fo). right. exists h, this1.
      split; [done |]. unfold dispatch. simpl. by rewrite Ft, Fo.
    + left. by destruct F as (_ & _ & Fo).
  - left. by rewrite (sendEmail_invalid m _ Hv).
Qed.

(** The default sender of a constructed service is the configured user. *)
Lemma new_EmailSMTPService_defaultFrom (config : Schema.EmailConfigInput)
    (this : EmailSMTPService) :
  new_EmailSMTPService isEmail Number_of_string zodConfigIssues config = Return this ->
  defaultFrom this = Schema.user (Schema.in_auth config).
Proof.
  unfold new_EmailSMTPService, Schema.emailConfigSchema_parse.
  destruct (Schema.configValid _ _ _); [| done].
  intros H. by injection H as <-.
Qed.

(** C9, amended. In the one request that a send hands to the transport,
    the [from] header is the default sender of the service (for a service
    that the constructor made, the [auth.user] of its configuration)
    whenever the message has no [name], and also when its [name] is the
    empty string, whatever its [from] is; when [name] is present and not
    empty the header is [name <from>] with the message's [from], or with the
    default sender when the message has none. *)
Theorem from_header (m : Schema.EmailMessage) (this : EmailSMTPService) (w : World)
    (t : Nodemailer.TransportOptions) (o : Nodemailer.SendMailOptions) :
  outbox (snd (snd (sendEmail m (this, w)))) = (outbox w ++ [(t, o)])%list ->
  (Schema.name m = None -> Nodemailer.from o = defaultFrom this)
  /\ (Schema.name m = Some EmptyString -> Nodemailer.from o = defaultFrom this)
  /\ (forall n f, Schema.name m = Some n -> n <> EmptyString ->
        Schema.from m = Some f -> f <> EmptyString ->
        Nodemailer.from o = n +:+ " <" +:+ f +:+ ">")
  /\ (forall n, Schema.name m = Some n -> n <> EmptyString ->
        Schema.from m = None ->
        Nodemailer.from o = n +:+ " <" +:+ defaultFrom this +:+ ">")
  /\ (forall config,
        new_EmailSMTPService isEmail Number_of_string zodConfigIssues config = Return this ->
        defaultFrom this = Schema.user (Schema.in_auth config)).
Proof.
  intros H.
  destruct (sendEmail_outbox m this w) as [E | (h & this' & Hd & E)].
  - rewrite E in H. apply (f_equal length) in H.
    rewrite length_app in H. simpl in H. lia.
  - rewrite E in H. apply app_inv_head in H. injection H as _ <-.
    unfold mailOptionsOf. simpl. unfold resolveFrom. rewrite Hd.
    split; [| split; [| split; [| split]]].
    + by intros ->.
    + by intros ->.
    + intros n f -> Hn -> Hf. simpl.
      destruct n; [done |]. by destruct f.
    + intros n -> Hn ->. by destruct n.
    + intros config. apply new_EmailSMTPService_defaultFrom.
Qed.

(** *** The derived cache key *)

(** C10. The cache key of a templated send with [templateData] is
    "template_" followed by the first 32 characters of the base64 encoding
    of the template source, so it is a function of the first 24 bytes of the
    source. Two sources that agree on these bytes have one key: when the
    first is sent from a state whose cache has no entry for the key (and it
    compiles), the second send finds the delegate of the first template
    under its own key, compiles nothing, and renders the first template
    with its own data. A templated send without [templateData] derives no
    key, leaves the cache as it was and compiles its template on every
    send. *)
Theorem cache_key_shared (this : EmailSMTPService) (w : World) :
  (forall t, deriveCacheKey t = "template_" +:+ String.substring 0 32 (Base64.encode t)
             /\ deriveCacheKey t = deriveCacheKey (String.substring 0 24 t))
  /\ (forall m1 m2 t1 t2 u,
        messageValid m1 = true -> messageValid m2 = true ->
        templateOf m1 = Some t1 -> templateOf m2 = Some t2 ->
        is_Some (Schema.templateData m1) -> is_Some (Schema.templateData m2) ->
        String.substring 0 24 t1 = String.substring 0 24 t2 ->
        templateCache this !! deriveCacheKey t1 = None ->
        Handlebars_compile t1 = Return u ->
        let s1 := snd (sendEmail m1 (this, w)) in
        let s2 := snd (sendEmail m2 s1) in
        cacheKeyOf m2 t2 = cacheKeyOf m1 t1
        /\ compileCalls (snd s1) = (compileCalls w ++ [t1])%list
        /\ templateCache (fst s1) !! deriveCacheKey t2 = Some (newDelegate t1 w)
        /\ htmlContentOf m2 s1 = (rendered t1 m2, s1)
        /\ compileCalls (snd s2) = compileCalls (snd s1)
        /\ templateCache (fst s2) = templateCache (fst s1))
  /\ (forall m t,
        messageValid m = true -> templateOf m = Some t ->
        Schema.templateData m = None ->
        let s := snd (sendEmail m (this, w)) in
        cacheKeyOf m t = None
        /\ templateCache (fst s) = templateCache this
        /\ compileCalls (snd s) = (compileCalls w ++ [t])%list).
Proof.
  split; [| split].
  - intros t. split; [reflexivity | apply Base64Spec.deriveCacheKey_prefix].
  - intros m1 m2 t1 t2 u Hv1 Hv2 Ht1 Ht2 Hd1 Hd2 Hp Hc Ho s1 s2.
    pose proof (Base64Spec.deriveCacheKey_agree t1 t2 Hp) as Hk.
    destruct (sendEmail_after_render m1 (this, w) Hv1) as [E1 E2].
    rewrite (htmlContentOf_miss_key m1 t1 u this w Ht1 Hd1 Hc Ho) in E1, E2.
    simpl in E1, E2. fold s1 in E1, E2.
    assert (Hhit : cached (cacheKeyOf m2 t2) (fst s1) = Some (newDelegate t1 w)).
    { destruct Hd2 as [d2 Hd2]. unfold cacheKeyOf. rewrite Hd2.
      rewrite cached_key by reflexivity. rewrite E1, <- Hk. simpl.
      apply lookup_insert_eq. }
    assert (Hh : htmlContentOf m2 s1 = (rendered t1 m2, s1)).
    { destruct s1 as [this1 w1].
      by rewrite (htmlContentOf_hit m2 t2 (newDelegate t1 w) this1 w1 Ht2 Hhit). }
    destruct (sendEmail_after_render m2 s1 Hv2) as [F1 F2].
    rewrite Hh in F1, F2. simpl in F1, F2. fold s2 in F1, F2.
    repeat split.
    + destruct Hd1 as [d1 Hd1], Hd2 as [d2 Hd2]. unfold cacheKeyOf.
      by rewrite Hd1, Hd2, Hk.
    + exact E2.
    + rewrite E1, <- Hk. simpl. apply lookup_insert_eq.
    + exact Hh.
    + exact F2.
    + by rewrite F1.
  - intros m t Hv Ht Hd s.
    destruct (sendEmail_after_render m (this, w) Hv) as [E1 E2].
    rewrite (htmlContentOf_no_key m t this w Ht Hd) in E1, E2.
    simpl in E1, E2. fold s in E1, E2.
    repeat split.
    + unfold cacheKeyOf. by rewrite Hd.
    + by rewrite E1.
    + exact E2.
Qed.

(** *** Bulk sends *)

Local Abbreviation sendBulkEmails :=
  (Mailer.sendBulkEmails isEmail zodMessageIssues Handlebars_compile Handlebars_run
     transporter_sendMail).
Local Abbreviation countInvalid := (Schema.countInvalid isEmail).

Lemma sendEmail_returns (m : Schema.EmailMessage) (s : State) :
  exists r s', sendEmail m s = (Return r, s').
Proof.
  destruct (messageValid m) eqn:Hv.
  - rewrite (sendEmail_valid m s Hv).
    destruct (htmlContentOf m s) as [[h|e] [this1 w1]]; [| by eexists _, _].
    unfold dispatch. destruct (transporter_sendMail _ _ _); by eexists _, _.
  - rewrite (sendEmail_invalid m s Hv). by eexists _, _.
Qed.

Lemma Promise_all_returns {A} (rs : list A) : Promise_all (map Return rs) = Return rs.
Proof. induction rs as [|r rs IH]; [done |]. simpl. by rewrite IH. Qed.

Lemma map_calls_cons {A B St} (f : A -> M St B) (a : A) (l : list A) (s : St) :
  map_calls f (a :: l) s =
    (fst (f a s) :: fst (map_calls f l (snd (f a s))),
     snd (map_calls f l (snd (f a s)))).
Proof.
  simpl. destruct (f a s) as [c s1]. simpl.
  by destruct (map_calls f l s1) as [cs s2].
Qed.

Lemma map_calls_app {A B St} (f : A -> M St B) (l1 l2 : list A) :
  forall s : St,
    map_calls f (l1 ++ l2) s =
      ((fst (map_calls f l1 s) ++ fst (map_calls f l2 (snd (map_calls f l1 s))))%list,
       snd (map_calls f l2 (snd (map_calls f l1 s)))).
Proof.
  induction l1 as [|a l1 IH]; intros s.
  - simpl. by destruct (map_calls f l2 s).
  - rewrite <- app_comm_cons, !map_calls_cons, IH. reflexivity.
Qed.

Lemma sendBulkEmails_unfold (messages : list Schema.EmailMessage) (s : State) :
  sendBulkEmails messages s =
    (Promise_all (fst (map_calls sendEmail messages s)),
     snd (map_calls sendEmail messages s)).
Proof.
  unfold Mailer.sendBulkEmails. by destruct (map_calls _ messages s).
Qed.

(** Every call returns, so the batch is a list of results. *)
Lemma map_calls_results (messages : list Schema.EmailMessage) :
  forall s : State,
    exists results,
      fst (map_calls sendEmail messages s) = map Return results.
Proof.
  induction messages as [|m l IH]; intros s.
  - by exists [].
  - rewrite map_calls_cons. simpl.
    destruct (sendEmail_returns m s) as (r & s1 & E). rewrite E. simpl.
    destruct (IH s1) as (rs & Hrs). rewrite Hrs. by exists (r :: rs).
Qed.

(** The result at an index is the result of sending the message at that
    index, from the state that the messages before it have left. *)
Lemma map_calls_index (messages : list Schema.EmailMessage) :
  forall (s : State) (results : list SendResult) (i : nat) (m : Schema.EmailMessage),
    fst (map_calls sendEmail messages s) = map Return results ->
    messages !! i = Some m ->
    exists r, results !! i = Some r
      /\ fst (sendEmail m (snd (map_calls sendEmail (take i messages) s))) = Return r.
Proof.
  induction messages as [|m0 l IH]; intros s results i m Hr Hi; [done |].
  rewrite map_calls_cons in Hr. simpl in Hr.
  destruct results as [|r0 rs]; [done |]. injection Hr as H0 Hl.
  destruct i as [|j].
  - injection Hi as <-. exists r0. by split.
  - simpl in Hi. destruct (IH _ rs j m Hl Hi) as (r & Hj & Hs).
    exists r. split; [done |]. by rewrite firstn_cons, map_calls_cons.
Qed.

(** A rejected message takes its place in the batch and leaves the results
    of the others, and the final state, as they would be without it. *)
Lemma map_calls_invalid (before after : list Schema.EmailMessage) (m : Schema.EmailMessage)
    (s : State) :
  messageValid m = false ->
  map_calls sendEmail (before ++ m :: after) s =
    ((fst (map_calls sendEmail before s)
      ++ Return (failed (Error (zodMessageIssues m)))
         :: fst (map_calls sendEmail after (snd (map_calls sendEmail before s))))%list,
     snd (map_calls sendEmail (before ++ after) s))
  /\ fst (map_calls sendEmail (before ++ after) s) =
       (fst (map_calls sendEmail before s)
        ++ fst (map_calls sendEmail after (snd (map_calls sendEmail before s))))%list.
Proof.
  intros Hv. rewrite !map_calls_app, map_calls_cons.
  by rewrite (sendEmail_invalid m _ Hv).
Qed.

(** The message passes the schema, its rendering step returns from the
    state [s], and the transport accepts the request made of the two. *)
Local Abbreviation goesThrough m s :=
  (messageValid m = true
   /\ exists h s1 info,
        htmlContentOf m s = (Return h, s1)
        /\ transporter_sendMail (outbox (snd s)) (transporter (fst s))
             (mailOptionsOf m h (fst s)) = Return info).

(** One message and its result. *)
Lemma sendEmail_success (m : Schema.EmailMessage) (s : State) (r : SendResult) :
  fst (sendEmail m s) = Return r ->
  (messageValid m = false ->
     r = {| success := false; messageId := None; error := Some (zodMessageIssues m) |})
  /\ (success r = true <-> goesThrough m s).
Proof.
  destruct s as [this w]. intros E.
  destruct (sendEmail_cases m this w)
    as [[Hv E'] | [(text & this' & w' & Hv & Hh & Ho & E')
       | [(h & this' & w1 & info & Hv & Hh & Ht & E')
         | (h & this' & w1 & e & Hv & Hh & Ht & E')]]];
    rewrite E' in E; simpl in E; injection E as <-; simpl.
  - split; [done |]. split; [done |]. intros [Hv' _]. congruence.
  - split; [congruence |]. split; [done |].
    intros (_ & h & s1 & info & Hh' & _). rewrite Hh in Hh'. done.
  - split; [congruence |]. split; [| done].
    intros _. split; [done |]. by exists h, (this', w1), info.
  - split; [congruence |]. split; [done |].
    intros (_ & h' & s1 & info & Hh' & Ht'). rewrite Hh in Hh'.
    injection Hh' as <- <-. rewrite Ht in Ht'. done.
Qed.

Lemma lookup_map {A B} (f : A -> B) (l : list A) (i : nat) :
  map f l !! i = f <$> (l !! i).
Proof. revert i. induction l as [|a l IH]; intros [|i]; try done. apply IH. Qed.

(** Counting over a batch. *)
Lemma count_invalid_failed (messages : list Schema.EmailMessage) (results : list SendResult) :
  Forall2 (fun m r => messageValid m = false -> success r = false) messages results ->
  countInvalid messages <= countFailed results.
Proof.
  unfold Schema.countInvalid, countFailed.
  induction 1 as [|m r l rs H _ IH]; [done |]. simpl.
  destruct (messageValid m) eqn:Hv; simpl.
  - destruct (success r); simpl; lia.
  - rewrite (H eq_refl). simpl. lia.
Qed.

Lemma count_exact (messages : list Schema.EmailMessage) (results : list SendResult) :
  Forall2 (fun m r => success r = messageValid m) messages results ->
  map success results = map messageValid messages
  /\ countFailed results = countInvalid messages
  /\ countSucceeded results = length messages - countInvalid messages.
Proof.
  unfold Schema.countInvalid, countFailed, countSucceeded.
  induction 1 as [|m r l rs H _ (IH1 & IH2 & IH3)]; [done |]. simpl.
  rewrite H, IH1.
  assert (length (List.filter (fun m => negb (messageValid m)) l) <= length l)
    by apply List.filter_length_le.
  destruct (messageValid m); simpl; repeat split; lia.
Qed.

Lemma map_success_Forall2 (messages : list Schema.EmailMessage) :
  forall results : list SendResult,
    map success results = map messageValid messages ->
    Forall2 (fun m r => success r = messageValid m) messages results.
Proof.
  induction messages as [|m l IH]; intros [|r rs] H; try done.
  injection H as H1 H2. constructor; [done | by apply IH].
Qed.

(** No more failures than rejections: every valid message succeeded. *)
Lemma count_tight (messages : list Schema.EmailMessage) (results : list SendResult) :
  Forall2 (fun m r => messageValid m = false -> success r = false) messages results ->
  countFailed results = countInvalid messages ->
  Forall2 (fun m r => success r = messageValid m) messages results.
Proof.
  induction 1 as [|m r l rs H Hl IH]; [constructor |]. intros Hc.
  pose proof (count_invalid_failed l rs Hl) as Hle.
  unfold Schema.countInvalid, countFailed in *. simpl in Hc.
  destruct (messageValid m) eqn:Hv; simpl in Hc.
  - destruct (success r) eqn:Hs; simpl in Hc.
    + constructor; [congruence |]. apply IH. lia.
    + lia.
  - rewrite (H eq_refl) in Hc. simpl in Hc.
    constructor; [rewrite Hv; by apply H |]. apply IH. lia.
Qed.

Lemma count_sum (results : list SendResult) :
  countSucceeded results + countFailed results = length results.
Proof.
  unfold countSucceeded, countFailed.
  induction results as [|r rs IH]; [done |]. simpl.
  destruct (success r); simpl; lia.
Qed.

Lemma map_Return_inj {A} (l1 l2 : list A) :
  map (@Return A) l1 = map Return l2 -> l1 = l2.
Proof.
  revert l2. induction l1 as [|a l1 IH]; intros [|b l2] H; try done.
  injection H as -> H. by rewrite (IH l2 H).
Qed.

Lemma map_calls_length {A B St} (f : A -> M St B) (l : list A) :
  forall s : St, length (fst (map_calls f l s)) = length l.
Proof.
  induction l as [|a l IH]; intros s; [done |].
  rewrite map_calls_cons. simpl. by rewrite IH.
Qed.

(** C2, amended. For every sequence of N messages [sendBulkEmails]
    returns (it does not throw) a sequence of exactly N results, and the
    result at index [i] is the result of sending message [i] from the state
    that the messages before it have left; it says [success: true] exactly
    when the message is valid, its rendering step returns from that state
    and the transport accepts its request. Every message that the schema
    rejects has the failure result at its index, and neither removes nor
    alters the result of any other message: without it the batch gives the
    same other results and ends in the same state. So at least M results
    say [success: false], M being the number of rejected messages, and the
    others say [success: true]. Exactly M say [success: false] (then N - M
    say [success: true]) if and only if every valid message of the batch
    goes through: rendered from the state the earlier messages left, where
    the cache may hold the renderer of an earlier template under its key,
    and accepted by the transport. *)
Theorem sendBulkEmails_results (messages : list Schema.EmailMessage) (s : State) :
  exists results s',
    sendBulkEmails messages s = (Return results, s')
    /\ length results = length messages
    /\ (forall i m, messages !! i = Some m ->
          exists r, results !! i = Some r
            /\ fst (sendEmail m (snd (sendBulkEmails (take i messages) s))) = Return r
            /\ (success r = true
                <-> goesThrough m (snd (sendBulkEmails (take i messages) s))))
    /\ (forall i m, messages !! i = Some m -> messageValid m = false ->
          results !! i
          = Some {| success := false; messageId := None; error := Some (zodMessageIssues m) |})
    /\ (forall before m after,
          messages = (before ++ m :: after)%list -> messageValid m = false ->
          exists rs1 rs2,
            results
            = (rs1 ++ {| success := false;
                         messageId := None;
                         error := Some (zodMessageIssues m) |} :: rs2)%list
            /\ length rs1 = length before
            /\ sendBulkEmails (before ++ after) s = (Return (rs1 ++ rs2)%list, s'))
    /\ countInvalid messages <= countFailed results
    /\ countSucceeded results + countFailed results = length messages
    /\ ((forall i m, messages !! i = Some m -> messageValid m = true ->
           goesThrough m (snd (sendBulkEmails (take i messages) s)))
        <-> map success results = map messageValid messages)
    /\ (map success results = map messageValid messages
        <-> countFailed results = countInvalid messages).
Proof.
  destruct (map_calls_results messages s) as (results & Hr).
  assert (Hlen : length results = length messages).
  { apply (f_equal length) in Hr. by rewrite length_map, map_calls_length in Hr. }
  assert (Hidx : forall i m, messages !! i = Some m ->
            exists r, results !! i = Some r
              /\ fst (sendEmail m (snd (sendBulkEmails (take i messages) s))) = Return r
              /\ (messageValid m = false ->
                  r = {| success := false;
                         messageId := None;
                         error := Some (zodMessageIssues m) |})
              /\ (success r = true
                  <-> goesThrough m (snd (sendBulkEmails (take i messages) s)))).
  { intros i m Hi. rewrite sendBulkEmails_unfold. simpl.
    destruct (map_calls_index messages s results i m Hr Hi) as (r & Hri & Hs).
    exists r. split; [done |]. split; [done |]. by apply sendEmail_success. }
  assert (Hinv : Forall2 (fun m r => messageValid m = false -> success r = false)
                   messages results).
  { apply Forall2_same_length_lookup_2; [done |]. intros i m r Hi Hri Hm.
    destruct (Hidx i m Hi) as (r' & Hri' & _ & Hf & _).
    rewrite Hri in Hri'. injection Hri' as <-. by rewrite (Hf Hm). }
  exists results, (snd (map_calls sendEmail messages s)).
  split; [by rewrite sendBulkEmails_unfold, Hr, Promise_all_returns |].
  split; [done |].
  split; [| split; [| split; [| split; [| split; [| split]]]]].
  - intros i m Hi. destruct (Hidx i m Hi) as (r & Hri & Hs & _ & Hiff). by exists r.
  - intros i m Hi Hm. destruct (Hidx i m Hi) as (r & Hri & _ & Hf & _).
    by rewrite Hri, (Hf Hm).
  - intros before m after -> Hm.
    destruct (map_calls_invalid before after m s Hm) as [E1 E2].
    destruct (map_calls_results before s) as (rs1 & H1).
    destruct (map_calls_results after (snd (map_calls sendEmail before s))) as (rs2 & H2).
    exists rs1, rs2.
    rewrite E1 in Hr. simpl in Hr. rewrite H1, H2 in Hr.
    change (Return (failed (Error (zodMessageIssues m))) :: map Return rs2)
      with (map Return (failed (Error (zodMessageIssues m)) :: rs2)) in Hr.
    rewrite <- map_app in Hr.
    apply map_Return_inj in Hr.
    split; [done |]. split.
    + apply (f_equal length) in H1. by rewrite length_map, map_calls_length in H1.
    + rewrite sendBulkEmails_unfold, E2, H1, H2, <- map_app, Promise_all_returns.
      by rewrite E1.
  - by apply count_invalid_failed.
  - by rewrite count_sum.
  - split.
    + intros Hall. apply count_exact.
      apply Forall2_same_length_lookup_2; [done |]. intros i m r Hi Hri.
      destruct (Hidx i m Hi) as (r' & Hri' & _ & Hf & Hiff).
      rewrite Hri in Hri'. injection Hri' as <-.
      destruct (Sumbool.sumbool_of_bool (messageValid m)) as [Hm|Hm]; rewrite Hm.
      * apply Hiff. by apply Hall.
      * by rewrite (Hf Hm).
    + intros Hmap i m Hi Hm.
      destruct (Hidx i m Hi) as (r & Hri & _ & _ & Hiff). apply Hiff.
      assert (H : map success results !! i = Some (success r))
        by (by rewrite lookup_map, Hri).
      rewrite Hmap, lookup_map, Hi in H. simpl in H. injection H as H. congruence.
  - split.
    + intros Hmap. by apply count_exact, map_success_Forall2.
    + intros Hc. by apply count_exact, count_tight.
Qed.

End Facts.

(** *** On sample inputs *)

Import Samples.

Local Abbreviation sendSample :=
  (Mailer.sendEmail hasAt issuesText compileAlways runEcho transportAccepts).

Example send_text_message :
  sendSample textMessage sampleState
  = (Return {| success := true; messageId := Some "<1@example.com>"; error := None |},
     (sampleService,
      {| compileCalls := [];
         outbox := [(sampleTransport,
                     mailOptionsOf textMessage None sampleService)] |})).
Proof. vm_compute. reflexivity. Qed.

Example send_no_content :
  sendSample noContentMessage sampleState
  = (Return {| success := false; messageId := None; error := Some "Invalid message" |},
     sampleState).
Proof. vm_compute. reflexivity. Qed.

(** C3, as stated, fails in its converse: a message that supplies [text],
    as the empty string, has every field accepted by its validator and
    still does not pass the check, so that [sendEmail] returns the failure
    result. *)
Lemma empty_text_rejected :
  Schema.text emptyTextMessage = Some EmptyString
  /\ Schema.messageFieldsValid hasAt emptyTextMessage = true
  /\ Schema.contentProvided emptyTextMessage = false
  /\ sendSample emptyTextMessage sampleState
     = (Return {| success := false; messageId := None; error := Some "Invalid message" |},
        sampleState).
Proof. vm_compute. repeat split. Qed.

(** C3, amended, at a message with none of the three fields. *)
Lemma missing_content_rejected_witness :
  sendSample noContentMessage sampleState
  = (Return {| success := false; messageId := None; error := Some "Invalid message" |},
     sampleState).
Proof.
  exact (proj2 (proj1
    (missing_content_rejected hasAt issuesText compileAlways runEcho transportAccepts
       noContentMessage sampleService emptyWorld)
    (conj eq_refl (conj eq_refl eq_refl)))).
Defined.

(** C9, as stated, fails for a [name] that is present and empty: the
    message is valid and carries [from], and the header is the default
    sender, not made of [name] and [from]. *)
Lemma empty_name_ignores_from :
  Schema.name emptyNameMessage = Some EmptyString
  /\ Schema.from emptyNameMessage = Some "alice@example.com"
  /\ Schema.messageValid hasAt emptyNameMessage = true
  /\ map (fun x => Nodemailer.from (snd x))
         (outbox (snd (snd (sendSample emptyNameMessage sampleState))))
     = ["mailer@example.com"].
Proof. vm_compute. repeat split. Qed.

(** The header of C9 for a message with a [name] and a [from]. *)
Lemma from_header_witness :
  outbox (snd (snd (sendSample aliceMessage sampleState)))
  = (outbox emptyWorld ++ [(sampleTransport, aliceRequest)])%list
  /\ Nodemailer.from aliceRequest = "Alice" +:+ " <" +:+ "alice@example.com" +:+ ">".
Proof.
  assert (H : outbox (snd (snd (sendSample aliceMessage sampleState)))
              = (outbox emptyWorld ++ [(sampleTransport, aliceRequest)])%list)
    by (vm_compute; reflexivity).
  split; [exact H |].
  refine (proj1 (proj2 (proj2
    (from_header hasAt issuesText compileAlways runEcho transportAccepts
       sampleNumber configIssuesText
       aliceMessage sampleService emptyWorld sampleTransport aliceRequest H)))
    "Alice" "alice@example.com" eq_refl _ eq_refl _); discriminate.
Defined.

(** The collision of C10 on two welcome templates. *)
Lemma cache_key_shared_witness :
  welcomeTemplate <> welcomeBackTemplate
  /\ String.substring 0 24 welcomeTemplate = String.substring 0 24 welcomeBackTemplate
  /\ deriveCacheKey welcomeTemplate = "template_PHA+SGVsbG8ge3tuYW1lfX0sIHdlbGNv"
  /\ (let s1 := snd (sendSample (templatedMessage welcomeTemplate (Some bobData)) sampleState) in
      let s2 := snd (sendSample (templatedMessage welcomeBackTemplate (Some carolData)) s1) in
      Mailer.htmlContentOf compileAlways runEcho
        (templatedMessage welcomeBackTemplate (Some carolData)) s1
      = (Return (Some welcomeTemplate), s1)
      /\ compileCalls (snd s2) = [welcomeTemplate]).
Proof.
  split; [discriminate |]. split; [reflexivity |]. split; [reflexivity |].
  destruct (cache_key_shared hasAt issuesText compileAlways runEcho transportAccepts
              sampleService emptyWorld) as (_ & H & _).
  specialize (H (templatedMessage welcomeTemplate (Some bobData))
                (templatedMessage welcomeBackTemplate (Some carolData))
                welcomeTemplate welcomeBackTemplate tt
                eq_refl eq_refl eq_refl eq_refl
                (ex_intro _ bobData eq_refl) (ex_intro _ carolData eq_refl)
                eq_refl eq_refl eq_refl).
  cbv zeta in H. destruct H as (_ & H1 & _ & H3 & H4 & _).
  unfold sampleState. cbv zeta.
  split; [exact H3 |]. rewrite H4. exact H1.
Defined.

Example send_without_data_compiles_again :
  let m := templatedMessage welcomeTemplate None in
  let s1 := snd (sendSample m sampleState) in
  let s2 := snd (sendSample m s1) in
  templateCache (fst s2) = ∅
  /\ compileCalls (snd s2) = [welcomeTemplate; welcomeTemplate].
Proof. vm_compute. split; reflexivity. Qed.

(** C2, as stated, fails when the transport refuses a request: the one
    message of the batch is valid (N = 1, M = 0), and its result says
    [success: false]. *)
Lemma bulk_transport_failure :
  Schema.countInvalid hasAt [textMessage] = 0
  /\ fst (Mailer.sendBulkEmails hasAt issuesText compileAlways runEcho transportRefuses
            [textMessage] sampleState)
     = Return [ {| success := false;
                   messageId := None;
                   error := Some "connect ECONNREFUSED" |} ]
  /\ countFailed [ {| success := false;
                      messageId := None;
                      error := Some "connect ECONNREFUSED" |} ] = 1
  /\ countSucceeded [ {| success := false;
                         messageId := None;
                         error := Some "connect ECONNREFUSED" |} ] = 0.
Proof. vm_compute. repeat split. Qed.

(** Two valid messages whose templates agree on their first 24 bytes.
    Each of them, sent alone, is delivered. In one batch the second is
    rendered by the renderer that the first has left in the cache under
    their common key; that renderer throws on the second's data, so the
    batch has no rejected message and still one [success: false]. *)
Example bulk_shared_renderer :
  let first := templatedMessage shoutTemplate (Some bobData) in
  let second := templatedMessage welcomeBackTemplate (Some itemsData) in
  let send :=
    Mailer.sendBulkEmails hasAt issuesText compileAlways runTemplates transportAccepts in
  Schema.countInvalid hasAt [first; second] = 0
  /\ fst (send [first] sampleState)
     = Return [ {| success := true; messageId := Some "<1@example.com>"; error := None |} ]
  /\ fst (send [second] sampleState)
     = Return [ {| success := true; messageId := Some "<1@example.com>"; error := None |} ]
  /\ fst (send [first; second] sampleState)
     = Return [ {| success := true; messageId := Some "<1@example.com>"; error := None |};
                {| success := false;
                   messageId := None;
                   error := Some ("Failed to render template: " +:+ missingHelper) |} ]
  /\ length (outbox (snd (snd (send [first; second] sampleState)))) = 1.
Proof. vm_compute. repeat split. Qed.

(** C2, amended, on a batch of three, the second rejected, through a
    transport that accepts. *)
Lemma sendBulkEmails_results_witness :
  exists results s',
    Mailer.sendBulkEmails hasAt issuesText compileAlways runEcho transportAccepts
      [textMessage; noContentMessage; aliceMessage] sampleState = (Return results, s')
    /\ map success results = [true; false; true]
    /\ countFailed results = 1
    /\ countSucceeded results = 2.
Proof.
  destruct (sendBulkEmails_results hasAt issuesText compileAlways runEcho transportAccepts
              [textMessage; noContentMessage; aliceMessage] sampleState)
    as (results & s' & E & _ & _ & _ & _ & _ & Hsum & [Hall _] & [Hcount _]).
  assert (Hmap : map success results = [true; false; true]).
  { apply Hall. intros i m Hi Hv.
    destruct i as [|[|[|i]]]; simpl in Hi; try discriminate; injection Hi as <-.
    - split; [reflexivity |]. eexists _, _, _. split; reflexivity.
    - discriminate Hv.
    - split; [reflexivity |]. eexists _, _, _. split; reflexivity. }
  pose proof (Hcount Hmap) as Hc.
  exists results, s'. split; [exact E |]. split; [exact Hmap |].
  split; [exact Hc |].
  change (countFailed results = 1) in Hc. simpl in Hsum. lia.
Defined.

End SendEmailSpec.

(** ** The lookup bridge *)

Module BridgeSpec.

Import JS Eff ServiceApi MailerService.

Lemma append_assoc (a b c : string) : (a +:+ b) +:+ c = a +:+ (b +:+ c).
Proof.
  induction a as [|x a IH]; [done |].
  by rewrite !Base64Spec.append_cons, IH.
Qed.

Section Facts.

Variable isEmail : string -> bool.
Variable Number_of_string : string -> number.
Variable zodMessageIssues : Schema.EmailMessage -> string.
Variable zodConfigIssues : Schema.EmailConfigInput -> string.
Variable Handlebars_compile : string -> completion unit.
Variable Handlebars_run : string -> Schema.TemplateDataType -> completion string.
Variable transporter_sendMail :
  list (Nodemailer.TransportOptions * Nodemailer.SendMailOptions) ->
  Nodemailer.TransportOptions -> Nodemailer.SendMailOptions ->
  completion Nodemailer.SentMessageInfo.
Variable env : Env.
Variable retrieveEmailTemplate :
  string -> completion (option (ServiceApiResponse (option EmailTemplateRow))).
Variable db_findFirst : string -> completion (option EmailService.EmailRow).

Local Abbreviation sendEmail :=
  (Mailer.sendEmail isEmail zodMessageIssues Handlebars_compile Handlebars_run
     transporter_sendMail).
Local Abbreviation createEmailService :=
  (MailerService.createEmailService isEmail Number_of_string zodConfigIssues env).
Local Abbreviation sendEmailWithTemplate_try :=
  (MailerService.sendEmailWithTemplate_try isEmail Number_of_string zodMessageIssues
     zodConfigIssues Handlebars_compile Handlebars_run transporter_sendMail env
     retrieveEmailTemplate db_findFirst).
Local Abbreviation sendEmailWithTemplate :=
  (MailerService.sendEmailWithTemplate isEmail Number_of_string zodMessageIssues
     zodConfigIssues Handlebars_compile Handlebars_run transporter_sendMail env
     retrieveEmailTemplate db_findFirst).
Local Abbreviation delivers :=
  (MailerService.delivers isEmail Number_of_string zodMessageIssues
     zodConfigIssues Handlebars_compile Handlebars_run transporter_sendMail env
     retrieveEmailTemplate db_findFirst).
Local Abbreviation retrieveOneByConfigName :=
  (EmailService.retrieveOneByConfigName db_findFirst).

(** The wrapped message names the template and the recipient. *)
Lemma wrapped_includes (config : SendEmailWithTemplate) (inner : string) :
  includes (templateName config) (wrapped config inner)
  /\ includes (to config) (wrapped config inner).
Proof.
  unfold includes, wrapped. split.
  - by exists "Failed to send email with template '",
      ("' to '" +:+ to config +:+ "': " +:+ inner).
  - exists ("Failed to send email with template '" +:+ templateName config +:+ "' to '"),
      ("': " +:+ inner).
    by rewrite !append_assoc.
Qed.

(** [retrieveOneByConfigName] resolves to data exactly for a row found. *)
Lemma retrieveOneByConfigName_data (configName : string)
    (resp : ServiceApiResponse (option EmailService.EmailRow)) :
  retrieveOneByConfigName configName = Return resp ->
  db_findFirst configName = Return (data resp).
Proof.
  unfold EmailService.retrieveOneByConfigName.
  destruct (db_findFirst configName) as [[row|]|e]; intros H.
  - by injection H as <-.
  - by injection H as <-.
  - unfold createErrorResponse in H. by destruct e as [| |[[]|]].
Qed.

(** The [catch] of [sendEmailWithTemplate] rethrows, wrapped. *)
Lemma sendEmailWithTemplate_unfold (config : SendEmailWithTemplate) (w : Mailer.World) :
  sendEmailWithTemplate config w =
    match sendEmailWithTemplate_try config w with
    | (Return u, w') => (Return u, w')
    | (Throw e, w') => (Throw (Error (wrapped config (message_or String_of e))), w')
    end.
Proof. reflexivity. Qed.

(** The [try] once both lookups have resolved and the service exists. *)
Lemma try_resolved (config : SendEmailWithTemplate) (w : Mailer.World)
    (template : option (ServiceApiResponse (option EmailTemplateRow)))
    (templateRow : EmailTemplateRow) (emailRow : EmailService.EmailRow)
    (instance : Mailer.EmailSMTPService) :
  retrieveEmailTemplate (templateName config) = Return template ->
  dataOf template = Some templateRow ->
  db_findFirst (emailConfigName config) = Return (Some emailRow) ->
  createEmailService = Return instance ->
  sendEmailWithTemplate_try config w =
    match sendEmail (templateMessage config templateRow emailRow) (instance, w) with
    | (Return result, (_, w')) =>
        if Mailer.success result then (Return tt, w')
        else (Throw (Error (or_default (Mailer.error result) "Failed to send email")), w')
    | (Throw e, (_, w')) => (Throw e, w')
    end.
Proof.
  intros Ht Hd Hf Hc.
  unfold MailerService.sendEmailWithTemplate_try, bind, lift, throw, ret.
  rewrite Ht, Hd. unfold EmailService.retrieveOneByConfigName. rewrite Hf. simpl.
  rewrite Hc.
  destruct (sendEmail _ (instance, w)) as [[result|e] [this' w']]; [| done].
  by destruct (Mailer.success result).
Qed.

(** The [try] returns only when nothing failed. *)
Lemma try_returns (config : SendEmailWithTemplate) (w w' : Mailer.World) (u : unit) :
  sendEmailWithTemplate_try config w = (Return u, w') -> delivers config w.
Proof.
  unfold MailerService.sendEmailWithTemplate_try, bind, lift, throw, ret.
  destruct (retrieveEmailTemplate (templateName config)) as [template|e] eqn:Ht; [| done].
  destruct (dataOf template) as [templateRow|] eqn:Hd; [| done].
  destruct (retrieveOneByConfigName (emailConfigName config)) as [resp|e] eqn:Hr; [| done].
  pose proof (retrieveOneByConfigName_data _ _ Hr) as Hf.
  destruct (data resp) as [emailRow|]; [| done].
  destruct createEmailService as [instance|e] eqn:Hc; [| done].
  destruct (sendEmail _ (instance, w)) as [[result|e] [this1 w1]] eqn:Hs; [| done].
  destruct (Mailer.success result) eqn:Hok; [| done].
  intros _. by exists template, templateRow, emailRow, instance, result, (this1, w1).
Qed.

Lemma delivers_returns (config : SendEmailWithTemplate) (w : Mailer.World) :
  delivers config w -> exists w', sendEmailWithTemplate_try config w = (Return tt, w').
Proof.
  intros (template & templateRow & emailRow & instance & result & [this1 w1]
          & Ht & Hd & Hf & Hc & Hs & Hok).
  rewrite (try_resolved config w template templateRow emailRow instance Ht Hd Hf Hc).
  rewrite Hs, Hok. by exists w1.
Qed.

(** C7. Whatever [sendEmailWithTemplate] throws is an [Error] whose message
    is the wrapped one, which contains the requested template name and the
    recipient. It returns only when both lookups resolved to data, the
    service was constructed and its send said [success: true]; every other
    call throws. In particular: a template that is not found or has no data,
    and a configuration that is not found, throw with the messages that say
    so; a send that says [success: false] throws with its error text, and so
    does a stored template whose body is empty, which the schema rejects. *)
Theorem sendEmailWithTemplate_raises (config : SendEmailWithTemplate) (w : Mailer.World) :
  (forall e w', sendEmailWithTemplate config w = (Throw e, w') ->
     exists inner, e = Error (wrapped config inner)
       /\ includes (templateName config) (wrapped config inner)
       /\ includes (to config) (wrapped config inner))
  /\ ((exists w', sendEmailWithTemplate config w = (Return tt, w')) <-> delivers config w)
  /\ (~ delivers config w ->
      exists inner w',
        sendEmailWithTemplate config w = (Throw (Error (wrapped config inner)), w'))
  /\ (forall template,
        retrieveEmailTemplate (templateName config) = Return template ->
        dataOf template = None ->
        sendEmailWithTemplate config w
        = (Throw (Error (wrapped config
             ("Email template '" +:+ templateName config
              +:+ "' not found or has no data"))), w))
  /\ (forall template templateRow,
        retrieveEmailTemplate (templateName config) = Return template ->
        dataOf template = Some templateRow ->
        db_findFirst (emailConfigName config) = Return None ->
        sendEmailWithTemplate config w
        = (Throw (Error (wrapped config
             ("Email service configuration '" +:+ emailConfigName config
              +:+ "' not found or has no data"))), w))
  /\ (forall template templateRow emailRow instance result this' w',
        retrieveEmailTemplate (templateName config) = Return template ->
        dataOf template = Some templateRow ->
        db_findFirst (emailConfigName config) = Return (Some emailRow) ->
        createEmailService = Return instance ->
        sendEmail (templateMessage config templateRow emailRow) (instance, w)
        = (Return result, (this', w')) ->
        Mailer.success result = false ->
        sendEmailWithTemplate config w
        = (Throw (Error (wrapped config
             (or_default (Mailer.error result) "Failed to send email"))), w'))
  /\ (forall template templateRow emailRow instance,
        retrieveEmailTemplate (templateName config) = Return template ->
        dataOf template = Some templateRow ->
        db_findFirst (emailConfigName config) = Return (Some emailRow) ->
        createEmailService = Return instance ->
        template_html templateRow = EmptyString ->
        sendEmailWithTemplate config w
        = (Throw (Error (wrapped config
             (or_default (Some (zodMessageIssues (templateMessage config templateRow emailRow)))
                "Failed to send email"))), w)).
Proof.
  assert (Hthrow : forall e w', sendEmailWithTemplate config w = (Throw e, w') ->
            exists inner, e = Error (wrapped config inner)).
  { intros e w'. rewrite sendEmailWithTemplate_unfold.
    destruct (sendEmailWithTemplate_try config w) as [[u|e0] w0]; [done |].
    intros H. injection H as <- _. by eexists. }
  assert (Hret : (exists w', sendEmailWithTemplate config w = (Return tt, w'))
                 <-> delivers config w).
  { split.
    - intros [w' H]. rewrite sendEmailWithTemplate_unfold in H.
      destruct (sendEmailWithTemplate_try config w) as [[u|e0] w0] eqn:Ht; [| done].
      by apply (try_returns config w w0 u).
    - intros H. destruct (delivers_returns config w H) as [w' E].
      exists w'. by rewrite sendEmailWithTemplate_unfold, E. }
  split; [| split; [| split; [| split; [| split; [| split]]]]].
  - intros e w' H. destruct (Hthrow e w' H) as [inner ->].
    exists inner. split; [done |]. apply wrapped_includes.
  - exact Hret.
  - intros Hn.
    destruct (sendEmailWithTemplate config w) as [[[]|e] w'] eqn:E.
    + destruct Hn. apply Hret. by exists w'.
    + destruct (Hthrow e w' eq_refl) as [inner ->]. by exists inner, w'.
  - intros template Ht Hd. rewrite sendEmailWithTemplate_unfold.
    unfold MailerService.sendEmailWithTemplate_try, bind, lift, throw.
    by rewrite Ht, Hd.
  - intros template templateRow Ht Hd Hf. rewrite sendEmailWithTemplate_unfold.
    unfold MailerService.sendEmailWithTemplate_try, bind, lift, throw.
    rewrite Ht, Hd. unfold EmailService.retrieveOneByConfigName. by rewrite Hf.
  - intros template templateRow emailRow instance result this' w' Ht Hd Hf Hc Hs Hok.
    rewrite sendEmailWithTemplate_unfold.
    rewrite (try_resolved config w template templateRow emailRow instance Ht Hd Hf Hc).
    by rewrite Hs, Hok.
  - intros template templateRow emailRow instance Ht Hd Hf Hc Hh.
    rewrite sendEmailWithTemplate_unfold.
    rewrite (try_resolved config w template templateRow emailRow instance Ht Hd Hf Hc).
    rewrite SendEmailSpec.sendEmail_invalid; [done |].
    apply SendEmailSpec.messageValid_content.
    unfold Schema.contentProvided, templateMessage. simpl. by rewrite Hh.
Qed.

(** What the constructor makes of the environment. *)
Lemma createEmailService_fields (instance : Mailer.EmailSMTPService) :
  createEmailService = Return instance ->
  Nodemailer.host (Mailer.transporter instance) = SMTP_HOST env
  /\ Nodemailer.port (Mailer.transporter instance)
     = Schema.coerceNumber Number_of_string (SMTP_PORT env)
  /\ Nodemailer.auth (Mailer.transporter instance)
     = {| Schema.user := SMTP_USER env; Schema.pass := SMTP_PASSWORD env |}
  /\ Mailer.defaultFrom instance = SMTP_USER env
  /\ Mailer.templateCache instance = ∅.
Proof.
  unfold MailerService.createEmailService, Mailer.new_EmailSMTPService,
    Schema.emailConfigSchema_parse.
  destruct (Schema.configValid _ _ _); [| done].
  intros H. injection H as <-. by repeat split.
Qed.

(** The outbox after the bridge: as before, or longer by one request. *)
Lemma bridge_outbox (config : SendEmailWithTemplate) (w : Mailer.World)
    (template : option (ServiceApiResponse (option EmailTemplateRow)))
    (templateRow : EmailTemplateRow) (emailRow : EmailService.EmailRow)
    (instance : Mailer.EmailSMTPService) :
  retrieveEmailTemplate (templateName config) = Return template ->
  dataOf template = Some templateRow ->
  db_findFirst (emailConfigName config) = Return (Some emailRow) ->
  createEmailService = Return instance ->
  Mailer.outbox (snd (sendEmailWithTemplate config w))
  = Mailer.outbox (snd (snd (sendEmail (templateMessage config templateRow emailRow)
                               (instance, w)))).
Proof.
  intros Ht Hd Hf Hc. rewrite sendEmailWithTemplate_unfold.
  rewrite (try_resolved config w template templateRow emailRow instance Ht Hd Hf Hc).
  destruct (sendEmail _ (instance, w)) as [[result|e] [this1 w1]]; [| done].
  by destruct (Mailer.success result).
Qed.

(** The service that the factory makes of the environment. *)
Lemma createEmailService_instance (instance : Mailer.EmailSMTPService) :
  createEmailService = Return instance ->
  instance
  = {| Mailer.transporter :=
         {| Nodemailer.host := SMTP_HOST env;
            Nodemailer.port := JS.Number Number_of_string (SMTP_PORT env);
            Nodemailer.secure := match SMTP_PORT env with
                                 | PortNumber n => strict_eq n (of_Z 465)
                                 | PortString _ => false
                                 end;
            Nodemailer.requireTLS := None;
            Nodemailer.auth := {| Schema.user := SMTP_USER env;
                                  Schema.pass := SMTP_PASSWORD env |};
            Nodemailer.service := None;
            Nodemailer.tls := None |};
       Mailer.defaultFrom := SMTP_USER env;
       Mailer.templateCache := ∅;
       Mailer.helpersRegistered := true |}.
Proof.
  unfold MailerService.createEmailService, Mailer.new_EmailSMTPService,
    Schema.emailConfigSchema_parse.
  destruct (Schema.configValid _ _ _); [| done].
  intros H. by injection H as <-.
Qed.

(** A message of the bridge that the schema accepts has the stored body
    as its template. *)
Lemma bridge_message_template (config : SendEmailWithTemplate)
    (templateRow : EmailTemplateRow) (emailRow : EmailService.EmailRow) :
  Schema.messageValid isEmail (templateMessage config templateRow emailRow) = true ->
  Mailer.templateOf (templateMessage config templateRow emailRow)
  = Some (template_html templateRow).
Proof.
  unfold Schema.messageValid, Schema.contentProvided, Mailer.templateOf. simpl.
  rewrite andb_true_iff. intros [_ H].
  unfold or_else in H. simpl in H. by destruct (template_html templateRow).
Qed.

(** A send on a service that has cached nothing, when the template compiles
    and renders: one compilation, one request. *)
Lemma send_rendered_fresh (m : Schema.EmailMessage) (t : string) (u : unit) (text : string)
    (this : Mailer.EmailSMTPService) (w : Mailer.World) :
  Mailer.templateCache this = ∅ ->
  Schema.messageValid isEmail m = true ->
  Mailer.templateOf m = Some t ->
  Handlebars_compile t = Return u ->
  Handlebars_run t (default [] (Schema.templateData m)) = Return text ->
  exists this',
    sendEmail m (this, w)
    = (match transporter_sendMail (Mailer.outbox w) (Mailer.transporter this)
               (Mailer.mailOptionsOf m (Some text) this) with
       | Return info => Return (Mailer.delivered info)
       | Throw e => Return (Mailer.failed e)
       end,
       (this',
        {| Mailer.compileCalls := Mailer.compileCalls w ++ [t];
           Mailer.outbox := Mailer.outbox w
                            ++ [(Mailer.transporter this,
                                 Mailer.mailOptionsOf m (Some text) this)] |})).
Proof.
  intros He Hv Ht Hc Hr.
  rewrite (SendEmailSpec.sendEmail_valid _ _ _ _ _ m _ Hv).
  destruct (Schema.templateData m) as [data|] eqn:Hd.
  - assert (Hk : Mailer.templateCache this !! Mailer.deriveCacheKey t = None)
      by (by rewrite He).
    rewrite (SendEmailSpec.htmlContentOf_miss_key _ _ m t u this w Ht
               (ltac:(by rewrite Hd) : is_Some (Schema.templateData m)) Hk Hc).
    unfold Mailer.rendered. rewrite Hd. simpl in Hr |- *. rewrite Hr.
    by eexists.
  - rewrite (SendEmailSpec.htmlContentOf_no_key _ _ m t this w Ht Hd), Hc.
    unfold Mailer.rendered. rewrite Hd. simpl in Hr |- *. rewrite Hr.
    by eexists.
Qed.

(** C5, amended. Once the template and the named configuration are both
    resolved, the service that performs the send is the one that
    [createEmailService] constructs from the environment: host, port and
    credentials SMTP_HOST, SMTP_PORT, SMTP_USER and SMTP_PASSWORD, [secure]
    only for the number 465, SMTP_USER as default sender, and an empty
    cache. The call is one [sendEmail] on that service: the world after the
    call is the world after that send, and the call returns exactly when
    the send says [success: true]. The message has the recipient, the
    stored template body as [templateHtml], the data of the call, the stored
    subject unless a subject that is not empty is supplied, and the [from]
    and [name] of the named configuration, which is all that the named
    configuration contributes. When the schema accepts the message and the
    stored template compiles and renders, the template is compiled once and
    exactly one request goes through the transport of that service: the
    recipient, the subject, the rendered text as [html], and the named
    sender; the call returns when the transport accepts it and throws when
    the transport throws. No call makes more than one request. *)
Theorem bridge_dispatcher_and_message (config : SendEmailWithTemplate) (w : Mailer.World)
    (template : option (ServiceApiResponse (option EmailTemplateRow)))
    (templateRow : EmailTemplateRow) (emailRow : EmailService.EmailRow)
    (instance : Mailer.EmailSMTPService) :
  retrieveEmailTemplate (templateName config) = Return template ->
  dataOf template = Some templateRow ->
  db_findFirst (emailConfigName config) = Return (Some emailRow) ->
  createEmailService = Return instance ->
  let message :=
    {| Schema.to := Schema.One (to config);
       Schema.subject := match subject config with
                         | Some s => if truthy_string s then s
                                     else template_subject templateRow
                         | None => template_subject templateRow
                         end;
       Schema.text := None;
       Schema.html := None;
       Schema.templateHtml := Some (template_html templateRow);
       Schema.templateData := templateData config;
       Schema.name := Some (EmailService.fromName (EmailService.settings emailRow));
       Schema.from := Some (EmailService.fromEmail (EmailService.settings emailRow));
       Schema.cc := None;
       Schema.bcc := None;
       Schema.attachments := None |} in
  let request := fun text : string =>
    {| Nodemailer.from :=
         if truthy_string (EmailService.fromName (EmailService.settings emailRow))
         then EmailService.fromName (EmailService.settings emailRow)
              +:+ " <"
              +:+ (if truthy_string (EmailService.fromEmail (EmailService.settings emailRow))
                   then EmailService.fromEmail (EmailService.settings emailRow)
                   else SMTP_USER env)
              +:+ ">"
         else SMTP_USER env;
       Nodemailer.to := Schema.One (to config);
       Nodemailer.subject := Schema.subject message;
       Nodemailer.text := None;
       Nodemailer.html := Some text;
       Nodemailer.cc := None;
       Nodemailer.bcc := None;
       Nodemailer.attachments := None |} in
  instance
  = {| Mailer.transporter :=
         {| Nodemailer.host := SMTP_HOST env;
            Nodemailer.port := JS.Number Number_of_string (SMTP_PORT env);
            Nodemailer.secure := match SMTP_PORT env with
                                 | PortNumber n => strict_eq n (of_Z 465)
                                 | PortString _ => false
                                 end;
            Nodemailer.requireTLS := None;
            Nodemailer.auth := {| Schema.user := SMTP_USER env;
                                  Schema.pass := SMTP_PASSWORD env |};
            Nodemailer.service := None;
            Nodemailer.tls := None |};
       Mailer.defaultFrom := SMTP_USER env;
       Mailer.templateCache := ∅;
       Mailer.helpersRegistered := true |}
  /\ snd (sendEmailWithTemplate config w) = snd (snd (sendEmail message (instance, w)))
  /\ (fst (sendEmailWithTemplate config w) = Return tt
      <-> exists result st,
            sendEmail message (instance, w) = (Return result, st)
            /\ Mailer.success result = true)
  /\ (forall u text,
        Schema.messageValid isEmail message = true ->
        Handlebars_compile (template_html templateRow) = Return u ->
        Handlebars_run (template_html templateRow) (default [] (templateData config))
        = Return text ->
        snd (sendEmailWithTemplate config w)
        = {| Mailer.compileCalls := Mailer.compileCalls w ++ [template_html templateRow];
             Mailer.outbox := Mailer.outbox w
                              ++ [(Mailer.transporter instance, request text)] |}
        /\ (forall info,
              transporter_sendMail (Mailer.outbox w) (Mailer.transporter instance)
                (request text) = Return info ->
              fst (sendEmailWithTemplate config w) = Return tt)
        /\ (forall e,
              transporter_sendMail (Mailer.outbox w) (Mailer.transporter instance)
                (request text) = Throw e ->
              exists thrown, fst (sendEmailWithTemplate config w) = Throw thrown))
  /\ (Mailer.outbox (snd (sendEmailWithTemplate config w)) = Mailer.outbox w
      \/ exists o,
           Mailer.outbox (snd (sendEmailWithTemplate config w))
           = (Mailer.outbox w ++ [(Mailer.transporter instance, o)])%list
           /\ Nodemailer.subject o = Schema.subject message
           /\ Nodemailer.to o = Schema.One (to config))
  /\ ((forall s, subject config = Some s -> s <> EmptyString -> Schema.subject message = s)
      /\ (subject config = None \/ subject config = Some EmptyString ->
          Schema.subject message = template_subject templateRow)).
Proof.
  intros Ht Hd Hf Hc message request.
  pose proof (createEmailService_instance instance Hc) as Hi.
  assert (Hm : message = templateMessage config templateRow emailRow) by reflexivity.
  assert (Hq : forall text,
            request text
            = Mailer.mailOptionsOf (templateMessage config templateRow emailRow) (Some text)
                instance).
  { intros text. rewrite Hi. reflexivity. }
  assert (Hsub : (forall s, subject config = Some s -> s <> EmptyString ->
                    Schema.subject message = s)
                 /\ (subject config = None \/ subject config = Some EmptyString ->
                     Schema.subject message = template_subject templateRow)).
  { subst message. simpl. split.
    - intros s Hs Hn. rewrite Hs. by destruct s.
    - intros [Hs | Hs]; by rewrite Hs. }
  clearbody message request. subst message.
  pose proof (sendEmailWithTemplate_unfold config w) as Hw.
  rewrite (try_resolved config w template templateRow emailRow instance Ht Hd Hf Hc) in Hw.
  split; [exact Hi |].
  split; [| split; [| split; [| split; [| exact Hsub]]]].
  - rewrite Hw.
    destruct (sendEmail _ (instance, w)) as [[result|e] [this1 w1]]; [| done].
    by destruct (Mailer.success result).
  - rewrite Hw.
    destruct (sendEmail _ (instance, w)) as [[result|e] [this1 w1]].
    + destruct (Mailer.success result) eqn:Hok; simpl; split.
      * intros _. by eexists _, _.
      * done.
      * done.
      * intros (result' & st & E & Hok'). injection E as <- _. congruence.
    + simpl. split; [done |]. by intros (result' & st & E & _).
  - intros u text Hv Hcomp Hrun. rewrite Hq.
    assert (He : Mailer.templateCache instance = ∅) by (by rewrite Hi).
    destruct (send_rendered_fresh (templateMessage config templateRow emailRow)
                (template_html templateRow) u text instance w He Hv
                (bridge_message_template config templateRow emailRow Hv) Hcomp Hrun)
      as [this' E].
    rewrite Hw, E.
    destruct (transporter_sendMail (Mailer.outbox w) (Mailer.transporter instance)
                (Mailer.mailOptionsOf (templateMessage config templateRow emailRow)
                   (Some text) instance)) as [info|e]; simpl.
    + split; [done |]. split; [done |]. done.
    + split; [done |]. split; [done |]. intros e' _. by eexists.
  - rewrite (bridge_outbox config w template templateRow emailRow instance Ht Hd Hf Hc).
    destruct (SendEmailSpec.sendEmail_outbox isEmail zodMessageIssues Handlebars_compile
                Handlebars_run transporter_sendMail
                (templateMessage config templateRow emailRow) instance w)
      as [E | (h & this' & _ & E)]; [by left |].
    right. eexists. split; [exact E |]. by split.
Qed.

End Facts.

(** *** On sample inputs *)

Import Samples.

Local Abbreviation bridgeSample :=
  (MailerService.sendEmailWithTemplate hasAt sampleNumber issuesText configIssuesText
     compileAlways runEcho transportAccepts sampleEnv findTemplate findConfig).

Example createEmailService_sample :
  MailerService.createEmailService hasAt sampleNumber configIssuesText sampleEnv
  = Return envService.
Proof. vm_compute. reflexivity. Qed.

Example bridge_sends :
  fst (bridgeSample welcomeRequest emptyWorld) = Return tt.
Proof. vm_compute. reflexivity. Qed.

Example bridge_unknown_template :
  fst (bridgeSample unknownTemplateRequest emptyWorld)
  = Throw (Error ("Failed to send email with template 'goodbye' to 'bob@example.com': "
                  +:+ "Email template 'goodbye' not found or has no data")).
Proof. vm_compute. reflexivity. Qed.

Example bridge_unknown_config :
  fst (bridgeSample unknownConfigRequest emptyWorld)
  = Throw (Error ("Failed to send email with template 'welcome' to 'bob@example.com': "
                  +:+ "Email service configuration 'billing' not found or has no data")).
Proof. vm_compute. reflexivity. Qed.

Example bridge_transport_refuses :
  fst (MailerService.sendEmailWithTemplate hasAt sampleNumber issuesText configIssuesText
         compileAlways runEcho transportRefuses sampleEnv findTemplate findConfig
         welcomeRequest emptyWorld)
  = Throw (Error ("Failed to send email with template 'welcome' to 'bob@example.com': "
                  +:+ "connect ECONNREFUSED")).
Proof. vm_compute. reflexivity. Qed.

(** C7 at a template name that storage does not know. *)
Lemma sendEmailWithTemplate_raises_witness :
  bridgeSample unknownTemplateRequest emptyWorld
  = (Throw (Error (MailerService.wrapped unknownTemplateRequest
                     "Email template 'goodbye' not found or has no data")),
     emptyWorld)
  /\ includes "goodbye"
       (MailerService.wrapped unknownTemplateRequest
          "Email template 'goodbye' not found or has no data")
  /\ includes "bob@example.com"
       (MailerService.wrapped unknownTemplateRequest
          "Email template 'goodbye' not found or has no data").
Proof.
  destruct (sendEmailWithTemplate_raises hasAt sampleNumber issuesText configIssuesText
              compileAlways runEcho transportAccepts sampleEnv findTemplate findConfig
              unknownTemplateRequest emptyWorld) as (Hw & _ & _ & Ht & _).
  pose proof (Ht notFoundResponse eq_refl eq_refl) as E.
  split; [exact E |].
  destruct (Hw _ _ E) as (inner & Hi & H1 & H2).
  assert (Hm : forall a b : string, Error a = Error b -> a = b)
    by (intros a b Hab; by injection Hab).
  apply Hm in Hi. rewrite <- Hi in H1, H2. split; [exact H1 | exact H2].
Defined.

(** C5, as stated, fails: the configuration named "support" is resolved,
    and the request goes through a transport whose host, port, security and
    credentials are those of the environment, none of them those of the
    configuration. A subject override that is supplied as the empty string
    does not replace the stored subject either. *)
Lemma bridge_ignores_named_transport :
  findConfig (MailerService.emailConfigName welcomeRequest) = Return (Some namedRow)
  /\ map fst (Mailer.outbox (snd (bridgeSample welcomeRequest emptyWorld))) = [envTransport]
  /\ (Nodemailer.host envTransport = "smtp.env.example"
      /\ EmailService.host (EmailService.settings namedRow) = "smtp.named.example")
  /\ (Nodemailer.port envTransport = of_Z 587
      /\ EmailService.port (EmailService.settings namedRow) = PortNumber (of_Z 465))
  /\ (Nodemailer.secure envTransport = false
      /\ EmailService.secure (EmailService.settings namedRow) = true)
  /\ (Schema.user (Nodemailer.auth envTransport) = "mailer@example.com"
      /\ EmailService.username (EmailService.settings namedRow) = "support-login")
  /\ (Schema.pass (Nodemailer.auth envTransport) = "env-secret"
      /\ EmailService.password (EmailService.settings namedRow) = "named-secret")
  /\ (MailerService.subject emptySubjectRequest = Some EmptyString
      /\ Schema.subject (MailerService.templateMessage emptySubjectRequest welcomeRow namedRow)
         = "Welcome").
Proof. vm_compute. repeat split. Qed.

(** C5, amended, on the sample environment: the stored template is
    compiled, and its rendering goes out through the transport of the
    environment under the sender of the named configuration. *)
Lemma bridge_dispatcher_and_message_witness :
  let bridge :=
    MailerService.sendEmailWithTemplate hasAt sampleNumber issuesText configIssuesText
      compileAlways runTemplates transportAccepts sampleEnv findTemplate findConfig in
  findTemplate (MailerService.templateName welcomeRequest) = Return welcomeResponse
  /\ MailerService.dataOf welcomeResponse = Some welcomeRow
  /\ findConfig (MailerService.emailConfigName welcomeRequest) = Return (Some namedRow)
  /\ MailerService.createEmailService hasAt sampleNumber configIssuesText sampleEnv
     = Return envService
  /\ snd (bridge welcomeRequest emptyWorld)
     = {| Mailer.compileCalls := [welcomeTemplate];
          Mailer.outbox :=
            [(envTransport,
              {| Nodemailer.from := "Support <support@example.com>";
                 Nodemailer.to := Schema.One "bob@example.com";
                 Nodemailer.subject := "Welcome";
                 Nodemailer.text := None;
                 Nodemailer.html := Some "<p>Hello Bob, welcome!</p>";
                 Nodemailer.cc := None;
                 Nodemailer.bcc := None;
                 Nodemailer.attachments := None |})] |}
  /\ fst (bridge welcomeRequest emptyWorld) = Return tt.
Proof.
  intros bridge.
  assert (H1 : findTemplate (MailerService.templateName welcomeRequest)
               = Return welcomeResponse) by reflexivity.
  assert (H2 : MailerService.dataOf welcomeResponse = Some welcomeRow) by reflexivity.
  assert (H3 : findConfig (MailerService.emailConfigName welcomeRequest)
               = Return (Some namedRow)) by reflexivity.
  assert (H4 : MailerService.createEmailService hasAt sampleNumber configIssuesText sampleEnv
               = Return envService) by (vm_compute; reflexivity).
  destruct (bridge_dispatcher_and_message hasAt sampleNumber issuesText configIssuesText
              compileAlways runTemplates transportAccepts sampleEnv findTemplate findConfig
              welcomeRequest emptyWorld welcomeResponse welcomeRow namedRow envService
              H1 H2 H3 H4) as (_ & _ & _ & Hsend & _).
  destruct (Hsend tt "<p>Hello Bob, welcome!</p>" eq_refl eq_refl eq_refl) as (Hw & Hok & _).
  split; [exact H1 |]. split; [exact H2 |]. split; [exact H3 |].
  split; [exact H4 |]. split; [exact Hw |].
  exact (Hok {| Nodemailer.messageId := "<1@example.com>" |} eq_refl).
Defined.

End BridgeSpec.

Module CacheKeySpec.

Import Base64 Base64Spec.

(** A property of the numbers below [k], checked one by one. *)
Lemma below_Forall (k : nat) (P : N -> Prop) :
  Forall P (map N.of_nat (seq 0 k)) -> forall n, (n < N.of_nat k)%N -> P n.
Proof.
  intros H n Hn. rewrite Forall_forall in H. apply H.
  apply list_elem_of_fmap. exists (N.to_nat n). split; [lia |].
  apply elem_of_seq. lia.
Qed.

Local Ltac by_cases := apply (bool_decide_unpack _); vm_compute; exact I.

(** The 64 digits are pairwise different, and none is the padding. *)
Lemma digit_inj (n m : N) : (n < 64)%N -> (m < 64)%N -> digit n = digit m -> n = m.
Proof.
  intros Hn Hm.
  assert (G : Forall (fun a => Forall (fun b => digit a = digit b -> a = b)
                 (map N.of_nat (seq 0 64))) (map N.of_nat (seq 0 64))) by by_cases.
  exact (below_Forall 64 _ (below_Forall 64 _ G n Hn) m Hm).
Qed.

Lemma digit_not_padding (n : N) : (n < 64)%N -> digit n <> "="%char.
Proof.
  intros Hn.
  assert (G : Forall (fun a => digit a <> "="%char) (map N.of_nat (seq 0 64))) by by_cases.
  exact (below_Forall 64 _ G n Hn).
Qed.

(** The six-bit groups of three bytes are below 64. *)
Lemma group1_lt (x : N) : (x < 256)%N -> (N.shiftr x 2 < 64)%N.
Proof.
  assert (G : Forall (fun x => N.shiftr x 2 < 64)%N (map N.of_nat (seq 0 256))) by by_cases.
  exact (below_Forall 256 _ G x).
Qed.

Lemma low2_lt (x : N) : (x < 256)%N -> (N.land x 3 < 4)%N.
Proof.
  assert (G : Forall (fun x => N.land x 3 < 4)%N (map N.of_nat (seq 0 256))) by by_cases.
  exact (below_Forall 256 _ G x).
Qed.

Lemma high4_lt (x : N) : (x < 256)%N -> (N.shiftr x 4 < 16)%N.
Proof.
  assert (G : Forall (fun x => N.shiftr x 4 < 16)%N (map N.of_nat (seq 0 256))) by by_cases.
  exact (below_Forall 256 _ G x).
Qed.

Lemma low4_lt (x : N) : (x < 256)%N -> (N.land x 15 < 16)%N.
Proof.
  assert (G : Forall (fun x => N.land x 15 < 16)%N (map N.of_nat (seq 0 256))) by by_cases.
  exact (below_Forall 256 _ G x).
Qed.

Lemma high2_lt (x : N) : (x < 256)%N -> (N.shiftr x 6 < 4)%N.
Proof.
  assert (G : Forall (fun x => N.shiftr x 6 < 4)%N (map N.of_nat (seq 0 256))) by by_cases.
  exact (below_Forall 256 _ G x).
Qed.

(** Two bits above four, and four bits above two: the group is below 64
    and gives both parts back. *)
Lemma join_2_4 (p q p' q' : N) :
  (p < 4)%N -> (q < 16)%N -> (p' < 4)%N -> (q' < 16)%N ->
  (N.lor (N.shiftl p 4) q < 64)%N
  /\ (N.lor (N.shiftl p 4) q = N.lor (N.shiftl p' 4) q' -> p = p' /\ q = q').
Proof.
  intros Hp Hq Hp' Hq'.
  assert (G : Forall (fun p => Forall (fun q => Forall (fun p' => Forall (fun q' =>
                 (N.lor (N.shiftl p 4) q < 64)%N
                 /\ (N.lor (N.shiftl p 4) q = N.lor (N.shiftl p' 4) q' -> p = p' /\ q = q'))
                 (map N.of_nat (seq 0 16))) (map N.of_nat (seq 0 4)))
                 (map N.of_nat (seq 0 16))) (map N.of_nat (seq 0 4))) by by_cases.
  exact (below_Forall 16 _ (below_Forall 4 _ (below_Forall 16 _ (below_Forall 4 _ G
           p Hp) q Hq) p' Hp') q' Hq').
Qed.

Lemma join_4_2 (p q p' q' : N) :
  (p < 16)%N -> (q < 4)%N -> (p' < 16)%N -> (q' < 4)%N ->
  (N.lor (N.shiftl p 2) q < 64)%N
  /\ (N.lor (N.shiftl p 2) q = N.lor (N.shiftl p' 2) q' -> p = p' /\ q = q').
Proof.
  intros Hp Hq Hp' Hq'.
  assert (G : Forall (fun p => Forall (fun q => Forall (fun p' => Forall (fun q' =>
                 (N.lor (N.shiftl p 2) q < 64)%N
                 /\ (N.lor (N.shiftl p 2) q = N.lor (N.shiftl p' 2) q' -> p = p' /\ q = q'))
                 (map N.of_nat (seq 0 4))) (map N.of_nat (seq 0 16)))
                 (map N.of_nat (seq 0 4))) (map N.of_nat (seq 0 16))) by by_cases.
  exact (below_Forall 4 _ (below_Forall 16 _ (below_Forall 4 _ (below_Forall 16 _ G
           p Hp) q Hq) p' Hp') q' Hq').
Qed.

Lemma group4_lt (z : N) : (z < 256)%N -> (N.land z 63 < 64)%N.
Proof.
  assert (G : Forall (fun z => N.land z 63 < 64)%N (map N.of_nat (seq 0 256))) by by_cases.
  exact (below_Forall 256 _ G z).
Qed.

(** A byte is given by its high six and low two bits, by its high and low
    four bits, and by its high two and low six bits. *)
Lemma split_6_2 (x x' : N) :
  (x < 256)%N -> (x' < 256)%N ->
  N.shiftr x 2 = N.shiftr x' 2 -> N.land x 3 = N.land x' 3 -> x = x'.
Proof.
  intros Hx Hx'.
  assert (G : Forall (fun a => Forall (fun b =>
                 N.shiftr a 2 = N.shiftr b 2 -> N.land a 3 = N.land b 3 -> a = b)
                 (map N.of_nat (seq 0 256))) (map N.of_nat (seq 0 256))) by by_cases.
  exact (below_Forall 256 _ (below_Forall 256 _ G x Hx) x' Hx').
Qed.

Lemma split_4_4 (x x' : N) :
  (x < 256)%N -> (x' < 256)%N ->
  N.land x 15 = N.land x' 15 -> N.shiftr x 4 = N.shiftr x' 4 -> x = x'.
Proof.
  intros Hx Hx'.
  assert (G : Forall (fun a => Forall (fun b =>
                 N.land a 15 = N.land b 15 -> N.shiftr a 4 = N.shiftr b 4 -> a = b)
                 (map N.of_nat (seq 0 256))) (map N.of_nat (seq 0 256))) by by_cases.
  exact (below_Forall 256 _ (below_Forall 256 _ G x Hx) x' Hx').
Qed.

Lemma split_2_6 (x x' : N) :
  (x < 256)%N -> (x' < 256)%N ->
  N.shiftr x 6 = N.shiftr x' 6 -> N.land x 63 = N.land x' 63 -> x = x'.
Proof.
  intros Hx Hx'.
  assert (G : Forall (fun a => Forall (fun b =>
                 N.shiftr a 6 = N.shiftr b 6 -> N.land a 63 = N.land b 63 -> a = b)
                 (map N.of_nat (seq 0 256))) (map N.of_nat (seq 0 256))) by by_cases.
  exact (below_Forall 256 _ (below_Forall 256 _ G x Hx) x' Hx').
Qed.

Lemma code_lt (c : ascii) : (code c < 256)%N.
Proof. apply N_ascii_bounded. Qed.

Lemma code_inj (a b : ascii) : code a = code b -> a = b.
Proof.
  intros H. rewrite <- (ascii_N_embedding a), <- (ascii_N_embedding b).
  unfold code in H. by rewrite H.
Qed.

(** The second digit: the low two bits of the first byte above the high
    four bits of the second, which are none when there is no second byte. *)
Lemma digit2_inj (a a' : ascii) (q q' : N) :
  (q < 16)%N -> (q' < 16)%N ->
  digit (N.lor (N.shiftl (N.land (code a) 3) 4) q)
  = digit (N.lor (N.shiftl (N.land (code a') 3) 4) q') ->
  N.land (code a) 3 = N.land (code a') 3 /\ q = q'.
Proof.
  intros Hq Hq' H.
  pose proof (low2_lt _ (code_lt a)) as Ha. pose proof (low2_lt _ (code_lt a')) as Ha'.
  destruct (join_2_4 _ q _ q' Ha Hq Ha' Hq') as [L I].
  destruct (join_2_4 _ q' _ q Ha' Hq' Ha Hq) as [L' _].
  apply I. by apply digit_inj.
Qed.

Lemma digit3_inj (b b' : ascii) (q q' : N) :
  (q < 4)%N -> (q' < 4)%N ->
  digit (N.lor (N.shiftl (N.land (code b) 15) 2) q)
  = digit (N.lor (N.shiftl (N.land (code b') 15) 2) q') ->
  N.land (code b) 15 = N.land (code b') 15 /\ q = q'.
Proof.
  intros Hq Hq' H.
  pose proof (low4_lt _ (code_lt b)) as Hb. pose proof (low4_lt _ (code_lt b')) as Hb'.
  destruct (join_4_2 _ q _ q' Hb Hq Hb' Hq') as [L I].
  destruct (join_4_2 _ q' _ q Hb' Hq' Hb Hq) as [L' _].
  apply I. by apply digit_inj.
Qed.

Lemma digit1_inj (a a' : ascii) :
  digit (N.shiftr (code a) 2) = digit (N.shiftr (code a') 2) ->
  N.shiftr (code a) 2 = N.shiftr (code a') 2.
Proof. apply digit_inj; apply group1_lt, code_lt. Qed.

Lemma digit4_inj (c c' : ascii) :
  digit (N.land (code c) 63) = digit (N.land (code c') 63) ->
  N.land (code c) 63 = N.land (code c') 63.
Proof. apply digit_inj; apply group4_lt, code_lt. Qed.

Lemma digit3_not_padding (b : ascii) (q : N) :
  (q < 4)%N -> digit (N.lor (N.shiftl (N.land (code b) 15) 2) q) <> "="%char.
Proof.
  intros Hq. apply digit_not_padding.
  by apply (join_4_2 _ q _ q (low4_lt _ (code_lt b)) Hq (low4_lt _ (code_lt b)) Hq).
Qed.

Lemma encode_1 (a : ascii) :
  encode (String a EmptyString)
  = String (digit (N.shiftr (code a) 2))
      (String (digit (N.lor (N.shiftl (N.land (code a) 3) 4) 0)) "==").
Proof. simpl. by rewrite N.lor_0_r. Qed.

Lemma encode_2 (a b : ascii) :
  encode (String a (String b EmptyString))
  = String (digit (N.shiftr (code a) 2))
      (String (digit (N.lor (N.shiftl (N.land (code a) 3) 4) (N.shiftr (code b) 4)))
        (String (digit (N.lor (N.shiftl (N.land (code b) 15) 2) 0)) "=")).
Proof. simpl. by rewrite N.lor_0_r. Qed.

Lemma encode_3 (a b c : ascii) (rest : string) :
  encode (String a (String b (String c rest)))
  = String (digit (N.shiftr (code a) 2))
      (String (digit (N.lor (N.shiftl (N.land (code a) 3) 4) (N.shiftr (code b) 4)))
        (String (digit (N.lor (N.shiftl (N.land (code b) 15) 2) (N.shiftr (code c) 6)))
          (String (digit (N.land (code c) 63)) (encode rest)))).
Proof. reflexivity. Qed.

(** Induction three bytes at a time. *)
Lemma string_ind3 (P : string -> Prop) :
  P EmptyString ->
  (forall a, P (String a EmptyString)) ->
  (forall a b, P (String a (String b EmptyString))) ->
  (forall a b c rest, P rest -> P (String a (String b (String c rest)))) ->
  forall s, P s.
Proof.
  intros H0 H1 H2 H3.
  assert (G : forall n s, String.length s < n -> P s).
  { induction n as [|n IH]; intros s Hl; [lia |].
    destruct s as [|a [|b [|c rest]]]; auto.
    apply H3, IH. simpl in Hl. lia. }
  intros s. apply (G (S (String.length s))). lia.
Qed.

(** The encoding loses nothing. *)
Lemma encode_inj (s1 : string) : forall s2, encode s1 = encode s2 -> s1 = s2.
Proof.
  induction s1 as [|a|a b|a b c rest IH] using string_ind3;
    intros [|a' [|b' [|c' rest']]]; try discriminate;
    rewrite ?encode_1, ?encode_2, ?encode_3; intros H.
  - done.
  - injection H as H1 H2.
    apply digit1_inj in H1. apply digit2_inj in H2 as [H2 _]; [| lia | lia].
    f_equal. apply code_inj, split_6_2; auto using code_lt.
  - injection H as _ _ H3. symmetry in H3.
    by apply digit3_not_padding in H3.
  - injection H as _ _ H3 _. symmetry in H3.
    apply digit3_not_padding in H3; [done | apply high2_lt, code_lt].
  - injection H as _ _ H3. by apply digit3_not_padding in H3.
  - injection H as H1 H2 H3.
    apply digit1_inj in H1.
    apply digit2_inj in H2 as [H2 H2']; [| apply high4_lt, code_lt ..].
    apply digit3_inj in H3 as [H3 _]; [| lia | lia].
    f_equal; [apply code_inj, split_6_2; auto using code_lt |].
    f_equal. apply code_inj, split_4_4; auto using code_lt.
  - injection H as _ _ _ H4. symmetry in H4.
    apply digit_not_padding in H4; [done | apply group4_lt, code_lt].
  - injection H as _ _ H3 _.
    apply digit3_not_padding in H3; [done | apply high2_lt, code_lt].
  - injection H as _ _ _ H4.
    apply digit_not_padding in H4; [done | apply group4_lt, code_lt].
  - injection H as H1 H2 H3 H4 H5.
    apply digit1_inj in H1.
    apply digit2_inj in H2 as [H2 H2']; [| apply high4_lt, code_lt ..].
    apply digit3_inj in H3 as [H3 H3']; [| apply high2_lt, code_lt ..].
    apply digit4_inj in H4.
    rewrite (IH rest' H5).
    f_equal; [apply code_inj, split_6_2; auto using code_lt |].
    f_equal; [apply code_inj, split_4_4; auto using code_lt |].
    f_equal. apply code_inj, split_2_6; auto using code_lt.
Qed.

(** Three bytes make four characters. *)
Lemma encode_length (n : nat) :
  forall s, String.length s <= 3 * n -> String.length (encode s) <= 4 * n.
Proof.
  induction n as [|n IH]; intros s Hl.
  - destruct s; [simpl; lia | simpl in Hl; lia].
  - destruct s as [|a [|b [|c rest]]]; try (simpl; lia).
    rewrite encode_3. simpl. simpl in Hl.
    specialize (IH rest). lia.
Qed.

Lemma substring_length_le (n : nat) : forall s, String.length (String.substring 0 n s) <= n.
Proof.
  induction n as [|n IH]; intros s.
  - by rewrite substring_0_0.
  - destruct s as [|c s]; [simpl; lia |].
    rewrite substring_0_S. simpl. specialize (IH s). lia.
Qed.

Lemma substring_all (n : nat) : forall s, String.length s <= n -> String.substring 0 n s = s.
Proof.
  induction n as [|n IH]; intros s Hl.
  - destruct s; [done | simpl in Hl; lia].
  - destruct s as [|c s]; [done |].
    rewrite substring_0_S, IH; [done | simpl in Hl; lia].
Qed.

Lemma append_length (s t : string) :
  String.length (s +:+ t) = String.length s + String.length t.
Proof.
  induction s as [|c s IH]; [done |]. rewrite append_cons. simpl. by rewrite IH.
Qed.

(** The key spelled out: the whole encoding of the first 24 bytes. *)
Lemma deriveCacheKey_encode (t : string) :
  Mailer.deriveCacheKey t = "template_" +:+ encode (String.substring 0 24 t).
Proof.
  unfold Mailer.deriveCacheKey. f_equal.
  rewrite (encode_prefix 8 t : String.substring 0 32 (encode t) = _).
  apply (substring_all 32).
  apply (encode_length 8), substring_length_le.
Qed.

Lemma deriveCacheKey_inj (t1 t2 : string) :
  Mailer.deriveCacheKey t1 = Mailer.deriveCacheKey t2 ->
  String.substring 0 24 t1 = String.substring 0 24 t2.
Proof.
  rewrite !deriveCacheKey_encode. intros H.
  apply encode_inj. by simplify_eq/=.
Qed.

(** X1. Two template sources have the same derived cache key exactly when
    their first 24 bytes are the same. The key is "template_" followed by
    the whole base64 encoding of these bytes, so it is never the empty
    string and never longer than 41 characters. *)
Theorem deriveCacheKey_iff (t1 t2 : string) :
  (Mailer.deriveCacheKey t1 = Mailer.deriveCacheKey t2
   <-> String.substring 0 24 t1 = String.substring 0 24 t2)
  /\ Mailer.deriveCacheKey t1 = "template_" +:+ encode (String.substring 0 24 t1)
  /\ JS.truthy_string (Mailer.deriveCacheKey t1) = true
  /\ String.length (Mailer.deriveCacheKey t1) <= 41.
Proof.
  split; [| split; [| split]].
  - split; [apply deriveCacheKey_inj | apply deriveCacheKey_agree].
  - apply deriveCacheKey_encode.
  - reflexivity.
  - rewrite deriveCacheKey_encode.
    pose proof (encode_length 8 _ (substring_length_le 24 t1)) as L.
    rewrite append_length. simpl. lia.
Qed.

End CacheKeySpec.

(** ** What sends do to the cache *)

Module CacheInvariantSpec.

Import JS Eff Mailer CacheSpec CacheInvariant.

Section Facts.

Variable isEmail : string -> bool.
Variable zodMessageIssues : Schema.EmailMessage -> string.
Variable Handlebars_compile : string -> completion unit.
Variable Handlebars_run : string -> Schema.TemplateDataType -> completion string.
Variable transporter_sendMail :
  list (Nodemailer.TransportOptions * Nodemailer.SendMailOptions) ->
  Nodemailer.TransportOptions -> Nodemailer.SendMailOptions ->
  completion Nodemailer.SentMessageInfo.
Variable Number_of_string : string -> number.
Variable zodConfigIssues : Schema.EmailConfigInput -> string.

Local Abbreviation messageValid := (Schema.messageValid isEmail).
Local Abbreviation compileTemplate := (Mailer.compileTemplate Handlebars_compile).
Local Abbreviation htmlContentOf := (Mailer.htmlContentOf Handlebars_compile Handlebars_run).
Local Abbreviation rendered := (Mailer.rendered Handlebars_run).
Local Abbreviation sendEmail :=
  (Mailer.sendEmail isEmail zodMessageIssues Handlebars_compile Handlebars_run
     transporter_sendMail).
Local Abbreviation sendBulkEmails :=
  (Mailer.sendBulkEmails isEmail zodMessageIssues Handlebars_compile Handlebars_run
     transporter_sendMail).

Lemma extends_refl (s : State) : extends s s.
Proof. by repeat split. Qed.

Lemma extends_trans (s1 s2 s3 : State) : extends s1 s2 -> extends s2 s3 -> extends s1 s3.
Proof.
  intros (A1 & A2 & A3 & A4 & A5) (B1 & B2 & B3 & B4 & B5).
  split; [auto |]. split; [by etrans |]. split; [by etrans |].
  split; congruence.
Qed.

Lemma cached_None_lookup (key : string) (this : EmailSMTPService) :
  truthy_string key = true -> cached (Some key) this = None ->
  templateCache this !! key = None.
Proof. intros Hk. by rewrite cached_key. Qed.

Lemma compileTemplate_extends (t : string) (cacheKey : option string) (s : State) :
  extends s (snd (compileTemplate t cacheKey s)).
Proof.
  destruct s as [this w].
  unfold Mailer.compileTemplate, bind, get, try_catch, call_compile, store, modify, ret, throw.
  destruct (cached cacheKey this) eqn:Hc; [apply extends_refl |].
  assert (P : compileCalls w `prefix_of` (compileCalls w ++ [t])%list) by by eexists.
  destruct (Handlebars_compile t); [| by repeat split].
  destruct cacheKey as [key|]; [| by repeat split].
  destruct (truthy_string key) eqn:Hk; [| by repeat split].
  split; [| by repeat split].
  intros k d Hd. simpl in *. rewrite lookup_insert_ne; [done |].
  intros <-. by rewrite (cached_None_lookup key this Hk Hc) in Hd.
Qed.

Lemma htmlContentOf_extends (m : Schema.EmailMessage) (s : State) :
  extends s (snd (htmlContentOf m s)).
Proof.
  destruct (templateOf m) as [t|] eqn:Ht.
  - rewrite (SendEmailSpec.htmlContentOf_template _ _ m t s Ht), renderTemplate_unfold.
    pose proof (compileTemplate_extends t (cacheKeyOf m t) s) as G.
    destruct (compileTemplate t (cacheKeyOf m t) s) as [[d|e] s']; [| done].
    by destruct (Handlebars_run _ _).
  - rewrite (SendEmailSpec.htmlContentOf_plain _ _ m s Ht). apply extends_refl.
Qed.

Lemma sendEmail_extends (m : Schema.EmailMessage) (s : State) :
  extends s (snd (sendEmail m s)).
Proof.
  destruct (messageValid m) eqn:Hv.
  - rewrite (SendEmailSpec.sendEmail_valid _ _ _ _ _ m s Hv).
    pose proof (htmlContentOf_extends m s) as G.
    destruct (htmlContentOf m s) as [[h|e] [this1 w1]]; [| done].
    eapply extends_trans; [exact G |]. unfold dispatch. simpl.
    repeat split; try done. by eexists.
  - rewrite (SendEmailSpec.sendEmail_invalid _ _ _ _ _ m s Hv). apply extends_refl.
Qed.

Lemma map_calls_extends (messages : list Schema.EmailMessage) :
  forall s : State, extends s (snd (map_calls sendEmail messages s)).
Proof.
  induction messages as [|m l IH]; intros s; [apply extends_refl |].
  rewrite SendEmailSpec.map_calls_cons.
  eapply extends_trans; [apply (sendEmail_extends m s) | apply IH].
Qed.

(** X2. Neither [sendEmail] nor [sendBulkEmails] ever removes or replaces
    a cached renderer, whatever the messages are and whatever fails: every
    entry of the cache is still there, with the same renderer, afterwards.
    The two logs (the sources compiled, the requests handed to the
    transport) are only extended, and the transport and the default sender
    of the service stay as they are. *)
Theorem sends_keep_the_cache (messages : list Schema.EmailMessage) (m : Schema.EmailMessage)
    (s : State) :
  extends s (snd (sendEmail m s))
  /\ extends s (snd (sendBulkEmails messages s)).
Proof.
  split; [apply sendEmail_extends |].
  rewrite SendEmailSpec.sendBulkEmails_unfold. apply map_calls_extends.
Qed.

(** *** Where a cached renderer comes from *)

Lemma new_EmailSMTPService_provenance (config : Schema.EmailConfigInput)
    (this : EmailSMTPService) :
  new_EmailSMTPService isEmail Number_of_string zodConfigIssues config = Return this ->
  cacheProvenance this.
Proof.
  unfold new_EmailSMTPService, Schema.emailConfigSchema_parse.
  destruct (Schema.configValid _ _ _); [| done].
  intros H. injection H as <-. intros key d Hd. simpl in Hd.
  by rewrite lookup_empty in Hd.
Qed.

(** What [compileTemplate] answers under the key of a send: a renderer
    whose source agrees with the template on the first 24 bytes, or the
    wrapped error of [Handlebars.compile]. *)
Lemma compileTemplate_provenance (t : string) (cacheKey : option string)
    (this : EmailSMTPService) (w : World) :
  cacheKey = None \/ cacheKey = Some (deriveCacheKey t) ->
  cacheProvenance this ->
  cacheProvenance (fst (snd (compileTemplate t cacheKey (this, w))))
  /\ match fst (compileTemplate t cacheKey (this, w)) with
     | Return d => String.substring 0 24 (delegateSource d) = String.substring 0 24 t
     | Throw e0 => exists e, Handlebars_compile t = Throw e /\ e0 = compileError e
     end.
Proof.
  intros Hk Hp.
  destruct (cached cacheKey this) as [d|] eqn:Hc.
  - rewrite (compileTemplate_hit _ t cacheKey d this w Hc). simpl. split; [done |].
    destruct Hk as [-> | ->]; [done |].
    rewrite cached_key in Hc by reflexivity.
    symmetry. apply CacheKeySpec.deriveCacheKey_inj. by apply Hp.
  - destruct (Handlebars_compile t) as [u|e] eqn:Ho.
    + destruct Hk as [-> | ->].
      * by rewrite (compileTemplate_no_key _ t None this w u eq_refl Ho).
      * rewrite cached_key in Hc by reflexivity.
        rewrite (compileTemplate_miss_store _ t (deriveCacheKey t) this w u eq_refl Hc Ho).
        simpl.
        split; [| done]. intros key d.
        change (templateCache (set_cache (deriveCacheKey t) (newDelegate t w) this))
          with (<[deriveCacheKey t := newDelegate t w]> (templateCache this)).
        destruct (decide (key = deriveCacheKey t)) as [-> | Hne].
        -- rewrite lookup_insert_eq. intros H. by injection H as <-.
        -- rewrite lookup_insert_ne by done. apply Hp.
    + rewrite (compileTemplate_throw _ t cacheKey this w e Hc Ho). simpl.
      split; [done |]. by exists e.
Qed.

Lemma cacheKeyOf_cases (m : Schema.EmailMessage) (t : string) :
  cacheKeyOf m t = None \/ cacheKeyOf m t = Some (deriveCacheKey t).
Proof. unfold cacheKeyOf. destruct (Schema.templateData m); auto. Qed.

Lemma htmlContentOf_provenance (m : Schema.EmailMessage) (this : EmailSMTPService) (w : World) :
  cacheProvenance this ->
  cacheProvenance (fst (snd (htmlContentOf m (this, w))))
  /\ (forall t, templateOf m = Some t ->
        (exists source,
           String.substring 0 24 source = String.substring 0 24 t
           /\ fst (htmlContentOf m (this, w)) = rendered source m)
        \/ (exists e,
              Handlebars_compile t = Throw e
              /\ fst (htmlContentOf m (this, w)) = Throw (renderError (compileError e)))).
Proof.
  intros Hp. destruct (templateOf m) as [t|] eqn:Ht.
  - rewrite (SendEmailSpec.htmlContentOf_template _ _ m t _ Ht), renderTemplate_unfold.
    destruct (compileTemplate_provenance t (cacheKeyOf m t) this w (cacheKeyOf_cases m t) Hp)
      as [P Q].
    destruct (compileTemplate t (cacheKeyOf m t) (this, w)) as [[d|e0] s']; simpl in P, Q.
    + split.
      * by destruct (Handlebars_run _ _).
      * intros t' E. injection E as <-. left. exists (delegateSource d).
        split; [done |]. unfold Mailer.rendered. by destruct (Handlebars_run _ _).
    + split; [done |].
      intros t' E. injection E as <-. right.
      destruct Q as (e & He & ->). by exists e.
  - rewrite (SendEmailSpec.htmlContentOf_plain _ _ m _ Ht). by split.
Qed.

Lemma sendEmail_provenance (m : Schema.EmailMessage) (s : State) :
  cacheProvenance (fst s) -> cacheProvenance (fst (snd (sendEmail m s))).
Proof.
  intros Hp. destruct s as [this w].
  destruct (messageValid m) eqn:Hv.
  - destruct (SendEmailSpec.sendEmail_after_render isEmail zodMessageIssues Handlebars_compile
              Handlebars_run transporter_sendMail m (this, w) Hv)
      as [E _].
    rewrite E. by apply htmlContentOf_provenance.
  - by rewrite (SendEmailSpec.sendEmail_invalid _ _ _ _ _ m _ Hv).
Qed.

Lemma map_calls_provenance (messages : list Schema.EmailMessage) :
  forall s : State,
    cacheProvenance (fst s) ->
    cacheProvenance (fst (snd (map_calls sendEmail messages s))).
Proof.
  induction messages as [|m l IH]; intros s Hp; [done |].
  rewrite SendEmailSpec.map_calls_cons. simpl.
  by apply IH, sendEmail_provenance.
Qed.

(** X3. On a service whose cache holds every renderer under the key
    derived from its own source (a service as the constructor makes it, and
    whatever [sendEmail] and [sendBulkEmails] make of it afterwards), a
    templated send never renders an unrelated template: what it renders is
    compiled from a source with the same first 24 bytes as the template of
    the message, or else [Handlebars.compile] has thrown on the template of
    the message and the send fails with the wrapped error. *)
Theorem rendered_source_agrees (m : Schema.EmailMessage) (this : EmailSMTPService) (w : World) :
  cacheProvenance this ->
  (forall t, templateOf m = Some t ->
     (exists source,
        String.substring 0 24 source = String.substring 0 24 t
        /\ fst (htmlContentOf m (this, w)) = rendered source m)
     \/ (exists e,
           Handlebars_compile t = Throw e
           /\ fst (htmlContentOf m (this, w)) = Throw (renderError (compileError e))))
  /\ cacheProvenance (fst (snd (sendEmail m (this, w))))
  /\ (forall messages, cacheProvenance (fst (snd (sendBulkEmails messages (this, w)))))
  /\ (forall config this0,
        new_EmailSMTPService isEmail Number_of_string zodConfigIssues config = Return this0 ->
        cacheProvenance this0).
Proof.
  intros Hp. split; [| split; [| split]].
  - by apply htmlContentOf_provenance.
  - by apply (sendEmail_provenance m (this, w)).
  - intros messages. rewrite SendEmailSpec.sendBulkEmails_unfold.
    by apply (map_calls_provenance messages (this, w)).
  - apply new_EmailSMTPService_provenance.
Qed.

(** *** [clearTemplateCache] *)

(** X4. [clearTemplateCache] empties the cache and touches nothing else
    (transport, default sender, both logs). The next send of a valid
    templated message with data then compiles the template of the message
    itself, once, renders that, and leaves it as the only cache entry, under
    its derived key. *)
Theorem clearTemplateCache_recompiles (m : Schema.EmailMessage) (t : string) (u : unit)
    (this : EmailSMTPService) (w : World) :
  messageValid m = true ->
  templateOf m = Some t ->
  is_Some (Schema.templateData m) ->
  Handlebars_compile t = Return u ->
  let s0 := snd (clearTemplateCache (this, w)) in
  let s1 := snd (sendEmail m s0) in
  templateCache (fst s0) = ∅
  /\ transporter (fst s0) = transporter this
  /\ defaultFrom (fst s0) = defaultFrom this
  /\ snd s0 = w
  /\ fst (htmlContentOf m s0) = rendered t m
  /\ compileCalls (snd s1) = (compileCalls w ++ [t])%list
  /\ templateCache (fst s1) = {[ deriveCacheKey t := newDelegate t w ]}.
Proof.
  intros Hv Ht Hd Ho s0 s1.
  assert (E : htmlContentOf m s0
              = (rendered t m,
                 (set_cache (deriveCacheKey t) (newDelegate t w) (fst s0), log_compile t w))).
  { apply (SendEmailSpec.htmlContentOf_miss_key _ _ m t u); try done. }
  destruct (SendEmailSpec.sendEmail_after_render isEmail zodMessageIssues Handlebars_compile
              Handlebars_run transporter_sendMail m s0 Hv)
    as [E1 E2].
  fold s1 in E1, E2. rewrite E in E1, E2. simpl in E1, E2.
  repeat split; try done.
  - by rewrite E.
  - by rewrite E1.
Qed.

End Facts.

(** *** On sample inputs *)

Import Samples.

Local Abbreviation sendSample :=
  (Mailer.sendEmail hasAt issuesText compileAlways runEcho transportAccepts).

(** After the welcome template has been sent and cached, the send of the
    template that shares its first 24 bytes. *)
Lemma rendered_source_agrees_witness :
  let this := fst (snd (sendSample (templatedMessage welcomeTemplate (Some bobData)) sampleState)) in
  let m := templatedMessage welcomeBackTemplate (Some carolData) in
  cacheProvenance this
  /\ (forall t, templateOf m = Some t ->
        (exists source,
           String.substring 0 24 source = String.substring 0 24 t
           /\ fst (Mailer.htmlContentOf compileAlways runEcho m (this, emptyWorld))
              = Mailer.rendered runEcho source m)
        \/ (exists e,
              compileAlways t = Throw e
              /\ fst (Mailer.htmlContentOf compileAlways runEcho m (this, emptyWorld))
                 = Throw (renderError (compileError e)))).
Proof.
  intros this m.
  assert (Hp : cacheProvenance this).
  { apply (sendEmail_provenance hasAt issuesText compileAlways runEcho transportAccepts).
    intros key d H. simpl in H. by rewrite lookup_empty in H. }
  split; [exact Hp |].
  exact (proj1 (rendered_source_agrees hasAt issuesText compileAlways runEcho transportAccepts
                  sampleNumber configIssuesText m this emptyWorld Hp)).
Defined.

Lemma clearTemplateCache_recompiles_witness :
  let this := fst (snd (sendSample (templatedMessage welcomeTemplate (Some bobData)) sampleState)) in
  let m := templatedMessage welcomeBackTemplate (Some carolData) in
  let s0 := snd (clearTemplateCache (this, emptyWorld)) in
  Schema.messageValid hasAt m = true
  /\ templateOf m = Some welcomeBackTemplate
  /\ is_Some (Schema.templateData m)
  /\ compileAlways welcomeBackTemplate = Return tt
  /\ fst (Mailer.htmlContentOf compileAlways runEcho m s0)
     = Mailer.rendered runEcho welcomeBackTemplate m.
Proof.
  intros this m s0.
  assert (Hv : Schema.messageValid hasAt m = true) by reflexivity.
  assert (Ht : templateOf m = Some welcomeBackTemplate) by reflexivity.
  assert (Hd : is_Some (Schema.templateData m)) by (by eexists).
  split; [exact Hv |]. split; [exact Ht |]. split; [exact Hd |]. split; [reflexivity |].
  exact (proj1 (proj2 (proj2 (proj2 (proj2
    (clearTemplateCache_recompiles hasAt issuesText compileAlways runEcho transportAccepts
       m welcomeBackTemplate tt this emptyWorld Hv Ht Hd eq_refl)))))).
Defined.

End CacheInvariantSpec.

(** ** What reaches the transport *)

Module RequestSpec.

Import JS Eff Mailer CacheSpec Requests.

Section Facts.

Variable isEmail : string -> bool.
Variable zodMessageIssues : Schema.EmailMessage -> string.
Variable Handlebars_compile : string -> completion unit.
Variable Handlebars_run : string -> Schema.TemplateDataType -> completion string.
Variable transporter_sendMail :
  list (Nodemailer.TransportOptions * Nodemailer.SendMailOptions) ->
  Nodemailer.TransportOptions -> Nodemailer.SendMailOptions ->
  completion Nodemailer.SentMessageInfo.

Local Abbreviation messageValid := (Schema.messageValid isEmail).
Local Abbreviation compileTemplate := (Mailer.compileTemplate Handlebars_compile).
Local Abbreviation htmlContentOf := (Mailer.htmlContentOf Handlebars_compile Handlebars_run).
Local Abbreviation rendered := (Mailer.rendered Handlebars_run).
Local Abbreviation sendEmail :=
  (Mailer.sendEmail isEmail zodMessageIssues Handlebars_compile Handlebars_run
     transporter_sendMail).
Local Abbreviation sendBulkEmails :=
  (Mailer.sendBulkEmails isEmail zodMessageIssues Handlebars_compile Handlebars_run
     transporter_sendMail).

Lemma carries_mailOptionsOf (m : Schema.EmailMessage) (h : option string)
    (this : EmailSMTPService) :
  carries m (mailOptionsOf m h this).
Proof. by repeat split. Qed.

(** The requests of one send: none, or the one made from the message and
    from what the rendering step returned. *)
Lemma sendEmail_requests (m : Schema.EmailMessage) (this : EmailSMTPService) (w : World) :
  (outbox (snd (snd (sendEmail m (this, w)))) = outbox w
   /\ (messageValid m = false \/ exists e, fst (htmlContentOf m (this, w)) = Throw e))
  \/ (exists h,
        messageValid m = true
        /\ fst (htmlContentOf m (this, w)) = Return h
        /\ outbox (snd (snd (sendEmail m (this, w))))
           = (outbox w ++ [(transporter this,
                            mailOptionsOf m h (fst (snd (htmlContentOf m (this, w)))))])%list).
Proof.
  destruct (messageValid m) eqn:Hv.
  - rewrite (SendEmailSpec.sendEmail_valid _ _ _ _ _ m _ Hv).
    pose proof (SendEmailSpec.htmlContentOf_frame Handlebars_compile Handlebars_run m this w) as F.
    destruct (htmlContentOf m (this, w)) as [[h|e] [this1 w1]].
    + destruct F as (Ft & Fd & Fo). right. exists h.
      split; [done |]. split; [done |]. unfold dispatch. simpl. by rewrite Ft, Fo.
    + left. destruct F as (_ & _ & Fo). split; [done |]. right. by exists e.
  - left. rewrite (SendEmailSpec.sendEmail_invalid _ _ _ _ _ m _ Hv). split; [done |]. by left.
Qed.

(** X5. A request reaches the transport only for a message that the
    schema accepts, and it goes through the transport of the service. Its
    [to], [subject], [text], [cc], [bcc] and [attachments] are those of the
    message, and its [html] is what the rendering step returned: the [html]
    of the message when the message has no (non-empty) template, and the
    text that a renderer produced when it has one, whatever the [html] of
    the message says. *)
Theorem request_content (m : Schema.EmailMessage) (this : EmailSMTPService) (w : World)
    (t : Nodemailer.TransportOptions) (o : Nodemailer.SendMailOptions) :
  outbox (snd (snd (sendEmail m (this, w)))) = (outbox w ++ [(t, o)])%list ->
  messageValid m = true
  /\ t = transporter this
  /\ carries m o
  /\ fst (htmlContentOf m (this, w)) = Return (Nodemailer.html o)
  /\ (templateOf m = None -> Nodemailer.html o = Schema.html m)
  /\ (forall templateHtml, templateOf m = Some templateHtml ->
        exists source text,
          Handlebars_run source (default [] (Schema.templateData m)) = Return text
          /\ Nodemailer.html o = Some text).
Proof.
  intros H.
  destruct (sendEmail_requests m this w) as [[E _] | (h & Hv & Hh & E)].
  - rewrite E in H. apply (f_equal length) in H.
    rewrite length_app in H. simpl in H. lia.
  - rewrite E in H. apply app_inv_head in H. injection H as <- <-.
    split; [done |]. split; [done |]. split; [apply carries_mailOptionsOf |].
    split; [done |]. split.
    + intros Ht. rewrite (SendEmailSpec.htmlContentOf_plain _ _ m _ Ht) in Hh.
      simpl in Hh. by injection Hh as <-.
    + intros t Ht.
      rewrite (SendEmailSpec.htmlContentOf_template _ _ m t _ Ht), renderTemplate_unfold in Hh.
      destruct (compileTemplate t (cacheKeyOf m t) (this, w)) as [[d|e] s']; [| done].
      destruct (Handlebars_run (delegateSource d) _) as [text|e] eqn:Hr; [| done].
      simpl in Hh. injection Hh as <-. by exists (delegateSource d), text.
Qed.

(** *** The requests of a batch *)

Lemma sendEmail_transporter (m : Schema.EmailMessage) (s : State) :
  transporter (fst (snd (sendEmail m s))) = transporter (fst s).
Proof.
  by destruct (CacheInvariantSpec.sendEmail_extends isEmail zodMessageIssues Handlebars_compile
                 Handlebars_run transporter_sendMail m s) as (_ & _ & _ & E & _).
Qed.

Lemma map_calls_requests (messages : list Schema.EmailMessage) :
  forall s : State,
    exists sent requests,
      outbox (snd (snd (map_calls sendEmail messages s))) = (outbox (snd s) ++ requests)%list
      /\ sent `sublist_of` messages
      /\ Forall (fun m => messageValid m = true) sent
      /\ Forall2 (fun m r => fst r = transporter (fst s) /\ carries m (snd r)) sent requests
      /\ ((forall i m, messages !! i = Some m -> messageValid m = true ->
             exists h s1,
               htmlContentOf m (snd (map_calls sendEmail (take i messages) s))
               = (Return h, s1))
          -> sent = List.filter messageValid messages).
Proof.
  induction messages as [|m l IH]; intros s.
  - exists [], []. simpl. rewrite app_nil_r. repeat split; constructor.
  - rewrite SendEmailSpec.map_calls_cons. simpl.
    destruct (IH (snd (sendEmail m s))) as (sent & requests & Ho & Hs & Hv & Hc & Hf).
    rewrite sendEmail_transporter in Hc.
    assert (Htail : (forall i m0, (m :: l) !! i = Some m0 -> messageValid m0 = true ->
                       exists h s1,
                         htmlContentOf m0 (snd (map_calls sendEmail (take i (m :: l)) s))
                         = (Return h, s1))
                    -> sent = List.filter messageValid l).
    { intros Hall. apply Hf. intros i m0 Hi Hm0.
      specialize (Hall (S i) m0 Hi Hm0).
      by rewrite firstn_cons, SendEmailSpec.map_calls_cons in Hall. }
    destruct s as [this w].
    destruct (sendEmail_requests m this w) as [[E D] | (h & Hm & Hh & E)].
    + exists sent, requests. rewrite Ho, E.
      split; [done |]. split; [by apply sublist_cons |]. split; [done |]. split; [done |].
      intros Hall. rewrite (Htail Hall).
      destruct D as [D | [e D]]; [by rewrite D |].
      destruct (messageValid m) eqn:Hm; [| done].
      destruct (Hall 0 m eq_refl Hm) as (h & s1 & R). simpl in R.
      rewrite R in D. done.
    + eexists (m :: sent), (_ :: requests). rewrite Ho, E, <- app_assoc.
      split; [reflexivity |]. split; [by apply sublist_skip |].
      split; [by constructor |]. split.
      * constructor; [| done]. split; [done |]. apply carries_mailOptionsOf.
      * intros Hall. simpl. by rewrite Hm, (Htail Hall).
Qed.

(** The step that message [i] of a batch adds to the outbox. *)
Lemma map_calls_step (messages : list Schema.EmailMessage) (s : State) (i : nat)
    (m : Schema.EmailMessage) :
  messages !! i = Some m ->
  snd (map_calls sendEmail (take (S i) messages) s)
  = snd (sendEmail m (snd (map_calls sendEmail (take i messages) s))).
Proof.
  intros Hi. rewrite (take_S_r messages i m Hi), SendEmailSpec.map_calls_app. simpl.
  by destruct (sendEmail m _).
Qed.

(** X6. The requests that [sendBulkEmails] hands to the transport are
    appended to the outbox in the order of the messages: there is at most
    one for each message, only for messages that the schema accepts, each
    through the transport of the service and carrying the fields of its
    message. Message [i] adds its request exactly when the schema accepts
    it and its rendering step returns from the state that the messages
    before it have left (where the cache may hold the renderer of an
    earlier template under its key); the request is made of the message and
    of what that step returned, whatever the transport answers. So when the
    rendering step of every accepted message returns, there is exactly one
    request for each accepted message. *)
Theorem bulk_requests_in_order (messages : list Schema.EmailMessage)
    (this : EmailSMTPService) (w : World) :
  exists sent requests,
    outbox (snd (snd (sendBulkEmails messages (this, w)))) = (outbox w ++ requests)%list
    /\ sent `sublist_of` messages
    /\ Forall (fun m => messageValid m = true) sent
    /\ Forall2 (fun m r => fst r = transporter this /\ carries m (snd r)) sent requests
    /\ (forall i m, messages !! i = Some m ->
          (messageValid m = true
           /\ exists h s1,
                htmlContentOf m (snd (sendBulkEmails (take i messages) (this, w)))
                = (Return h, s1)
                /\ outbox (snd (snd (sendBulkEmails (take (S i) messages) (this, w))))
                   = (outbox (snd (snd (sendBulkEmails (take i messages) (this, w))))
                      ++ [(transporter this, mailOptionsOf m h this)])%list)
          \/ ((messageValid m = false
               \/ exists e s1,
                    htmlContentOf m (snd (sendBulkEmails (take i messages) (this, w)))
                    = (Throw e, s1))
              /\ outbox (snd (snd (sendBulkEmails (take (S i) messages) (this, w))))
                 = outbox (snd (snd (sendBulkEmails (take i messages) (this, w))))))
    /\ ((forall i m, messages !! i = Some m -> messageValid m = true ->
           exists h s1,
             htmlContentOf m (snd (sendBulkEmails (take i messages) (this, w)))
             = (Return h, s1))
        -> sent = List.filter messageValid messages).
Proof.
  destruct (map_calls_requests messages (this, w))
    as (sent & requests & Ho & Hs & Hv & Hc & Hf).
  exists sent, requests.
  split; [by rewrite SendEmailSpec.sendBulkEmails_unfold |].
  split; [done |]. split; [done |]. split; [done |]. split.
  - intros i m Hi. rewrite !SendEmailSpec.sendBulkEmails_unfold. simpl.
    rewrite (map_calls_step messages (this, w) i m Hi).
    destruct (CacheInvariantSpec.map_calls_extends isEmail zodMessageIssues Handlebars_compile
                Handlebars_run transporter_sendMail (take i messages) (this, w))
      as (_ & _ & _ & Et & Ed).
    destruct (snd (map_calls sendEmail (take i messages) (this, w))) as [this1 w1].
    simpl in Et, Ed.
    destruct (SendEmailSpec.sendEmail_cases isEmail zodMessageIssues Handlebars_compile
                Handlebars_run transporter_sendMail m this1 w1)
      as [[Hm E] | [(text & this' & w' & Hm & Hh & Hb & E)
         | [(h & this' & w2 & info & Hm & Hh & Ht & E)
           | (h & this' & w2 & e & Hm & Hh & Ht & E)]]]; rewrite E; simpl.
    + right. split; [by left | done].
    + right. split; [| done]. right. by eexists _, _.
    + left. split; [done |]. exists h, (this', w2). split; [done |].
      by rewrite Et, (SendEmailSpec.mailOptionsOf_defaultFrom m h this this1 Ed).
    + left. split; [done |]. exists h, (this', w2). split; [done |].
      by rewrite Et, (SendEmailSpec.mailOptionsOf_defaultFrom m h this this1 Ed).
  - intros Hall. apply Hf. intros i m Hi Hm.
    specialize (Hall i m Hi Hm). by rewrite SendEmailSpec.sendBulkEmails_unfold in Hall.
Qed.

(** *** Templates that fail *)

(** X7. A valid message with a template whose renderer throws. The send
    returns the failure result whose text is "Failed to render template: "
    followed by the message of what the renderer threw ("Unknown error" for
    a value that is not an [Error]), and no request is made. With data and
    no cached renderer under the key, the template is compiled and its
    renderer stays in the cache under the key although it threw. With a
    renderer cached under the key, that renderer is the one called,
    whichever template it was compiled from, and nothing is compiled or
    changed. Without data the template is compiled and nothing is cached. *)
Theorem template_failure_texts (m : Schema.EmailMessage) (t : string)
    (this : EmailSMTPService) (w : World) :
  messageValid m = true ->
  templateOf m = Some t ->
  (forall u e,
     is_Some (Schema.templateData m) ->
     templateCache this !! deriveCacheKey t = None ->
     Handlebars_compile t = Return u ->
     Handlebars_run t (default [] (Schema.templateData m)) = Throw e ->
     sendEmail m (this, w)
     = (Return {| success := false;
                  messageId := None;
                  error := Some ("Failed to render template: "
                                 +:+ match e with
                                     | Error text | HttpError _ text => text
                                     | Other _ _ => "Unknown error"
                                     end) |},
        ({| transporter := transporter this;
            defaultFrom := defaultFrom this;
            templateCache :=
              <[deriveCacheKey t := {| delegateId := length (compileCalls w);
                                       delegateSource := t |}]> (templateCache this);
            helpersRegistered := helpersRegistered this |},
         {| compileCalls := compileCalls w ++ [t]; outbox := outbox w |})))
  /\ (forall d e,
        is_Some (Schema.templateData m) ->
        templateCache this !! deriveCacheKey t = Some d ->
        Handlebars_run (delegateSource d) (default [] (Schema.templateData m)) = Throw e ->
        sendEmail m (this, w)
        = (Return {| success := false;
                     messageId := None;
                     error := Some ("Failed to render template: "
                                    +:+ match e with
                                        | Error text | HttpError _ text => text
                                        | Other _ _ => "Unknown error"
                                        end) |},
           (this, w)))
  /\ (forall u e,
        Schema.templateData m = None ->
        Handlebars_compile t = Return u ->
        Handlebars_run t [] = Throw e ->
        sendEmail m (this, w)
        = (Return {| success := false;
                     messageId := None;
                     error := Some ("Failed to render template: "
                                    +:+ match e with
                                        | Error text | HttpError _ text => text
                                        | Other _ _ => "Unknown error"
                                        end) |},
           (this, {| compileCalls := compileCalls w ++ [t]; outbox := outbox w |}))).
Proof.
  intros Hv Ht. split; [| split].
  - intros u e Hd Hc Hu He. rewrite (SendEmailSpec.sendEmail_valid _ _ _ _ _ m _ Hv).
    rewrite (SendEmailSpec.htmlContentOf_miss_key _ _ m t u this w Ht Hd Hc Hu).
    unfold Mailer.rendered. rewrite He. by destruct e.
  - intros d e Hd Hc He. rewrite (SendEmailSpec.sendEmail_valid _ _ _ _ _ m _ Hv).
    rewrite (SendEmailSpec.htmlContentOf_hit _ _ m t d this w Ht).
    + unfold Mailer.rendered. rewrite He. by destruct e.
    + destruct Hd as [data Hd]. unfold cacheKeyOf. rewrite Hd.
      by rewrite cached_key.
  - intros u e Hd Hu He. rewrite (SendEmailSpec.sendEmail_valid _ _ _ _ _ m _ Hv).
    rewrite (SendEmailSpec.htmlContentOf_no_key _ _ m t this w Ht Hd), Hu.
    unfold Mailer.rendered. rewrite Hd. simpl. rewrite He. by destruct e.
Qed.

End Facts.

(** *** On sample inputs *)

Import Samples.

Lemma request_content_witness :
  outbox (snd (snd (Mailer.sendEmail hasAt issuesText compileAlways runEcho transportAccepts
                      aliceMessage sampleState)))
  = (outbox emptyWorld ++ [(sampleTransport, aliceRequest)])%list
  /\ carries aliceMessage aliceRequest
  /\ fst (Mailer.htmlContentOf compileAlways runEcho aliceMessage sampleState)
     = Return (Nodemailer.html aliceRequest).
Proof.
  assert (H : outbox (snd (snd (Mailer.sendEmail hasAt issuesText compileAlways runEcho
                                  transportAccepts aliceMessage sampleState)))
              = (outbox emptyWorld ++ [(sampleTransport, aliceRequest)])%list)
    by reflexivity.
  split; [exact H |].
  pose proof (request_content hasAt issuesText compileAlways runEcho transportAccepts
                aliceMessage sampleService emptyWorld sampleTransport aliceRequest H) as R.
  exact (conj (proj1 (proj2 (proj2 R))) (proj1 (proj2 (proj2 (proj2 R))))).
Defined.

(** X7 on the template that calls the unknown helper, with data whose
    [items] is not empty. *)
Lemma template_failure_texts_witness :
  let m := templatedMessage shoutTemplate (Some itemsData) in
  Schema.messageValid hasAt m = true
  /\ templateOf m = Some shoutTemplate
  /\ Mailer.sendEmail hasAt issuesText compileAlways runTemplates transportAccepts m sampleState
     = (Return {| success := false;
                  messageId := None;
                  error := Some ("Failed to render template: " +:+ missingHelper) |},
        ({| transporter := sampleTransport;
            defaultFrom := "mailer@example.com";
            templateCache :=
              <[deriveCacheKey shoutTemplate := {| delegateId := 0;
                                                   delegateSource := shoutTemplate |}]> ∅;
            helpersRegistered := true |},
         {| compileCalls := [shoutTemplate]; outbox := [] |})).
Proof.
  intros m.
  assert (Hv : Schema.messageValid hasAt m = true) by reflexivity.
  assert (Ht : templateOf m = Some shoutTemplate) by reflexivity.
  split; [exact Hv |]. split; [exact Ht |].
  exact (proj1 (template_failure_texts hasAt issuesText compileAlways runTemplates
                  transportAccepts m shoutTemplate sampleService emptyWorld Hv Ht)
           tt (Error missingHelper) (ex_intro _ itemsData eq_refl)
           (lookup_empty _) eq_refl eq_refl).
Defined.

End RequestSpec.

(** ** Direct templates and the services behind the bridge *)

Module DirectTemplateSpec.

Import JS Eff ServiceApi Mailer MailerService DirectTemplate.

Section Facts.

Variable isEmail : string -> bool.
Variable Number_of_string : string -> number.
Variable zodMessageIssues : Schema.EmailMessage -> string.
Variable zodConfigIssues : Schema.EmailConfigInput -> string.
Variable Handlebars_compile : string -> completion unit.
Variable Handlebars_run : string -> Schema.TemplateDataType -> completion string.
Variable transporter_sendMail :
  list (Nodemailer.TransportOptions * Nodemailer.SendMailOptions) ->
  Nodemailer.TransportOptions -> Nodemailer.SendMailOptions ->
  completion Nodemailer.SentMessageInfo.
Variable env : Env.

Local Abbreviation messageValid := (Schema.messageValid isEmail).
Local Abbreviation htmlContentOf := (Mailer.htmlContentOf Handlebars_compile Handlebars_run).
Local Abbreviation sendEmail :=
  (Mailer.sendEmail isEmail zodMessageIssues Handlebars_compile Handlebars_run
     transporter_sendMail).
Local Abbreviation createEmailService :=
  (MailerService.createEmailService isEmail Number_of_string zodConfigIssues env).
Local Abbreviation sendEmailWithDirectTemplate :=
  (DirectTemplate.sendEmailWithDirectTemplate isEmail Number_of_string zodMessageIssues
     zodConfigIssues Handlebars_compile Handlebars_run transporter_sendMail env).

(** What the call makes of the result of the send. *)
Local Abbreviation outcome result :=
  (if success result then Return tt
   else Throw (Error (or_default (error result) "Failed to send email"))).

Lemma direct_with_instance (args : SendEmailWithDirectTemplate)
    (instance : EmailSMTPService) (w : World) :
  exists result instance' w',
    sendEmail (directMessage args) (instance, w) = (Return result, (instance', w'))
    /\ sendEmailWithDirectTemplate args (Some instance, w)
       = (outcome result, (Some instance', w')).
Proof.
  destruct (SendEmailSpec.sendEmail_returns isEmail zodMessageIssues Handlebars_compile
              Handlebars_run transporter_sendMail (directMessage args) (instance, w))
    as (result & [instance' w'] & E).
  exists result, instance', w'. split; [done |].
  unfold DirectTemplate.sendEmailWithDirectTemplate. rewrite E.
  by destruct (success result).
Qed.

Lemma direct_without_instance (args : SendEmailWithDirectTemplate)
    (instance : EmailSMTPService) (w : World) :
  createEmailService = Return instance ->
  exists result instance' w',
    sendEmail (directMessage args) (instance, w) = (Return result, (instance', w'))
    /\ sendEmailWithDirectTemplate args (None, w) = (outcome result, (None, w')).
Proof.
  intros Hc.
  destruct (SendEmailSpec.sendEmail_returns isEmail zodMessageIssues Handlebars_compile
              Handlebars_run transporter_sendMail (directMessage args) (instance, w))
    as (result & [instance' w'] & E).
  exists result, instance', w'. split; [done |].
  unfold DirectTemplate.sendEmailWithDirectTemplate. rewrite Hc, E.
  by destruct (success result).
Qed.

(** X8. [sendEmailWithDirectTemplate] returns exactly when the send says
    [success: true]; otherwise it throws an [Error] whose message is the
    error text of the send as it is, with no prefix added ("Failed to send
    email" when that text is empty). With an instance supplied the send
    runs on that instance, which keeps what the send did to its cache, and
    the environment is not consulted. Without one the send runs on a new
    service made from the environment, and when the environment is rejected
    the error of the constructor is thrown as it is, with nothing compiled
    and nothing sent. *)
Theorem direct_template_outcome (args : SendEmailWithDirectTemplate)
    (instance : EmailSMTPService) (w : World) :
  (exists result instance' w',
     sendEmail (directMessage args) (instance, w) = (Return result, (instance', w'))
     /\ sendEmailWithDirectTemplate args (Some instance, w)
        = (outcome result, (Some instance', w')))
  /\ (forall env',
        DirectTemplate.sendEmailWithDirectTemplate isEmail Number_of_string zodMessageIssues
          zodConfigIssues Handlebars_compile Handlebars_run transporter_sendMail env'
          args (Some instance, w)
        = sendEmailWithDirectTemplate args (Some instance, w))
  /\ (forall made, createEmailService = Return made ->
        exists result made' w',
          sendEmail (directMessage args) (made, w) = (Return result, (made', w'))
          /\ sendEmailWithDirectTemplate args (None, w) = (outcome result, (None, w')))
  /\ (forall e, createEmailService = Throw e ->
        sendEmailWithDirectTemplate args (None, w) = (Throw e, (None, w))
        /\ e = Error (zodConfigIssues (envConfig env))).
Proof.
  split; [apply direct_with_instance |]. split; [done |].
  split; [intros made; apply direct_without_instance |].
  intros e He. split.
  - unfold DirectTemplate.sendEmailWithDirectTemplate. by rewrite He.
  - unfold MailerService.createEmailService, new_EmailSMTPService,
      Schema.emailConfigSchema_parse in He.
    destruct (Schema.configValid _ _ _); [done |]. by injection He as <-.
Qed.

(** The state after a direct send, in terms of the send. *)
Lemma direct_state_with (args : SendEmailWithDirectTemplate)
    (instance : EmailSMTPService) (w : World) :
  snd (sendEmailWithDirectTemplate args (Some instance, w))
  = (Some (fst (snd (sendEmail (directMessage args) (instance, w)))),
     snd (snd (sendEmail (directMessage args) (instance, w)))).
Proof.
  destruct (direct_with_instance args instance w) as (r & i' & w' & E & D).
  by rewrite D, E.
Qed.

Lemma direct_state_without (args : SendEmailWithDirectTemplate)
    (made : EmailSMTPService) (w : World) :
  createEmailService = Return made ->
  snd (sendEmailWithDirectTemplate args (None, w))
  = (None, snd (snd (sendEmail (directMessage args) (made, w)))).
Proof.
  intros Hc.
  destruct (direct_without_instance args made w Hc) as (r & i' & w' & E & D).
  by rewrite D, E.
Qed.

(** The compilations of a valid templated send with data. *)
Lemma send_compiles_on_miss (m : Schema.EmailMessage) (t : string) (u : unit)
    (this : EmailSMTPService) (w : World) :
  messageValid m = true ->
  templateOf m = Some t ->
  is_Some (Schema.templateData m) ->
  templateCache this !! deriveCacheKey t = None ->
  Handlebars_compile t = Return u ->
  fst (snd (sendEmail m (this, w))) = set_cache (deriveCacheKey t) (newDelegate t w) this
  /\ compileCalls (snd (snd (sendEmail m (this, w)))) = (compileCalls w ++ [t])%list.
Proof.
  intros Hv Ht Hd Hc Ho.
  destruct (SendEmailSpec.sendEmail_after_render isEmail zodMessageIssues Handlebars_compile
              Handlebars_run transporter_sendMail m (this, w) Hv) as [E1 E2].
  by rewrite (SendEmailSpec.htmlContentOf_miss_key _ _ m t u this w Ht Hd Hc Ho) in E1, E2.
Qed.

Lemma send_compiles_nothing_on_hit (m : Schema.EmailMessage) (t : string) (d : TemplateDelegate)
    (this : EmailSMTPService) (w : World) :
  messageValid m = true ->
  templateOf m = Some t ->
  is_Some (Schema.templateData m) ->
  templateCache this !! deriveCacheKey t = Some d ->
  fst (snd (sendEmail m (this, w))) = this
  /\ compileCalls (snd (snd (sendEmail m (this, w)))) = compileCalls w.
Proof.
  intros Hv Ht [data Hd] Hc.
  destruct (SendEmailSpec.sendEmail_after_render isEmail zodMessageIssues Handlebars_compile
              Handlebars_run transporter_sendMail m (this, w) Hv) as [E1 E2].
  assert (Hk : cached (cacheKeyOf m t) this = Some d).
  { unfold cacheKeyOf. rewrite Hd. by rewrite CacheSpec.cached_key. }
  by rewrite (SendEmailSpec.htmlContentOf_hit _ _ m t d this w Ht Hk) in E1, E2.
Qed.

Lemma directMessage_template (args : SendEmailWithDirectTemplate) :
  messageValid (directMessage args) = true ->
  templateOf (directMessage args) = Some (templateHtml args).
Proof.
  unfold Schema.messageValid, Schema.contentProvided, templateOf. simpl.
  rewrite andb_true_iff. intros [_ H].
  unfold or_else in H. simpl in H. by destruct (templateHtml args).
Qed.

(** X9. Two direct sends of the same template with data, both accepted by
    the schema, from a cache without the key. With the same instance
    supplied to both, the template is compiled once: the second send finds
    the renderer that the first one stored on the caller's instance. With no
    instance supplied each call makes its own service, and the template is
    compiled by both. *)
Theorem direct_template_cache (args1 args2 : SendEmailWithDirectTemplate) (u : unit)
    (instance : EmailSMTPService) (w : World) :
  messageValid (directMessage args1) = true ->
  messageValid (directMessage args2) = true ->
  templateHtml args2 = templateHtml args1 ->
  is_Some (templateData args1) ->
  is_Some (templateData args2) ->
  templateCache instance !! deriveCacheKey (templateHtml args1) = None ->
  Handlebars_compile (templateHtml args1) = Return u ->
  (let s1 := snd (sendEmailWithDirectTemplate args1 (Some instance, w)) in
   let s2 := snd (sendEmailWithDirectTemplate args2 s1) in
   compileCalls (snd s1) = (compileCalls w ++ [templateHtml args1])%list
   /\ compileCalls (snd s2) = compileCalls (snd s1))
  /\ (forall made, createEmailService = Return made ->
        let s1 := snd (sendEmailWithDirectTemplate args1 (None, w)) in
        let s2 := snd (sendEmailWithDirectTemplate args2 s1) in
        compileCalls (snd s2)
        = (compileCalls w ++ [templateHtml args1; templateHtml args1])%list).
Proof.
  intros Hv1 Hv2 Ht Hd1 Hd2 Hc Ho.
  pose proof (directMessage_template args1 Hv1) as T1.
  pose proof (directMessage_template args2 Hv2) as T2. rewrite Ht in T2.
  split.
  - intros s1 s2. unfold s2, s1. rewrite direct_state_with.
    destruct (send_compiles_on_miss (directMessage args1) _ u instance w Hv1 T1 Hd1 Hc Ho)
      as [E1 E2].
    rewrite direct_state_with. simpl. split; [exact E2 |]. rewrite E1.
    apply (send_compiles_nothing_on_hit (directMessage args2) (templateHtml args1)
             (newDelegate (templateHtml args1) w)); try done.
    apply lookup_insert_eq.
  - intros made Hm s1 s2. unfold s2, s1.
    destruct (BridgeSpec.createEmailService_fields isEmail Number_of_string zodConfigIssues
                env made Hm) as (_ & _ & _ & _ & Hempty).
    assert (Hmiss : templateCache made !! deriveCacheKey (templateHtml args1) = None)
      by (by rewrite Hempty).
    rewrite (direct_state_without args1 made w Hm).
    rewrite (direct_state_without args2 made _ Hm). simpl.
    destruct (send_compiles_on_miss (directMessage args1) _ u made w Hv1 T1 Hd1 Hmiss Ho)
      as [_ E2].
    destruct (send_compiles_on_miss (directMessage args2) _ u made
                (snd (snd (sendEmail (directMessage args1) (made, w)))) Hv2 T2 Hd2 Hmiss Ho)
      as [_ F2].
    rewrite F2, E2, <- app_assoc. done.
Qed.

End Facts.

(** *** On sample inputs *)

Import Samples.

Lemma direct_template_cache_witness :
  let args1 := welcomeArgs (Some bobData) in
  let args2 := welcomeArgs (Some carolData) in
  let direct :=
    DirectTemplate.sendEmailWithDirectTemplate hasAt sampleNumber issuesText configIssuesText
      compileAlways runEcho transportAccepts sampleEnv in
  Schema.messageValid hasAt (directMessage args1) = true
  /\ Schema.messageValid hasAt (directMessage args2) = true
  /\ templateHtml args2 = templateHtml args1
  /\ is_Some (templateData args1)
  /\ is_Some (templateData args2)
  /\ templateCache sampleService !! deriveCacheKey (templateHtml args1) = None
  /\ compileAlways (templateHtml args1) = Return tt
  /\ compileCalls (snd (snd (direct args1 (Some sampleService, emptyWorld))))
     = (compileCalls emptyWorld ++ [templateHtml args1])%list
  /\ compileCalls (snd (snd (direct args2 (snd (direct args1 (Some sampleService, emptyWorld))))))
     = compileCalls (snd (snd (direct args1 (Some sampleService, emptyWorld)))).
Proof.
  intros args1 args2 direct.
  assert (Hv1 : Schema.messageValid hasAt (directMessage args1) = true) by reflexivity.
  assert (Hv2 : Schema.messageValid hasAt (directMessage args2) = true) by reflexivity.
  assert (Hd1 : is_Some (templateData args1)) by (by eexists).
  assert (Hd2 : is_Some (templateData args2)) by (by eexists).
  assert (Hc : templateCache sampleService !! deriveCacheKey (templateHtml args1) = None)
    by apply lookup_empty.
  split; [exact Hv1 |]. split; [exact Hv2 |]. split; [reflexivity |].
  split; [exact Hd1 |]. split; [exact Hd2 |]. split; [exact Hc |]. split; [reflexivity |].
  exact (proj1 (direct_template_cache hasAt sampleNumber issuesText configIssuesText
                  compileAlways runEcho transportAccepts sampleEnv args1 args2 tt
                  sampleService emptyWorld Hv1 Hv2 eq_refl Hd1 Hd2 Hc eq_refl)).
Defined.

End DirectTemplateSpec.

(** ** The bridge over the two stored services *)

Module BridgeServicesSpec.

Import JS Eff ServiceApi Mailer MailerService.

Section Facts.

Variable isEmail : string -> bool.
Variable Number_of_string : string -> number.
Variable zodMessageIssues : Schema.EmailMessage -> string.
Variable zodConfigIssues : Schema.EmailConfigInput -> string.
Variable Handlebars_compile : string -> completion unit.
Variable Handlebars_run : string -> Schema.TemplateDataType -> completion string.
Variable transporter_sendMail :
  list (Nodemailer.TransportOptions * Nodemailer.SendMailOptions) ->
  Nodemailer.TransportOptions -> Nodemailer.SendMailOptions ->
  completion Nodemailer.SentMessageInfo.
Variable env : Env.
Variable retrieveEmailTemplate :
  string -> completion (option (ServiceApiResponse (option EmailTemplateRow))).
Variable db_findFirst : string -> completion (option EmailService.EmailRow).
Variable db_findTemplate : string -> completion (option EmailTemplateRow).

Local Abbreviation messageValid := (Schema.messageValid isEmail).
Local Abbreviation htmlContentOf := (Mailer.htmlContentOf Handlebars_compile Handlebars_run).
Local Abbreviation sendEmail :=
  (Mailer.sendEmail isEmail zodMessageIssues Handlebars_compile Handlebars_run
     transporter_sendMail).
Local Abbreviation createEmailService :=
  (MailerService.createEmailService isEmail Number_of_string zodConfigIssues env).
Local Abbreviation sendEmailWithTemplate :=
  (MailerService.sendEmailWithTemplate isEmail Number_of_string zodMessageIssues
     zodConfigIssues Handlebars_compile Handlebars_run transporter_sendMail env
     retrieveEmailTemplate db_findFirst).

(** The bridge over [EmailTemplateService] and [EmailService] as they are
    written. *)
Local Abbreviation sendEmailWithStoredTemplate :=
  (MailerService.sendEmailWithTemplate isEmail Number_of_string zodMessageIssues
     zodConfigIssues Handlebars_compile Handlebars_run transporter_sendMail env
     (fun name =>
        EmailTemplateService.awaited
          (EmailTemplateService.retrieveEmailTemplate db_findTemplate name))
     db_findFirst).

(** The world after the bridge is the world after its one send. *)
Lemma bridge_world (config : SendEmailWithTemplate) (w : World)
    (template : option (ServiceApiResponse (option EmailTemplateRow)))
    (templateRow : EmailTemplateRow) (emailRow : EmailService.EmailRow)
    (instance : EmailSMTPService) :
  retrieveEmailTemplate (templateName config) = Return template ->
  dataOf template = Some templateRow ->
  db_findFirst (emailConfigName config) = Return (Some emailRow) ->
  createEmailService = Return instance ->
  snd (sendEmailWithTemplate config w)
  = snd (snd (sendEmail (templateMessage config templateRow emailRow) (instance, w))).
Proof.
  intros Ht Hd Hf Hc.
  rewrite BridgeSpec.sendEmailWithTemplate_unfold.
  rewrite (BridgeSpec.try_resolved _ _ _ _ _ _ _ _ _ _ config w template templateRow emailRow
             instance Ht Hd Hf Hc).
  destruct (sendEmail _ (instance, w)) as [[result|e] [this1 w1]]; [| done].
  by destruct (success result).
Qed.

(** The rendering step on a service that has cached nothing. *)
Lemma htmlContentOf_fresh (m : Schema.EmailMessage) (t : string)
    (this : EmailSMTPService) (w : World) :
  templateCache this = ∅ ->
  templateOf m = Some t ->
  fst (htmlContentOf m (this, w))
  = match Handlebars_compile t with
    | Return _ => Mailer.rendered Handlebars_run t m
    | Throw e => Throw (renderError (compileError e))
    end
  /\ snd (snd (htmlContentOf m (this, w))) = log_compile t w.
Proof.
  intros He Ht.
  destruct (Schema.templateData m) as [data|] eqn:Hd.
  - assert (Hc : templateCache this !! deriveCacheKey t = None) by (by rewrite He).
    destruct (Handlebars_compile t) as [u|e] eqn:Ho.
    + by rewrite (SendEmailSpec.htmlContentOf_miss_key _ _ m t u this w Ht
                    (ltac:(by rewrite Hd) : is_Some (Schema.templateData m)) Hc Ho).
    + rewrite (SendEmailSpec.htmlContentOf_template _ _ m t _ Ht),
        CacheSpec.renderTemplate_unfold.
      rewrite (CacheSpec.compileTemplate_throw _ t (cacheKeyOf m t) this w e); [done | | done].
      unfold cacheKeyOf. rewrite Hd. by rewrite CacheSpec.cached_key.
  - rewrite (SendEmailSpec.htmlContentOf_no_key _ _ m t this w Ht Hd). by split.
Qed.

Lemma templateMessage_template (config : SendEmailWithTemplate)
    (templateRow : EmailTemplateRow) (emailRow : EmailService.EmailRow) :
  messageValid (templateMessage config templateRow emailRow) = true ->
  templateOf (templateMessage config templateRow emailRow) = Some (template_html templateRow).
Proof.
  unfold Schema.messageValid, Schema.contentProvided, templateOf. simpl.
  rewrite andb_true_iff. intros [_ H].
  unfold or_else in H. simpl in H. by destruct (template_html templateRow).
Qed.

(** X10. Every call of [sendEmailWithTemplate] that gets as far as the
    send (both lookups resolved, the service constructed, the message
    accepted by the schema) hands the stored template to
    [Handlebars.compile], once, whatever earlier calls have compiled: the
    service it sends on is new, so no cached renderer is ever found. The
    [html] of the request it makes is therefore always rendered from the
    stored template itself, with the data of the call. *)
Theorem bridge_renders_stored_template (config : SendEmailWithTemplate) (w : World)
    (template : option (ServiceApiResponse (option EmailTemplateRow)))
    (templateRow : EmailTemplateRow) (emailRow : EmailService.EmailRow)
    (instance : EmailSMTPService) :
  retrieveEmailTemplate (templateName config) = Return template ->
  dataOf template = Some templateRow ->
  db_findFirst (emailConfigName config) = Return (Some emailRow) ->
  createEmailService = Return instance ->
  messageValid (templateMessage config templateRow emailRow) = true ->
  compileCalls (snd (sendEmailWithTemplate config w))
  = (compileCalls w ++ [template_html templateRow])%list
  /\ (forall t o,
        outbox (snd (sendEmailWithTemplate config w)) = (outbox w ++ [(t, o)])%list ->
        exists text,
          Handlebars_run (template_html templateRow) (default [] (templateData config))
          = Return text
          /\ Nodemailer.html o = Some text).
Proof.
  intros Ht Hd Hf Hc Hv.
  rewrite (bridge_world config w template templateRow emailRow instance Ht Hd Hf Hc).
  set (m := templateMessage config templateRow emailRow) in *.
  pose proof (templateMessage_template config templateRow emailRow Hv) as Hm. fold m in Hm.
  destruct (BridgeSpec.createEmailService_fields isEmail Number_of_string zodConfigIssues
              env instance Hc) as (_ & _ & _ & _ & Hempty).
  destruct (htmlContentOf_fresh m _ instance w Hempty Hm) as [F1 F2].
  destruct (SendEmailSpec.sendEmail_after_render isEmail zodMessageIssues Handlebars_compile
              Handlebars_run transporter_sendMail m (instance, w) Hv) as [_ E2].
  split.
  - by rewrite E2, F2.
  - intros t o Ho.
    destruct (RequestSpec.sendEmail_requests isEmail zodMessageIssues Handlebars_compile
                Handlebars_run transporter_sendMail m instance w)
      as [[E _] | (h & _ & Hh & E)].
    + rewrite E in Ho. apply (f_equal length) in Ho.
      rewrite length_app in Ho. simpl in Ho. lia.
    + rewrite E in Ho. apply app_inv_head in Ho. injection Ho as _ <-. simpl.
      rewrite F1 in Hh. destruct (Handlebars_compile _); [| done].
      unfold Mailer.rendered in Hh.
      change (Schema.templateData m) with (templateData config) in Hh.
      destruct (Handlebars_run _ _) as [text|e]; [| done].
      injection Hh as <-. by exists text.
Qed.

(** *** Failures of the database *)

Lemma stored_try_template_throws (config : SendEmailWithTemplate) (w : World) (e : thrown) :
  EmailTemplateService.retrieveEmailTemplate db_findTemplate (templateName config) = Throw e ->
  sendEmailWithStoredTemplate config w
  = (Throw (Error (wrapped config (message_or String_of e))), w).
Proof.
  intros H. rewrite BridgeSpec.sendEmailWithTemplate_unfold.
  unfold MailerService.sendEmailWithTemplate_try, bind, lift, throw, ret.
  by rewrite H.
Qed.

(** X11. The bridge over the two services as they are written. A template
    name that the table does not hold throws the wrapped "Email template
    '...' not found or has no data". A failure of the database in either
    lookup reaches the caller as the wrapped "Internal Server Error" when
    what the database threw is an [Error]: its own message is not passed
    on. Only an [HttpError] keeps its message. In all these cases nothing
    is compiled and nothing is sent. *)
Theorem bridge_database_failures (config : SendEmailWithTemplate) (w : World) :
  (db_findTemplate (templateName config) = Return None ->
     sendEmailWithStoredTemplate config w
     = (Throw (Error (wrapped config
          ("Email template '" +:+ templateName config +:+ "' not found or has no data"))), w))
  /\ (forall message,
        db_findTemplate (templateName config) = Throw (Error message) ->
        sendEmailWithStoredTemplate config w
        = (Throw (Error (wrapped config "Internal Server Error")), w))
  /\ (forall status message,
        db_findTemplate (templateName config) = Throw (HttpError status message) ->
        sendEmailWithStoredTemplate config w = (Throw (Error (wrapped config message)), w))
  /\ (forall templateRow message,
        db_findTemplate (templateName config) = Return (Some templateRow) ->
        db_findFirst (emailConfigName config) = Throw (Error message) ->
        sendEmailWithStoredTemplate config w
        = (Throw (Error (wrapped config "Internal Server Error")), w))
  /\ (forall templateRow status message,
        db_findTemplate (templateName config) = Return (Some templateRow) ->
        db_findFirst (emailConfigName config) = Throw (HttpError status message) ->
        sendEmailWithStoredTemplate config w = (Throw (Error (wrapped config message)), w)).
Proof.
  split; [| split; [| split; [| split]]].
  - intros H. rewrite BridgeSpec.sendEmailWithTemplate_unfold.
    unfold MailerService.sendEmailWithTemplate_try, bind, lift, throw, ret,
      EmailTemplateService.retrieveEmailTemplate.
    by rewrite H.
  - intros message H.
    apply (stored_try_template_throws config w
             (HttpError INTERNAL_SERVER_ERROR "Internal Server Error")).
    unfold EmailTemplateService.retrieveEmailTemplate. by rewrite H.
  - intros status message H.
    apply (stored_try_template_throws config w (HttpError status message)).
    unfold EmailTemplateService.retrieveEmailTemplate. by rewrite H.
  - intros templateRow message Ht Hf. rewrite BridgeSpec.sendEmailWithTemplate_unfold.
    unfold MailerService.sendEmailWithTemplate_try, bind, lift, throw, ret,
      EmailTemplateService.retrieveEmailTemplate, EmailService.retrieveOneByConfigName.
    by rewrite Ht, Hf.
  - intros templateRow status message Ht Hf. rewrite BridgeSpec.sendEmailWithTemplate_unfold.
    unfold MailerService.sendEmailWithTemplate_try, bind, lift, throw, ret,
      EmailTemplateService.retrieveEmailTemplate, EmailService.retrieveOneByConfigName.
    by rewrite Ht, Hf.
Qed.

End Facts.

(** *** On sample inputs *)

Import Samples.

Lemma bridge_renders_stored_template_witness :
  findTemplate (templateName welcomeRequest) = Return welcomeResponse
  /\ dataOf welcomeResponse = Some welcomeRow
  /\ findConfig (emailConfigName welcomeRequest) = Return (Some namedRow)
  /\ MailerService.createEmailService hasAt sampleNumber configIssuesText sampleEnv
     = Return envService
  /\ Schema.messageValid hasAt (templateMessage welcomeRequest welcomeRow namedRow) = true
  /\ compileCalls
       (snd (MailerService.sendEmailWithTemplate hasAt sampleNumber issuesText
               configIssuesText compileAlways runEcho transportAccepts sampleEnv
               findTemplate findConfig welcomeRequest
               {| compileCalls := [welcomeTemplate]; outbox := [] |}))
     = ([welcomeTemplate] ++ [template_html welcomeRow])%list.
Proof.
  assert (Hc : MailerService.createEmailService hasAt sampleNumber configIssuesText sampleEnv
               = Return envService) by (vm_compute; reflexivity).
  assert (Hv : Schema.messageValid hasAt (templateMessage welcomeRequest welcomeRow namedRow)
               = true) by reflexivity.
  split; [reflexivity |]. split; [reflexivity |]. split; [reflexivity |].
  split; [exact Hc |]. split; [exact Hv |].
  exact (proj1 (bridge_renders_stored_template hasAt sampleNumber issuesText configIssuesText
                  compileAlways runEcho transportAccepts sampleEnv findTemplate findConfig
                  welcomeRequest {| compileCalls := [welcomeTemplate]; outbox := [] |}
                  welcomeResponse welcomeRow namedRow envService
                  eq_refl eq_refl eq_refl Hc Hv)).
Defined.

(** The bridge over [EmailTemplateService], with the table down and with a
    name that the table does not hold. *)
Example bridge_store_down :
  MailerService.sendEmailWithTemplate hasAt sampleNumber issuesText configIssuesText
    compileAlways runEcho transportAccepts sampleEnv
    (fun name =>
       EmailTemplateService.awaited
         (EmailTemplateService.retrieveEmailTemplate templateStoreDown name))
    findConfig welcomeRequest emptyWorld
  = (Throw (Error ("Failed to send email with template 'welcome' to 'bob@example.com': "
                   +:+ "Internal Server Error")), emptyWorld).
Proof. vm_compute. reflexivity. Qed.

Example bridge_unknown_stored_template :
  MailerService.sendEmailWithTemplate hasAt sampleNumber issuesText configIssuesText
    compileAlways runEcho transportAccepts sampleEnv
    (fun name =>
       EmailTemplateService.awaited
         (EmailTemplateService.retrieveEmailTemplate findTemplateRow name))
    findConfig unknownTemplateRequest emptyWorld
  = (Throw (Error ("Failed to send email with template 'goodbye' to 'bob@example.com': "
                   +:+ "Email template 'goodbye' not found or has no data")), emptyWorld).
Proof. vm_compute. reflexivity. Qed.

End BridgeServicesSpec.

(** ** [EmailService] and its controller *)

Module EmailServiceMethodsSpec.

Import JS ServiceApi EmailService EmailServiceMethods.

Section Facts.

Variable Number_of_string : string -> number.
Variable db_findFirst : string -> completion (option EmailRow).
Variable db_findById : number -> completion (option EmailRow).
Variable db_update : number -> EmailUpdate -> completion (option EmailRow).
Variable transporter_verify : ProbeOptions -> completion unit.

Local Abbreviation retrieveOne := (EmailServiceMethods.retrieveOne db_findById).
Local Abbreviation update := (EmailServiceMethods.update db_update).
Local Abbreviation retrieveOneByConfigName := (EmailService.retrieveOneByConfigName db_findFirst).
Local Abbreviation validateSmtpConnection :=
  (EmailService.validateSmtpConnection Number_of_string transporter_verify).
Local Abbreviation probeOptions := (EmailService.probeOptions Number_of_string).

(** [createErrorResponse] throws an [HttpError], always. *)
Lemma createErrorResponse_throws {A} (error : thrown) :
  exists status message, @createErrorResponse A error = Throw (HttpError status message).
Proof. destruct error as [m | st m | [[st m]|] r]; simpl; eauto. Qed.

Lemma createErrorResponse_HttpError {A} (error e : thrown) :
  @createErrorResponse A error = Throw e -> exists status message, e = HttpError status message.
Proof.
  destruct (@createErrorResponse_throws A error) as (st & m & E). rewrite E.
  intros H. injection H as <-. eauto.
Qed.

Lemma retrieveOne_throws (id : number) (e : thrown) :
  retrieveOne id = Throw e -> exists status message, e = HttpError status message.
Proof.
  unfold EmailServiceMethods.retrieveOne, try_catch, and_then, createRejectResponse.
  destruct (db_findById id) as [[row|]|e0]; [done | |].
  - simpl. intros H. injection H as <-. eauto.
  - apply createErrorResponse_HttpError.
Qed.

Lemma update_throws (id : number) (data : EmailUpdate) (e : thrown) :
  update id data = Throw e -> exists status message, e = HttpError status message.
Proof.
  unfold EmailServiceMethods.update, try_catch, and_then, createRejectResponse.
  destruct (db_update id data) as [[row|]|e0]; [done | |].
  - simpl. intros H. injection H as <-. eauto.
  - apply createErrorResponse_HttpError.
Qed.

Lemma retrieveOneByConfigName_throws (configName : string) (e : thrown) :
  retrieveOneByConfigName configName = Throw e ->
  exists status message, e = HttpError status message.
Proof.
  unfold EmailService.retrieveOneByConfigName.
  destruct (db_findFirst configName) as [[row|]|e0]; [done | done |].
  apply createErrorResponse_HttpError.
Qed.

Lemma validateSmtpConnection_throws (smtpConfig : EmailUpdate) (e : thrown) :
  validateSmtpConnection smtpConfig = Throw e ->
  exists status message, e = HttpError status message.
Proof.
  unfold EmailService.validateSmtpConnection.
  destruct (transporter_verify _) as [u|e0]; [done |].
  apply createErrorResponse_HttpError.
Qed.

(** X12. A row that is not there: [retrieveOne] and [update] throw an
    [HttpError] with status 404 and the message "Email not found", whereas
    [retrieveOneByConfigName] returns a response with status 404 and no
    data. Whatever one of the four methods throws is an [HttpError]; an
    [Error] thrown by the database becomes status 500 with the message
    "Internal Server Error", and an [HttpError] is passed on as it is. *)
Theorem email_service_failures (id : number) (data : EmailUpdate) (configName : string)
    (smtpConfig : EmailUpdate) :
  (db_findById id = Return None ->
     retrieveOne id = Throw (HttpError NOT_FOUND "Email not found"))
  /\ (db_update id data = Return None ->
      update id data = Throw (HttpError NOT_FOUND "Email not found"))
  /\ (db_findFirst configName = Return None ->
      retrieveOneByConfigName configName
      = Return {| status := NOT_FOUND; message := "Email not found"; data := None |})
  /\ (forall e,
        retrieveOne id = Throw e \/ update id data = Throw e
        \/ retrieveOneByConfigName configName = Throw e
        \/ validateSmtpConnection smtpConfig = Throw e ->
        exists status message, e = HttpError status message)
  /\ (forall m,
        (db_findById id = Throw (Error m) ->
         retrieveOne id = Throw (HttpError INTERNAL_SERVER_ERROR "Internal Server Error"))
        /\ (db_update id data = Throw (Error m) ->
            update id data = Throw (HttpError INTERNAL_SERVER_ERROR "Internal Server Error"))
        /\ (db_findFirst configName = Throw (Error m) ->
            retrieveOneByConfigName configName
            = Throw (HttpError INTERNAL_SERVER_ERROR "Internal Server Error")))
  /\ (forall st m,
        (db_findById id = Throw (HttpError st m) -> retrieveOne id = Throw (HttpError st m))
        /\ (db_update id data = Throw (HttpError st m) ->
            update id data = Throw (HttpError st m))).
Proof.
  split; [| split; [| split; [| split; [| split]]]].
  - intros H. unfold EmailServiceMethods.retrieveOne. by rewrite H.
  - intros H. unfold EmailServiceMethods.update. by rewrite H.
  - intros H. unfold EmailService.retrieveOneByConfigName. by rewrite H.
  - intros e [H | [H | [H | H]]];
      eauto using retrieveOne_throws, update_throws, retrieveOneByConfigName_throws,
        validateSmtpConnection_throws.
  - intros m. split; [| split]; intros H.
    + unfold EmailServiceMethods.retrieveOne. by rewrite H.
    + unfold EmailServiceMethods.update. by rewrite H.
    + unfold EmailService.retrieveOneByConfigName. by rewrite H.
  - intros st m. split; intros H.
    + unfold EmailServiceMethods.retrieveOne. by rewrite H.
    + unfold EmailServiceMethods.update. by rewrite H.
Qed.

Lemma validateSmtpConnection_returns (smtpConfig : EmailUpdate)
    (r : ServiceApiResponse bool) :
  validateSmtpConnection smtpConfig = Return r ->
  r = {| status := OK; message := "SMTP connection validated successfully"; data := true |}
  /\ exists u, transporter_verify (probeOptions smtpConfig) = Return u.
Proof.
  unfold EmailService.validateSmtpConnection.
  destruct (transporter_verify (probeOptions smtpConfig)) as [u|e0].
  - intros E. injection E as <-. split; [done |]. by exists u.
  - destruct (@createErrorResponse_throws (ServiceApiResponse bool) e0) as (st & m & E).
    by rewrite E.
Qed.

(** X13. [validateSmtpConnection] returns exactly when [transporter.verify]
    of the probe returns, and then with status 200 and the data [true]: it
    never returns [false]. When [verify] throws it throws an [HttpError];
    for an [Error] of the transport that is status 500 with the message
    "Internal Server Error", so the reason that the transport gave is not in
    what the caller gets. *)
Theorem validateSmtpConnection_outcome (smtpConfig : EmailUpdate) :
  (forall r, validateSmtpConnection smtpConfig = Return r ->
     r = {| status := OK; message := "SMTP connection validated successfully"; data := true |}
     /\ exists u, transporter_verify (probeOptions smtpConfig) = Return u)
  /\ (forall u, transporter_verify (probeOptions smtpConfig) = Return u ->
        validateSmtpConnection smtpConfig
        = Return {| status := OK;
                    message := "SMTP connection validated successfully";
                    data := true |})
  /\ (forall reason, transporter_verify (probeOptions smtpConfig) = Throw (Error reason) ->
        validateSmtpConnection smtpConfig
        = Throw (HttpError INTERNAL_SERVER_ERROR "Internal Server Error"))
  /\ (forall e, transporter_verify (probeOptions smtpConfig) = Throw e ->
        exists status message,
          validateSmtpConnection smtpConfig = Throw (HttpError status message)).
Proof.
  split; [apply validateSmtpConnection_returns |].
  unfold EmailService.validateSmtpConnection.
  split; [| split].
  - intros u Hu. by rewrite Hu.
  - intros reason Hr. by rewrite Hr.
  - intros e He. rewrite He. apply createErrorResponse_throws.
Qed.

End Facts.

End EmailServiceMethodsSpec.

Module EmailControllerSpec.

Import JS Eff ServiceApi EmailService ApiResponse EmailController.

Section Facts.

Variable Number_of_string : string -> number.
Variable zodUpdateIssues : EmailUpdate -> string.
Variable transporter_verify : list Event -> ProbeOptions -> completion unit.
Variable db_findById : list Event -> number -> completion (option EmailRow).
Variable db_update : list Event -> number -> EmailUpdate -> completion (option EmailRow).

Local Abbreviation safeParse := (emailUpdateSchema_safeParse Number_of_string).
Local Abbreviation probeOptions := (EmailService.probeOptions Number_of_string).
Local Abbreviation show :=
  (EmailController.show Number_of_string db_findById).
Local Abbreviation update :=
  (EmailController.update Number_of_string zodUpdateIssues transporter_verify db_update).
Local Abbreviation testSmtpConnection :=
  (EmailController.testSmtpConnection Number_of_string zodUpdateIssues transporter_verify).

(** X14. [update] writes to the table only after the connection test of
    the very data it writes has passed. An [id] that is not a number and a
    body that the schema rejects are answered with status 400 and nothing is
    tested or written (the [id] is looked at first). When the connection
    test throws, the request throws an [HttpError] and no write follows.
    Otherwise the one write is made, for [Number(id)] and the parsed body,
    right after the test. *)
Theorem update_saves_only_verified (request : Request) (log : list Event) :
  let id := Number_of_string (params_id request) in
  (isNaN id = true ->
     update request log = (Return (badResponse "Email ID must be a number"), log))
  /\ (isNaN id = false -> safeParse (body request) = None ->
      update request log = (Return (badResponse (zodUpdateIssues (body request))), log))
  /\ (forall data e,
        isNaN id = false -> safeParse (body request) = Some data ->
        transporter_verify log (probeOptions data) = Throw e ->
        snd (update request log) = (log ++ [Verify (probeOptions data)])%list
        /\ exists status message,
             fst (update request log) = Throw (HttpError status message))
  /\ (forall data u,
        isNaN id = false -> safeParse (body request) = Some data ->
        transporter_verify log (probeOptions data) = Return u ->
        snd (update request log)
        = (log ++ [Verify (probeOptions data); Save id data])%list)
  /\ (forall written data,
        In (Save written data) (drop (length log) (snd (update request log))) ->
        written = id
        /\ safeParse (body request) = Some data
        /\ exists u, transporter_verify log (probeOptions data) = Return u).
Proof.
  intros id.
  assert (C1 : isNaN id = true ->
               update request log = (Return (badResponse "Email ID must be a number"), log)).
  { intros H. unfold EmailController.update. fold id. by rewrite H. }
  assert (C2 : isNaN id = false -> safeParse (body request) = None ->
               update request log
               = (Return (badResponse (zodUpdateIssues (body request))), log)).
  { intros H P. unfold EmailController.update. fold id. by rewrite H, P. }
  assert (C3 : forall data e,
             isNaN id = false -> safeParse (body request) = Some data ->
             transporter_verify log (probeOptions data) = Throw e ->
             snd (update request log) = (log ++ [Verify (probeOptions data)])%list
             /\ exists status message,
                  fst (update request log) = Throw (HttpError status message)).
  { intros data e H P V.
    unfold EmailController.update, bind, call_validateSmtpConnection,
      validateSmtpConnection. fold id. rewrite H, P, V.
    destruct (@EmailServiceMethodsSpec.createErrorResponse_throws (ServiceApiResponse bool) e)
      as (st & m & E).
    rewrite E. simpl. split; [done |]. by exists st, m. }
  assert (C4 : forall data u,
             isNaN id = false -> safeParse (body request) = Some data ->
             transporter_verify log (probeOptions data) = Return u ->
             snd (update request log)
             = (log ++ [Verify (probeOptions data); Save id data])%list).
  { intros data u H P V.
    unfold EmailController.update, bind, call_validateSmtpConnection,
      validateSmtpConnection, call_update, ret. fold id. rewrite H, P, V.
    rewrite <- app_assoc. simpl.
    by destruct (EmailServiceMethods.update _ id data). }
  split; [exact C1 |]. split; [exact C2 |]. split; [exact C3 |]. split; [exact C4 |].
  intros written data Hin.
  destruct (isNaN id) eqn:H.
  { rewrite (C1 eq_refl) in Hin. simpl in Hin. by rewrite drop_all in Hin. }
  destruct (safeParse (body request)) as [parsed|] eqn:P.
  2: { rewrite (C2 eq_refl eq_refl) in Hin. simpl in Hin. by rewrite drop_all in Hin. }
  destruct (transporter_verify log (probeOptions parsed)) as [u|e] eqn:V.
  - rewrite (C4 parsed u eq_refl eq_refl V), drop_app_length in Hin.
    destruct Hin as [Hin | [Hin | []]]; [done |]. injection Hin as <- <-.
    split; [done |]. split; [done |]. by exists u.
  - destruct (C3 parsed e eq_refl eq_refl V) as [E _].
    rewrite E, drop_app_length in Hin. by destruct Hin as [Hin | []].
Qed.

(** X15. What the three actions answer. Every reply has status 400, with
    [success: false] and no data in its body, or status 200, with
    [success: true] and the data of the service: a row for [show] and
    [update], the value [true] for [testSmtpConnection]. No reply reports a
    failure of the service: when a service method throws, the action
    throws the [HttpError] and sends nothing. *)
Theorem controller_replies (request : Request) (log : list Event) :
  (match fst (show request log) with
   | Return reply =>
       reply = {| http_status := 400;
                  http_body := Some {| wire_status := 400; wire_success := false;
                                       wire_message := "Email ID must be a number";
                                       wire_data := None |} |}
       \/ exists row,
            reply = {| http_status := 200;
                       http_body := Some {| wire_status := 200; wire_success := true;
                                            wire_message := "Email retrieved successfully";
                                            wire_data := Some row |} |}
   | Throw e => exists status message, e = HttpError status message
   end)
  /\ (match fst (update request log) with
      | Return reply =>
          (exists text,
             reply = {| http_status := 400;
                        http_body := Some {| wire_status := 400; wire_success := false;
                                             wire_message := text;
                                             wire_data := None |} |})
          \/ exists row,
               reply = {| http_status := 200;
                          http_body := Some {| wire_status := 200; wire_success := true;
                                               wire_message := "Email updated successfully";
                                               wire_data := Some row |} |}
      | Throw e => exists status message, e = HttpError status message
      end)
  /\ (match fst (testSmtpConnection request log) with
      | Return reply =>
          reply = {| http_status := 400;
                     http_body := Some {| wire_status := 400; wire_success := false;
                                          wire_message := zodUpdateIssues (body request);
                                          wire_data := None |} |}
          \/ reply = {| http_status := 200;
                        http_body :=
                          Some {| wire_status := 200; wire_success := true;
                                  wire_message := "SMTP connection validated successfully";
                                  wire_data := Some true |} |}
      | Throw e => exists status message, e = HttpError status message
      end).
Proof.
  split; [| split].
  - unfold EmailController.show, bind, call_retrieveOne, ret.
    destruct (isNaN _); [by left |].
    destruct (EmailServiceMethods.retrieveOne _ _) as [r|e] eqn:E; simpl.
    + right. revert E.
      unfold EmailServiceMethods.retrieveOne, EmailServiceMethods.try_catch,
        EmailServiceMethods.and_then, EmailServiceMethods.createRejectResponse.
      destruct (db_findById log _) as [[row|]|e0]; simpl.
      * intros H. injection H as <-. by exists row.
      * done.
      * destruct (@EmailServiceMethodsSpec.createErrorResponse_throws
                    (ServiceApiResponse EmailRow) e0) as (st & m & E0). by rewrite E0.
    + eapply EmailServiceMethodsSpec.retrieveOne_throws. exact E.
  - unfold EmailController.update, bind, call_validateSmtpConnection, call_update, ret.
    destruct (isNaN _); [left; by eexists |].
    destruct (safeParse (body request)) as [data|]; [| left; by eexists].
    destruct (validateSmtpConnection _ _ data) as [v|e] eqn:V; simpl.
    + destruct (EmailServiceMethods.update _ _ data) as [r|e] eqn:E; simpl.
      * right. revert E.
        unfold EmailServiceMethods.update, EmailServiceMethods.try_catch,
          EmailServiceMethods.and_then, EmailServiceMethods.createRejectResponse.
        destruct (db_update _ _ data) as [[row|]|e0]; simpl.
        -- intros H. injection H as <-. by exists row.
        -- done.
        -- destruct (@EmailServiceMethodsSpec.createErrorResponse_throws
                       (ServiceApiResponse EmailRow) e0) as (st & m & E0). by rewrite E0.
      * eapply EmailServiceMethodsSpec.update_throws. exact E.
    + eapply EmailServiceMethodsSpec.validateSmtpConnection_throws. exact V.
  - unfold EmailController.testSmtpConnection, bind, call_validateSmtpConnection, ret.
    destruct (safeParse (body request)) as [data|]; [| by left].
    destruct (validateSmtpConnection _ _ data) as [v|e] eqn:V; simpl.
    + right.
      destruct (EmailServiceMethodsSpec.validateSmtpConnection_returns Number_of_string
                  (transporter_verify log) data v V) as [-> _].
      reflexivity.
    + eapply EmailServiceMethodsSpec.validateSmtpConnection_throws. exact V.
Qed.

End Facts.

End EmailControllerSpec.

(** ** More helpers *)

Module TextHelpersSpec.

Import JS TextHelpers Base64Spec.

Lemma substring_prefix_length (k : nat) :
  forall s, k <= String.length s -> String.length (String.substring 0 k s) = k.
Proof.
  induction k as [|k IH]; intros s Hk.
  - by rewrite substring_0_0.
  - destruct s as [|c s]; [simpl in Hk; lia |].
    rewrite substring_0_S. simpl. rewrite IH; [done | simpl in Hk; lia].
Qed.

Lemma substring_prefix_append (k : nat) (t : string) :
  forall s, k <= String.length s ->
    String.substring 0 k (String.substring 0 k s +:+ t) = String.substring 0 k s.
Proof.
  induction k as [|k IH]; intros s Hk.
  - by rewrite !substring_0_0.
  - destruct s as [|c s]; [simpl in Hk; lia |].
    rewrite substring_0_S, append_cons, substring_0_S, IH; [done | simpl in Hk; lia].
Qed.

Lemma truncate_short (s : string) (n : Z) :
  s = EmptyString \/ (Z.of_nat (String.length s) <= n)%Z ->
  truncate (Some s) n = Some s.
Proof.
  intros [-> | H]; [done |]. unfold truncate.
  destruct (Z.leb_spec (Z.of_nat (String.length s)) n); [| lia].
  by rewrite orb_true_r.
Qed.

Lemma truncate_long (s : string) (n : Z) :
  s <> EmptyString -> (n < Z.of_nat (String.length s))%Z ->
  truncate (Some s) n = Some (String.substring 0 (Z.to_nat n) s +:+ "...").
Proof.
  intros Hs H. unfold truncate.
  destruct (Z.leb_spec (Z.of_nat (String.length s)) n); [lia |].
  by destruct s.
Qed.

(** X16. [truncate] on a string and an integer length. The empty string
    and a string of at most [length] code units come back unchanged. A
    longer string comes back as its first [length] code units (none for a
    negative length) followed by "...", which makes [max(0, length) + 3]
    code units: when the string is longer than [length] by one or two, the
    result is longer than the string was. Truncating the result again with
    the same length changes nothing, and [undefined] stays [undefined]. *)
Theorem truncate_spec (s : string) (n : Z) :
  (s = EmptyString \/ (Z.of_nat (String.length s) <= n)%Z ->
     truncate (Some s) n = Some s)
  /\ (s <> EmptyString -> (n < Z.of_nat (String.length s))%Z ->
      truncate (Some s) n = Some (String.substring 0 (Z.to_nat n) s +:+ "...")
      /\ Z.of_nat (String.length (String.substring 0 (Z.to_nat n) s +:+ "..."))
         = (Z.max 0 n + 3)%Z)
  /\ (s <> EmptyString ->
      (Z.of_nat (String.length s) - 3 < n < Z.of_nat (String.length s))%Z ->
      exists r, truncate (Some s) n = Some r /\ String.length s < String.length r)
  /\ truncate (truncate (Some s) n) n = truncate (Some s) n
  /\ truncate None n = None.
Proof.
  assert (L : s <> EmptyString -> (n < Z.of_nat (String.length s))%Z ->
              String.length (String.substring 0 (Z.to_nat n) s +:+ "...")
              = Z.to_nat n + 3).
  { intros Hs H. rewrite CacheKeySpec.append_length, substring_prefix_length; [done | lia]. }
  split; [apply truncate_short |]. split; [| split; [| split; [| done]]].
  - intros Hs H. split; [by apply truncate_long |]. rewrite (L Hs H). lia.
  - intros Hs H. eexists. split; [apply truncate_long; [done | lia] |].
    rewrite L; [lia | done | lia].
  - destruct (decide (s = EmptyString)) as [-> | Hs]; [done |].
    destruct (Z.le_gt_cases (Z.of_nat (String.length s)) n) as [H | H].
    + by rewrite !truncate_short by auto.
    + rewrite (truncate_long s n Hs H).
      set (r := String.substring 0 (Z.to_nat n) s +:+ "...").
      assert (Hr : r <> EmptyString).
      { intros E. apply (f_equal String.length) in E. unfold r in E.
        rewrite (L Hs H) in E. simpl in E. lia. }
      rewrite (truncate_long r n Hr); [| unfold r; rewrite (L Hs H); lia].
      f_equal. unfold r. rewrite substring_prefix_append; [done | lia].
Qed.

(** X17. On every value, [isNotEmpty] is the negation of [isEmpty], and
    [isEmpty] says whether [length] is 0. Only an array with an element is
    not empty: a string, an object, a number or [null] has length 0 and is
    empty, whatever it holds. *)
Theorem array_helpers (v : value) :
  isNotEmpty v = negb (isEmpty v)
  /\ isEmpty v = (length v =? 0)%nat
  /\ (isNotEmpty v = true <-> exists x l, v = VArr (x :: l))
  /\ ((forall l, v <> VArr l) -> length v = 0 /\ isEmpty v = true).
Proof.
  split; [by destruct v as [ | | | | [|x l] | ] |].
  split; [by destruct v as [ | | | | [|x l] | ] |].
  split; [split |].
  - destruct v as [ | | | | [|x l] | ]; simpl; try done. intros _. by exists x, l.
  - by intros (x & l & ->).
  - intros H. destruct v as [ | | | | l | ]; try done. by destruct (H l).
Qed.

End TextHelpersSpec.

Module HelperRegistrySpec.

Import JS Eff HelperRegistry.

Lemma registerBuiltIns_lookup (names : list string) :
  forall (registry : Registry) (name : string),
    foldl (fun r n => Handlebars_registerHelper n (BuiltIn n) r) registry names !! name
    = if bool_decide (name ∈ names) then Some (BuiltIn name) else registry !! name.
Proof.
  induction names as [|n names IH]; intros registry name; [done |].
  simpl. rewrite IH.
  destruct (decide (name ∈ names)) as [Hin | Hin].
  - rewrite !bool_decide_eq_true_2; [done | by right | done].
  - rewrite (bool_decide_eq_false_2 _ Hin). unfold Handlebars_registerHelper.
    destruct (decide (n = name)) as [-> | Hne].
    + rewrite lookup_insert_eq, bool_decide_eq_true_2; [done | by left].
    + rewrite lookup_insert_ne by done.
      rewrite bool_decide_eq_false_2; [done |].
      intros H. apply elem_of_cons in H as [-> | H]; done.
Qed.

Section Facts.

Variable isEmail : string -> bool.
Variable Number_of_string : string -> number.
Variable zodConfigIssues : Schema.EmailConfigInput -> string.

Local Abbreviation construct :=
  (HelperRegistry.construct isEmail Number_of_string zodConfigIssues).

Lemma construct_lookup (c : Schema.EmailConfigInput) (r r' : Registry)
    (this : Mailer.EmailSMTPService) :
  construct c r = (Return this, r') ->
  Mailer.helpersRegistered this = true
  /\ forall name,
       r' !! name = if bool_decide (name ∈ builtInNames)
                    then Some (BuiltIn name) else r !! name.
Proof.
  unfold HelperRegistry.construct.
  destruct (Mailer.new_EmailSMTPService _ _ _ c) as [this0|e].
  2: { intros H. discriminate H. }
  unfold initializeHandlebars. intros H.
  apply pair_equal_spec in H as [H1 H2].
  injection H1 as <-. rewrite <- H2.
  split; [reflexivity |].
  intros name. apply registerBuiltIns_lookup.
Qed.

Lemma construct_throws (c : Schema.EmailConfigInput) (r r' : Registry) (e : thrown) :
  construct c r = (Throw e, r') -> r' = r.
Proof.
  unfold HelperRegistry.construct.
  destruct (Mailer.new_EmailSMTPService _ _ _ c) as [this0|e0].
  - unfold initializeHandlebars. intros H.
    apply pair_equal_spec in H as [H1 _]. discriminate H1.
  - intros H. apply pair_equal_spec in H as [_ H2]. by symmetry.
Qed.

(** X18. Every construction of a service registers all 23 built-in
    helpers again, in the registry that all services share: after a
    constructor has returned, each built-in name is bound to the built-in,
    also when a caller had registered a helper of its own under that name
    before, and every other name is bound as it was. A constructor that
    throws (a rejected configuration) leaves the registry as it was. A
    helper registered after the construction is found under its name until
    the next construction replaces it, if the name is a built-in's. *)
Theorem construct_restores_builtins (config : Schema.EmailConfigInput)
    (registry : Registry) :
  (forall this registry',
     construct config registry = (Return this, registry') ->
     (forall name, name ∈ builtInNames -> registry' !! name = Some (BuiltIn name))
     /\ (forall name, name ∉ builtInNames -> registry' !! name = registry !! name)
     /\ Mailer.helpersRegistered this = true
     /\ (forall name helper,
           snd (registerHelper name helper registry') !! name = Some (Custom helper))
     /\ (forall name helper config2 this2 registry2,
           name ∈ builtInNames ->
           construct config2 (snd (registerHelper name helper registry'))
           = (Return this2, registry2) ->
           registry2 !! name = Some (BuiltIn name)))
  /\ (forall e registry',
        construct config registry = (Throw e, registry') -> registry' = registry).
Proof.
  split.
  - intros this registry' H.
    destruct (construct_lookup _ _ _ _ H) as [F K].
    split; [| split; [| split; [| split]]].
    + intros name Hin. by rewrite (K name), bool_decide_eq_true_2.
    + intros name Hin. by rewrite (K name), bool_decide_eq_false_2.
    + exact F.
    + intros name helper. apply lookup_insert_eq.
    + intros name helper config2 this2 registry2 Hin H2.
      destruct (construct_lookup _ _ _ _ H2) as [_ K2].
      by rewrite (K2 name), bool_decide_eq_true_2.
  - intros e registry'. apply construct_throws.
Qed.

End Facts.

(** *** On sample inputs *)

Import Samples.

(** A helper of the caller's under the name of a built-in, and one under a
    name of its own; then the next service is constructed. *)
Example construct_after_custom_helpers :
  let registry := snd (registerHelpers [("truncate", 1); ("shout", 2)] ∅) in
  let registry' :=
    snd (HelperRegistry.construct hasAt sampleNumber configIssuesText sampleConfig registry) in
  registry !! "truncate" = Some (Custom 1)
  /\ registry' !! "truncate" = Some (BuiltIn "truncate")
  /\ registry' !! "shout" = Some (Custom 2)
  /\ length builtInNames = 23.
Proof. vm_compute. repeat split. Qed.

End HelperRegistrySpec.

(** ** What the message schema lets through *)

Module SchemaSpec.

Import JS Eff Mailer Recipients.

Section Facts.

Variable isEmail : string -> bool.
Variable zodMessageIssues : Schema.EmailMessage -> string.
Variable Handlebars_compile : string -> completion unit.
Variable Handlebars_run : string -> Schema.TemplateDataType -> completion string.
Variable transporter_sendMail :
  list (Nodemailer.TransportOptions * Nodemailer.SendMailOptions) ->
  Nodemailer.TransportOptions -> Nodemailer.SendMailOptions ->
  completion Nodemailer.SentMessageInfo.

Local Abbreviation messageValid := (Schema.messageValid isEmail).
Local Abbreviation sendEmail :=
  (Mailer.sendEmail isEmail zodMessageIssues Handlebars_compile Handlebars_run
     transporter_sendMail).

Lemma messageValid_withTo (to : Schema.EmailOrArray) (m : Schema.EmailMessage) :
  messageValid (withTo to m)
  = Schema.validateEmailOrArray isEmail to
    && (Schema.min1 (Schema.subject m)
        && Schema.optional (Schema.validateEmail isEmail) (Schema.from m)
        && Schema.optional (Schema.validateEmailOrArray isEmail) (Schema.cc m)
        && Schema.optional (Schema.validateEmailOrArray isEmail) (Schema.bcc m)
        && Schema.optional (forallb Schema.validAttachment) (Schema.attachments m)
        && Schema.contentProvided m).
Proof.
  unfold Schema.messageValid, Schema.messageFieldsValid, Schema.contentProvided. simpl.
  by rewrite <- !andb_assoc.
Qed.

(** X19. The schema asks nothing of an array of recipients but that each
    element is an address, so the empty array passes: a message that is
    accepted with some recipient is accepted with [to: []] as well, and so
    are the messages with any array of addresses that each pass the e-mail
    check. A plain message with [to: []] is then handed to the transport
    with no recipient. *)
Theorem empty_recipients_accepted (m : Schema.EmailMessage) (to : Schema.EmailOrArray)
    (this : EmailSMTPService) (w : World) :
  messageValid (withTo to m) = true ->
  messageValid (withTo (Schema.Many []) m) = true
  /\ (forall addresses,
        Forall (fun a => a <> EmptyString /\ isEmail a = true) addresses ->
        messageValid (withTo (Schema.Many addresses) m) = true)
  /\ (templateOf m = None ->
      exists o,
        outbox (snd (snd (sendEmail (withTo (Schema.Many []) m) (this, w))))
        = (outbox w ++ [(transporter this, o)])%list
        /\ Nodemailer.to o = Schema.Many []).
Proof.
  rewrite messageValid_withTo, andb_true_iff. intros [_ Hrest].
  assert (H0 : messageValid (withTo (Schema.Many []) m) = true).
  { by rewrite messageValid_withTo, Hrest. }
  split; [exact H0 |]. split.
  - intros addresses Ha. rewrite messageValid_withTo, Hrest, andb_true_r. simpl.
    apply forallb_forall. intros a Hin.
    rewrite Forall_forall in Ha. destruct (Ha a) as [Hn He].
    { by apply list_elem_of_In. }
    unfold Schema.validateEmail, Schema.min1. rewrite He, andb_true_r.
    destruct a; [done | reflexivity].
  - intros Ht.
    rewrite (SendEmailSpec.sendEmail_valid _ _ _ _ _ _ _ H0).
    rewrite (SendEmailSpec.htmlContentOf_plain _ _ (withTo (Schema.Many []) m) _ Ht).
    unfold dispatch. simpl. by eexists.
Qed.

End Facts.

(** *** On sample inputs *)

Import Samples.

Lemma empty_recipients_accepted_witness :
  Schema.messageValid hasAt (withTo (Schema.One "bob@example.com") textMessage) = true
  /\ Schema.messageValid hasAt (withTo (Schema.Many []) textMessage) = true.
Proof.
  assert (H : Schema.messageValid hasAt (withTo (Schema.One "bob@example.com") textMessage)
              = true) by reflexivity.
  split; [exact H |].
  exact (proj1 (empty_recipients_accepted hasAt issuesText compileAlways runEcho
                  transportAccepts textMessage (Schema.One "bob@example.com")
                  sampleService emptyWorld H)).
Defined.

End SchemaSpec.

(** ** The seeders *)

Module TemplateSeederSpec.

Import JS Eff TemplateSeeder.

Section Facts.

Variable db_fault : Table -> Statement -> option thrown.

Local Abbreviation seedTemplate := (TemplateSeeder.seedTemplate db_fault).
Local Abbreviation seedLoop := (TemplateSeeder.seedLoop db_fault).
Local Abbreviation createEmailTemplates := (TemplateSeeder.createEmailTemplates db_fault).

Lemma map_name_update (templateName subject html : string) (table : Table) :
  map name (map (fun row => if named templateName row
                            then setContent subject html row else row) table)
  = map name table.
Proof.
  induction table as [|row table IH]; [done |]. simpl. rewrite IH.
  by destruct (named templateName row).
Qed.

Lemma others_update (names : list string) (templateName subject html : string)
    (table : Table) :
  templateName ∈ names ->
  others names (map (fun row => if named templateName row
                                then setContent subject html row else row) table)
  = others names table.
Proof.
  intros Hin. unfold others. induction table as [|row table IH]; [done |].
  rewrite map_cons. destruct (named templateName row) eqn:Hn.
  - apply bool_decide_eq_true_1 in Hn.
    assert (Hm : bool_decide (name row ∈ names) = true).
    { apply bool_decide_eq_true_2. by rewrite Hn. }
    simpl. rewrite Hm. simpl. exact IH.
  - simpl. destruct (bool_decide (name row ∈ names)); simpl; by rewrite IH.
Qed.

Lemma others_insert (names : list string) (template : EmailTemplateData) (table : Table) :
  name template ∈ names ->
  others names (table ++ [template]) = others names table.
Proof.
  intros Hin. unfold others. rewrite List.filter_app. simpl.
  rewrite (bool_decide_eq_true_2 _ Hin). simpl. apply app_nil_r.
Qed.

(** One round, whatever the database does: it returns, no row is removed
    or renamed, and the rows with other names stay as they are. *)
Lemma seedTemplate_any (names : list string) (template : EmailTemplateData) (table : Table) :
  name template ∈ names ->
  exists succeeded table',
    seedTemplate template table = (Return succeeded, table')
    /\ map name table `prefix_of` map name table'
    /\ others names table' = others names table.
Proof.
  intros Hin.
  unfold TemplateSeeder.seedTemplate, try_catch, bind, ret, findFirst, update, insert, execute.
  destruct (db_fault table (FindFirst (name template))); [by eexists _, _ |].
  destruct (List.find (named (name template)) table).
  - destruct (db_fault table (UpdateByName _ _ _)); [by eexists _, _ |].
    eexists _, _. split; [reflexivity |]. split.
    + by rewrite map_name_update.
    + by apply others_update.
  - destruct (db_fault table (Insert template)); [by eexists _, _ |].
    eexists _, _. split; [reflexivity |]. split.
    + rewrite map_app. by eexists.
    + by apply others_insert.
Qed.

Lemma seedLoop_any (names : list string) (templates : list EmailTemplateData) :
  forall (successCount errorCount : nat) (table : Table),
    Forall (fun template => name template ∈ names) templates ->
    exists successCount' errorCount' table',
      seedLoop templates successCount errorCount table
      = (Return (successCount', errorCount'), table')
      /\ successCount' + errorCount' = successCount + errorCount + length templates
      /\ map name table `prefix_of` map name table'
      /\ others names table' = others names table.
Proof.
  induction templates as [|template rest IH]; intros s e table Hn.
  - exists s, e, table. simpl. split; [done |]. split; [lia |]. done.
  - apply Forall_cons in Hn as [Hin Hn].
    destruct (seedTemplate_any names template table Hin) as (b & t1 & E & P1 & O1).
    simpl. unfold bind at 1. rewrite E.
    destruct b.
    + destruct (IH (S s) e t1 Hn) as (s' & e' & t' & E' & C & P2 & O2).
      exists s', e', t'. split; [done |]. split; [lia |].
      split; [by etrans | by rewrite O2].
    + destruct (IH s (S e) t1 Hn) as (s' & e' & t' & E' & C & P2 & O2).
      exists s', e', t'. split; [done |]. split; [lia |].
      split; [by etrans | by rewrite O2].
Qed.

(** X20. [createEmailTemplates] never throws, whatever the database
    does: a statement that throws is counted and the loop goes on, so the
    two counters that it prints add up to the number of templates. It
    removes no row and renames none (rows are only added at the end), and a
    row whose name is not one of the templates' is left exactly as it
    was. *)
Theorem createEmailTemplates_any (templates : list EmailTemplateData) (table : Table) :
  exists successCount errorCount table',
    createEmailTemplates templates table = (Return (successCount, errorCount), table')
    /\ successCount + errorCount = length templates
    /\ map name table `prefix_of` map name table'
    /\ others (map name templates) table' = others (map name templates) table.
Proof.
  destruct (seedLoop_any (map name templates) templates 0 0 table)
    as (s & e & t' & E & C & P & O).
  { apply Forall_forall. intros template Hin. by apply list_elem_of_fmap_2. }
  by exists s, e, t'.
Qed.

(** *** A database that does not throw *)

Hypothesis no_fault : forall table statement, db_fault table statement = None.

Lemma seedTemplate_ok (template : EmailTemplateData) (table : Table) :
  seedTemplate template table = (Return true, upsert template table).
Proof.
  unfold TemplateSeeder.seedTemplate, try_catch, bind, ret, findFirst, update, insert, execute,
    upsert.
  rewrite no_fault.
  destruct (List.find (named (name template)) table); by rewrite no_fault.
Qed.

Lemma seedLoop_ok (templates : list EmailTemplateData) :
  forall (successCount errorCount : nat) (table : Table),
    seedLoop templates successCount errorCount table
    = (Return (successCount + length templates, errorCount),
       foldl (fun t template => upsert template t) table templates).
Proof.
  induction templates as [|template rest IH]; intros s e table.
  - simpl. unfold ret. by rewrite Nat.add_0_r.
  - simpl. unfold bind at 1. rewrite seedTemplate_ok, IH.
    by replace (S s + length rest) with (s + S (length rest)) by lia.
Qed.

Lemma setContent_own (template row : EmailTemplateData) :
  name row = name template ->
  setContent (subject template) (html template) row = template.
Proof. destruct template, row. simpl. by intros ->. Qed.

Lemma find_named_Some (templateName : string) (table : Table) (row : EmailTemplateData) :
  List.find (named templateName) table = Some row ->
  row ∈ table /\ name row = templateName.
Proof.
  intros H. apply find_some in H as [Hin Hn]. split; [by apply list_elem_of_In |].
  unfold named in Hn. by apply bool_decide_eq_true_1 in Hn.
Qed.

Lemma find_named_None (templateName : string) (table : Table) (row : EmailTemplateData) :
  List.find (named templateName) table = None ->
  row ∈ table -> name row <> templateName.
Proof.
  intros H Hin. apply list_elem_of_In in Hin.
  pose proof (find_none _ _ H row Hin) as Hn.
  unfold named in Hn. by apply bool_decide_eq_false_1 in Hn.
Qed.

Lemma upsert_own (template : EmailTemplateData) (table : Table) :
  inPlace template (upsert template table).
Proof.
  unfold upsert, inPlace.
  destruct (List.find (named (name template)) table) as [found|] eqn:Hf.
  - apply find_named_Some in Hf as [Hin Hn]. split.
    + apply list_elem_of_fmap. exists found. split; [| done].
      unfold named. rewrite (bool_decide_eq_true_2 _ Hn).
      symmetry. by apply setContent_own.
    + intros row Hrow Hname.
      apply list_elem_of_fmap in Hrow as (row0 & -> & Hin0).
      unfold named in *. destruct (decide (name row0 = name template)) as [E | E].
      * rewrite (bool_decide_eq_true_2 _ E). by apply setContent_own.
      * rewrite (bool_decide_eq_false_2 _ E) in Hname. done.
  - split.
    + apply elem_of_app. right. by apply list_elem_of_singleton.
    + intros row Hrow Hname. apply elem_of_app in Hrow as [Hrow | Hrow].
      * by destruct (find_named_None _ _ row Hf Hrow).
      * by apply list_elem_of_singleton in Hrow.
Qed.

Lemma upsert_other (template other : EmailTemplateData) (table : Table) :
  name other <> name template ->
  inPlace template table -> inPlace template (upsert other table).
Proof.
  intros Hne [Hin Hall]. unfold upsert, inPlace.
  destruct (List.find (named (name other)) table) as [found|] eqn:Hf.
  - split.
    + apply list_elem_of_fmap. exists template. split; [| done].
      unfold named. rewrite bool_decide_eq_false_2; [done | by intros E].
    + intros row Hrow Hname.
      apply list_elem_of_fmap in Hrow as (row0 & -> & Hin0).
      unfold named in *. destruct (decide (name row0 = name other)) as [E | E].
      * rewrite (bool_decide_eq_true_2 _ E) in Hname. simpl in Hname. congruence.
      * rewrite (bool_decide_eq_false_2 _ E) in *. by apply Hall.
  - split.
    + apply elem_of_app. by left.
    + intros row Hrow Hname. apply elem_of_app in Hrow as [Hrow | Hrow].
      * by apply Hall.
      * apply list_elem_of_singleton in Hrow. congruence.
Qed.

Lemma upsert_fixed (template : EmailTemplateData) (table : Table) :
  inPlace template table -> upsert template table = table.
Proof.
  intros [Hin Hall]. unfold upsert.
  destruct (List.find (named (name template)) table) as [found|] eqn:Hf.
  - clear Hf Hin. induction table as [|row table IH]; [done |]. simpl.
    rewrite IH.
    + f_equal. unfold named. destruct (decide (name row = name template)) as [E | E].
      * rewrite (bool_decide_eq_true_2 _ E), (setContent_own _ _ E).
        symmetry. apply Hall; [by left | done].
      * by rewrite (bool_decide_eq_false_2 _ E).
    + intros r Hr. apply Hall. by right.
  - by destruct (find_named_None _ _ template Hf Hin).
Qed.

Lemma rounds_keep (template : EmailTemplateData) (rest : list EmailTemplateData) :
  forall table,
    Forall (fun other => name other <> name template) rest ->
    inPlace template table ->
    inPlace template (foldl (fun t other => upsert other t) table rest).
Proof.
  induction rest as [|other rest IH]; intros table Hne Hp; [done |].
  apply Forall_cons in Hne as [Hn Hne]. simpl.
  apply IH; [done |]. by apply upsert_other.
Qed.

Lemma rounds_place (templates : list EmailTemplateData) :
  forall table,
    NoDup (map name templates) ->
    Forall (fun template =>
              inPlace template (foldl (fun t other => upsert other t) table templates))
      templates.
Proof.
  induction templates as [|template rest IH]; intros table Hnd; [constructor |].
  simpl in Hnd. apply NoDup_cons in Hnd as [Hnotin Hnd].
  constructor.
  - simpl. apply rounds_keep; [| apply upsert_own].
    apply Forall_forall. intros other Hin E. apply Hnotin.
    rewrite <- E. by apply list_elem_of_fmap_2.
  - simpl. by apply IH.
Qed.

Lemma rounds_fixed (templates : list EmailTemplateData) :
  forall table,
    Forall (fun template => inPlace template table) templates ->
    foldl (fun t template => upsert template t) table templates = table.
Proof.
  induction templates as [|template rest IH]; intros table Hp; [done |].
  apply Forall_cons in Hp as [Hp Hrest]. simpl.
  rewrite (upsert_fixed template table Hp). by apply IH.
Qed.

(** X21. With a database that does not throw and templates of pairwise
    different names, [createEmailTemplates] counts a success for every
    template, and afterwards every template is in the table as it is
    declared: there is a row equal to it, and every row of its name is equal
    to it, so that what an existing row of that name held as subject and
    body is overwritten. Running it again changes nothing. *)
Theorem createEmailTemplates_upserts (templates : list EmailTemplateData) (table : Table) :
  NoDup (map name templates) ->
  exists table',
    createEmailTemplates templates table = (Return (length templates, 0), table')
    /\ (forall template, template ∈ templates -> inPlace template table')
    /\ createEmailTemplates templates table' = (Return (length templates, 0), table').
Proof.
  intros Hnd. unfold TemplateSeeder.createEmailTemplates.
  rewrite seedLoop_ok. eexists. split; [reflexivity |].
  pose proof (rounds_place templates table Hnd) as Hp.
  split.
  - intros template Hin. rewrite Forall_forall in Hp. by apply Hp.
  - rewrite seedLoop_ok. simpl. by rewrite rounds_fixed.
Qed.

End Facts.

(** *** On sample inputs *)

Import Samples.

(** Seeding over a table with an edited "welcome" row and a row of the
    user's own: the edit is overwritten, the other row is kept. *)
Example seed_over_edited_row :
  TemplateSeeder.createEmailTemplates templateDbUp seedTemplates editedTemplates
  = (Return (4, 0),
     [ {| name := "welcome"; subject := "Welcome to Webphics!"; html := welcomeTemplate |};
       {| name := "newsletter"; subject := "News"; html := "<p>{{body}}</p>" |};
       {| name := "login_otp"; subject := "Webphics - Login Verification Code";
          html := "<p>Your code is {{otp}}</p>" |};
       {| name := "password_reset"; subject := "Webphics - Password Reset Request";
          html := "<p>Reset: {{resetUrl}}</p>" |};
       {| name := "email_verification"; subject := "Webphics - Verify Your Email Address";
          html := "<p>Verify: {{verificationUrl}}</p>" |} ]).
Proof. vm_compute. reflexivity. Qed.

Example seedTemplates_names : map name seedTemplates = seededNames.
Proof. reflexivity. Qed.

Lemma createEmailTemplates_upserts_witness :
  (forall table statement, templateDbUp table statement = None)
  /\ NoDup (map name seedTemplates)
  /\ exists table',
       TemplateSeeder.createEmailTemplates templateDbUp seedTemplates editedTemplates
       = (Return (length seedTemplates, 0), table')
       /\ (forall template, template ∈ seedTemplates -> inPlace template table')
       /\ TemplateSeeder.createEmailTemplates templateDbUp seedTemplates table'
          = (Return (length seedTemplates, 0), table').
Proof.
  assert (Hup : forall table statement, templateDbUp table statement = None)
    by reflexivity.
  assert (Hnd : NoDup (map name seedTemplates)).
  { apply (bool_decide_unpack _). vm_compute. exact I. }
  split; [exact Hup |]. split; [exact Hnd |].
  exact (createEmailTemplates_upserts templateDbUp Hup seedTemplates editedTemplates Hnd).
Defined.

End TemplateSeederSpec.

Module EmailSeederSpec.

Import JS Eff EmailSeeder.

Section Facts.

Variable env : MailerService.Env.
Variable db_fault : Table -> Statement -> option thrown.

Local Abbreviation createLoop := (EmailSeeder.createLoop db_fault).
Local Abbreviation createEmailConfigurations :=
  (EmailSeeder.createEmailConfigurations env db_fault).
Local Abbreviation updateLoop := (EmailSeeder.updateLoop env db_fault).
Local Abbreviation updateEmailConfigurations :=
  (EmailSeeder.updateEmailConfigurations env db_fault).

(** A row of the name is in the table. *)
Local Abbreviation present configName table :=
  (exists row, row ∈ table /\ emailConfigName row = configName).

Lemma filter_named_nil (configName : string) (table : Table) :
  List.filter (named configName) table = [] ->
  forall row, row ∈ table -> emailConfigName row <> configName.
Proof.
  intros H row Hin E.
  assert (Hf : In row (List.filter (named configName) table)).
  { apply filter_In. split; [by apply list_elem_of_In |].
    unfold named. by apply bool_decide_eq_true_2. }
  by rewrite H in Hf.
Qed.

Lemma filter_named_cons (configName : string) (table : Table) (row : EmailConfigData)
    (rows : list EmailConfigData) :
  List.filter (named configName) table = row :: rows ->
  row ∈ table /\ emailConfigName row = configName.
Proof.
  intros H.
  assert (Hf : In row (List.filter (named configName) table)) by (rewrite H; by left).
  apply filter_In in Hf as [Hin Hn]. split; [by apply list_elem_of_In |].
  unfold named in Hn. by apply bool_decide_eq_true_1 in Hn.
Qed.

(** One round of [createEmailConfigurations]. *)
Lemma createRound (config : EmailConfigData) (rest : list EmailConfigData)
    (createdCount skippedCount : nat) (table : Table) :
  (exists e statement,
     db_fault table statement = Some e
     /\ createLoop (config :: rest) createdCount skippedCount table = (Throw e, table))
  \/ (present (emailConfigName config) table
      /\ createLoop (config :: rest) createdCount skippedCount table
         = createLoop rest createdCount (S skippedCount) table)
  \/ ((forall row, row ∈ table -> emailConfigName row <> emailConfigName config)
      /\ createLoop (config :: rest) createdCount skippedCount table
         = createLoop rest (S createdCount) skippedCount (table ++ [config])%list).
Proof.
  simpl. unfold bind at 1, try_catch, bind, selectByName, insert, execute, ret, throw.
  destruct (db_fault table (SelectByName _)) as [e|] eqn:F1;
    [left; by exists e, (SelectByName (emailConfigName config)) |].
  destruct (List.filter (named (emailConfigName config)) table) as [|row rows] eqn:Hf.
  - simpl. destruct (db_fault table (Insert config)) as [e|] eqn:F2;
      [left; by exists e, (Insert config) |].
    right; right. split; [| done]. by apply filter_named_nil.
  - simpl. right; left. split; [| done].
    exists row. by apply (filter_named_cons _ _ _ rows).
Qed.

Lemma createLoop_any (configs : list EmailConfigData) :
  forall (createdCount skippedCount : nat) (table : Table),
    table `prefix_of` snd (createLoop configs createdCount skippedCount table)
    /\ match fst (createLoop configs createdCount skippedCount table) with
       | Return (createdCount', skippedCount') =>
           createdCount' + skippedCount' = createdCount + skippedCount + length configs
           /\ length (snd (createLoop configs createdCount skippedCount table))
              + createdCount
              = length table + createdCount'
           /\ Forall (fun config =>
                        present (emailConfigName config)
                          (snd (createLoop configs createdCount skippedCount table)))
                configs
       | Throw e => True
       end.
Proof.
  induction configs as [|config rest IH]; intros c s table.
  - simpl. split; [done |]. split; [lia |]. split; [lia | constructor].
  - destruct (createRound config rest c s table) as [(e & st & _ & E) | [[P E] | [A E]]];
      rewrite E.
    + by simpl.
    + destruct (IH c (S s) table) as [Hp Hr]. split; [done |].
      destruct (fst (createLoop rest c (S s) table)) as [[c' s']|e]; [| done].
      destruct Hr as (H1 & H2 & H3). split; [simpl; lia |]. split; [done |].
      constructor; [| done].
      destruct P as (row & Hin & Hn). exists row. split; [| done].
      destruct Hp as [k ->]. apply elem_of_app. by left.
    + destruct (IH (S c) s (table ++ [config])%list) as [Hp Hr]. split.
      { etrans; [| exact Hp]. by eexists. }
      destruct (fst (createLoop rest (S c) s (table ++ [config])%list)) as [[c' s']|e];
        [| done].
      destruct Hr as (H1 & H2 & H3). rewrite length_app in H2. simpl in H2.
      split; [simpl; lia |]. split; [lia |].
      constructor; [| done].
      exists config. split; [| done].
      destruct Hp as [k ->]. apply elem_of_app. left. apply elem_of_app. right.
      by apply list_elem_of_singleton.
Qed.

Lemma createLoop_present (configs : list EmailConfigData) :
  forall (createdCount skippedCount : nat) (table : Table),
    (forall table' statement, db_fault table' statement = None) ->
    Forall (fun config => present (emailConfigName config) table) configs ->
    createLoop configs createdCount skippedCount table
    = (Return (createdCount, skippedCount + length configs), table).
Proof.
  induction configs as [|config rest IH]; intros c s table Hup Hp.
  - simpl. unfold ret. by rewrite Nat.add_0_r.
  - apply Forall_cons in Hp as [(row & Hin & Hn) Hp].
    destruct (createRound config rest c s table) as [(e & st & F & E) | [[P E] | [A E]]].
    + by rewrite Hup in F.
    + rewrite E, (IH c (S s) table Hup Hp). by replace (S s + length rest) with (s + S (length rest)) by lia.
    + by destruct (A row Hin).
Qed.

(** X22. [createEmailConfigurations], whatever the database does, also
    when it throws: the rows that were in the table are all still there,
    unchanged and in place, and rows are only added behind them, so a
    configuration that exists is never overwritten with the environment's
    values, and the rows inserted before a statement throws stay. When it
    returns, its two counters add up to 3, the table has grown by the number
    it counts as created, and each of "default_smtp", "notifications" and
    "support" has a row. With a database that does not throw, running it
    again on the table it left counts 0 created and 3 skipped and changes
    nothing. *)
Theorem createEmailConfigurations_keeps_rows (table : Table) :
  table `prefix_of` snd (createEmailConfigurations table)
  /\ match fst (createEmailConfigurations table) with
     | Return (createdCount, skippedCount) =>
         createdCount + skippedCount = 3
         /\ length (snd (createEmailConfigurations table)) = length table + createdCount
         /\ (forall configName, configName ∈ configNames ->
               exists row, row ∈ snd (createEmailConfigurations table)
                           /\ emailConfigName row = configName)
         /\ ((forall table' statement, db_fault table' statement = None) ->
             createEmailConfigurations (snd (createEmailConfigurations table))
             = (Return (0, 3), snd (createEmailConfigurations table)))
     | Throw e => True
     end.
Proof.
  unfold EmailSeeder.createEmailConfigurations.
  destruct (createLoop_any (emailConfigs env) 0 0 table) as [Hp Hr].
  split; [exact Hp |].
  destruct (fst (createLoop (emailConfigs env) 0 0 table)) as [[c s]|e]; [| done].
  destruct Hr as (H1 & H2 & H3).
  split; [exact H1 |]. split; [lia |]. split.
  - intros configName Hin. rewrite Forall_forall in H3.
    apply (H3 (configFor env configName)).
    unfold emailConfigs. by apply list_elem_of_fmap_2.
  - intros Hup. by rewrite (createLoop_present (emailConfigs env) 0 0 _ Hup H3).
Qed.

(** *** [updateEmailConfigurations] *)

Lemma map_name_setFromEnv (configName : string) (table : Table) :
  map emailConfigName
    (map (fun row => if named configName row then setFromEnv env configName row else row) table)
  = map emailConfigName table.
Proof.
  induction table as [|row table IH]; [done |]. simpl. rewrite IH.
  by destruct (named configName row).
Qed.

Lemma map_fromName_setFromEnv (configName : string) (table : Table) :
  map (fun row => EmailService.fromName (settings row))
    (map (fun row => if named configName row then setFromEnv env configName row else row) table)
  = map (fun row => EmailService.fromName (settings row)) table.
Proof.
  induction table as [|row table IH]; [done |]. simpl. rewrite IH.
  by destruct (named configName row).
Qed.

Lemma updateLoop_any (names : list string) :
  forall (updatedCount : nat) (table : Table),
    exists updatedCount' table',
      updateLoop names updatedCount table = (Return updatedCount', table')
      /\ updatedCount' <= updatedCount + length names
      /\ map emailConfigName table' = map emailConfigName table
      /\ map (fun row => EmailService.fromName (settings row)) table'
         = map (fun row => EmailService.fromName (settings row)) table.
Proof.
  induction names as [|configName rest IH]; intros n table.
  - exists n, table. simpl. split; [done |]. split; [lia | done].
  - simpl. unfold bind at 1, try_catch, bind, updateByName, execute, ret.
    destruct (db_fault table (UpdateByName _ _ _ _ _ _ _)) as [e|].
    + destruct (IH n table) as (n' & t' & E & C & N & F).
      exists n', t'. split; [done |]. split; [lia | done].
    + destruct (IH (S n) (map (fun row => if named configName row
                                          then setFromEnv env configName row else row) table))
        as (n' & t' & E & C & N & F).
      exists n', t'. split; [done |]. split; [lia |].
      by rewrite N, F, map_name_setFromEnv, map_fromName_setFromEnv.
Qed.

Lemma updateLoop_ok (names : list string) :
  forall (updatedCount : nat) (table : Table),
    (forall table' statement, db_fault table' statement = None) ->
    updateLoop names updatedCount table
    = (Return (updatedCount + length names),
       foldl (fun t configName =>
                map (fun row => if named configName row
                                then setFromEnv env configName row else row) t)
         table names).
Proof.
  induction names as [|configName rest IH]; intros n table Hup.
  - simpl. unfold ret. by rewrite Nat.add_0_r.
  - simpl. unfold bind at 1, try_catch, bind, updateByName, execute, ret.
    rewrite Hup, (IH (S n) _ Hup).
    by replace (S n + length rest) with (n + S (length rest)) by lia.
Qed.

(** What the three updates make of a row. *)
Lemma name_setFromEnv (configName : string) (row : EmailConfigData) :
  emailConfigName (setFromEnv env configName row) = emailConfigName row.
Proof. reflexivity. Qed.

Lemma update_hit (configName : string) (row : EmailConfigData) :
  emailConfigName row = configName ->
  (if named configName row then setFromEnv env configName row else row)
  = setFromEnv env configName row.
Proof. intros E. unfold named. by rewrite (bool_decide_eq_true_2 _ E). Qed.

Lemma update_miss (configName : string) (row : EmailConfigData) :
  emailConfigName row <> configName ->
  (if named configName row then setFromEnv env configName row else row) = row.
Proof. intros E. unfold named. by rewrite (bool_decide_eq_false_2 _ E). Qed.

Lemma updated_row (row : EmailConfigData) :
  (let f configName row :=
     if named configName row then setFromEnv env configName row else row in
   f "support" (f "notifications" (f "default_smtp" row)))
  = if bool_decide (emailConfigName row ∈ configNames)
    then setFromEnv env (emailConfigName row) row else row.
Proof.
  cbv zeta. unfold configNames.
  destruct (decide (emailConfigName row = "default_smtp")) as [E1 | E1].
  - rewrite (update_hit "default_smtp" row E1).
    rewrite (update_miss "notifications" (setFromEnv env "default_smtp" row))
      by (rewrite name_setFromEnv, E1; discriminate).
    rewrite (update_miss "support" (setFromEnv env "default_smtp" row))
      by (rewrite name_setFromEnv, E1; discriminate).
    rewrite bool_decide_eq_true_2; [by rewrite E1 | rewrite E1; by left].
  - rewrite (update_miss "default_smtp" row E1).
    destruct (decide (emailConfigName row = "notifications")) as [E2 | E2].
    + rewrite (update_hit "notifications" row E2).
      rewrite (update_miss "support" (setFromEnv env "notifications" row))
        by (rewrite name_setFromEnv, E2; discriminate).
      rewrite bool_decide_eq_true_2; [by rewrite E2 | rewrite E2; right; by left].
    + rewrite (update_miss "notifications" row E2).
      destruct (decide (emailConfigName row = "support")) as [E3 | E3].
      * rewrite (update_hit "support" row E3).
        rewrite bool_decide_eq_true_2; [by rewrite E3 | rewrite E3; right; right; by left].
      * rewrite (update_miss "support" row E3).
        rewrite bool_decide_eq_false_2; [done |].
        intros H. apply elem_of_cons in H as [H | H]; [done |].
        apply elem_of_cons in H as [H | H]; [done |].
        apply elem_of_cons in H as [H | H]; [done |].
        by apply elem_of_nil in H.
Qed.

(** X23. [updateEmailConfigurations] never throws and never adds, removes
    or renames a row, and it leaves every [fromName] as it was, whatever the
    database does. With a database that does not throw it counts 3 updates
    whether or not the rows exist, and the table afterwards is the old one
    with every row named "default_smtp", "notifications" or "support" set
    to the host, port, password and [secure] of the environment and with
    both [username] and [fromEmail] set to SMTP_USER (to
    "<name>@example.com" when SMTP_USER is empty); every other row is
    unchanged. *)
Theorem updateEmailConfigurations_sets_env (table : Table) :
  (exists updatedCount table',
     updateEmailConfigurations table = (Return updatedCount, table')
     /\ updatedCount <= 3
     /\ map emailConfigName table' = map emailConfigName table
     /\ map (fun row => EmailService.fromName (settings row)) table'
        = map (fun row => EmailService.fromName (settings row)) table)
  /\ ((forall table' statement, db_fault table' statement = None) ->
      updateEmailConfigurations table
      = (Return 3,
         map (fun row => if bool_decide (emailConfigName row ∈ configNames)
                         then setFromEnv env (emailConfigName row) row else row) table)).
Proof.
  split.
  - apply (updateLoop_any configNames 0 table).
  - intros Hup. unfold EmailSeeder.updateEmailConfigurations.
    rewrite (updateLoop_ok configNames 0 table Hup). f_equal.
    unfold configNames at 1. simpl. rewrite !map_map.
    apply map_ext. intros row. apply updated_row.
Qed.

End Facts.

(** *** On sample inputs *)

Import Samples.

(** Seeding over a table that holds "support": the stored row is kept as
    it is, and the two other configurations are added from the
    environment. *)
Example seed_over_stored_config :
  EmailSeeder.createEmailConfigurations sampleEnv emailDbUp storedConfigs
  = (Return (2, 1),
     (storedConfigs
      ++ [configFor sampleEnv "default_smtp"; configFor sampleEnv "notifications"])%list).
Proof. vm_compute. reflexivity. Qed.

(** Updating a table that holds only "support" counts three updates. *)
Example update_counts_missing_rows :
  fst (EmailSeeder.updateEmailConfigurations sampleEnv emailDbUp storedConfigs) = Return 3
  /\ map (fun row => EmailService.fromEmail (settings row))
       (snd (EmailSeeder.updateEmailConfigurations sampleEnv emailDbUp storedConfigs))
     = ["mailer@example.com"].
Proof. vm_compute. split; reflexivity. Qed.

End EmailSeederSpec.

(** ** The transport that sends and the transport that is tested *)

Module TransportFlagsSpec.

Import JS Eff Mailer MailerService EmailService.

Section Facts.

Variable isEmail : string -> bool.
Variable Number_of_string : string -> number.
Variable zodConfigIssues : Schema.EmailConfigInput -> string.
Variable env : Env.

Local Abbreviation createEmailService :=
  (MailerService.createEmailService isEmail Number_of_string zodConfigIssues env).
Local Abbreviation probeOptions := (EmailService.probeOptions Number_of_string).

Lemma createEmailService_transporter (instance : EmailSMTPService) :
  createEmailService = Return instance ->
  transporter instance
  = {| Nodemailer.host := SMTP_HOST env;
       Nodemailer.port := JS.Number Number_of_string (SMTP_PORT env);
       Nodemailer.secure := portIs465 (SMTP_PORT env);
       Nodemailer.requireTLS := None;
       Nodemailer.auth := {| Schema.user := SMTP_USER env; Schema.pass := SMTP_PASSWORD env |};
       Nodemailer.service := None;
       Nodemailer.tls := None |}.
Proof.
  unfold MailerService.createEmailService, new_EmailSMTPService,
    Schema.emailConfigSchema_parse.
  destruct (Schema.configValid _ _ _); [| done].
  intros H. by injection H as <-.
Qed.

(** X24. The service that [createEmailService] builds and the probe of
    [validateSmtpConnection], for the same port. Both pass [Number(port)]
    to their transport, but the service has [secure] only when SMTP_PORT is
    the number 465 (the comparison is [===]) and never sets [requireTLS].
    So with the port as the string that [process.env] holds, the service
    connects with [secure: false] whatever the port is; for the string
    "465" the probe is made with [secure: true] and the service sends with
    [secure: false], and for 587 the probe requires TLS where the service
    does not. *)
Theorem dispatcher_and_probe_flags (instance : EmailSMTPService) (smtpConfig : EmailUpdate) :
  createEmailService = Return instance ->
  port smtpConfig = SMTP_PORT env ->
  Nodemailer.port (transporter instance) = probe_port (probeOptions smtpConfig)
  /\ Nodemailer.secure (transporter instance) = portIs465 (SMTP_PORT env)
  /\ Nodemailer.requireTLS (transporter instance) = None
  /\ (forall s, SMTP_PORT env = PortString s ->
        Nodemailer.secure (transporter instance) = false)
  /\ (forall n, SMTP_PORT env = PortNumber n ->
        Nodemailer.secure (transporter instance) = strict_eq n (of_Z 465))
  /\ (strict_eq (Nodemailer.port (transporter instance)) (of_Z 465) = true ->
      probe_secure (probeOptions smtpConfig) = true)
  /\ (strict_eq (Nodemailer.port (transporter instance)) (of_Z 465) = false ->
      strict_eq (Nodemailer.port (transporter instance)) (of_Z 587) = true ->
      probe_requireTLS (probeOptions smtpConfig) = true).
Proof.
  intros Hc Hp. rewrite (createEmailService_transporter instance Hc).
  cbn [Nodemailer.port Nodemailer.secure Nodemailer.requireTLS].
  pose proof (EmailServiceSpec.probe_port_Number Number_of_string smtpConfig) as P.
  pose proof (EmailServiceSpec.probe_flags Number_of_string smtpConfig) as F.
  rewrite Hp in P, F.
  split; [by rewrite P |]. split; [done |]. split; [done |].
  split; [by intros s -> |]. split; [by intros n -> |]. split.
  - intros H. rewrite H in F. by injection F as -> _.
  - intros H1 H2. rewrite H1, H2 in F. simpl in F. by injection F as _ ->.
Qed.

End Facts.

(** *** On sample inputs *)

Import Samples.

(** The port "465" from the environment: tested with [secure: true], used
    with [secure: false]. *)
Lemma dispatcher_and_probe_flags_witness :
  MailerService.createEmailService hasAt portNumber configIssuesText sslEnv = Return sslService
  /\ port (portStringConfig "465") = SMTP_PORT sslEnv
  /\ Nodemailer.secure (transporter sslService) = false
  /\ probe_secure (EmailService.probeOptions portNumber (portStringConfig "465")) = true.
Proof.
  assert (Hc : MailerService.createEmailService hasAt portNumber configIssuesText sslEnv
               = Return sslService) by (vm_compute; reflexivity).
  assert (Hp : port (portStringConfig "465") = SMTP_PORT sslEnv) by reflexivity.
  split; [exact Hc |]. split; [exact Hp |].
  pose proof (dispatcher_and_probe_flags hasAt portNumber configIssuesText sslEnv
                sslService (portStringConfig "465") Hc Hp) as R.
  split.
  - exact (proj1 (proj2 (proj2 (proj2 R))) "465" eq_refl).
  - apply (proj1 (proj2 (proj2 (proj2 (proj2 (proj2 R)))))). vm_compute. reflexivity.
Defined.

(** The two spreads of the constructor: a [service] reaches
    [createTransport] unless it is missing or empty, and a [tls] object
    reaches it as it is, the empty object included. *)
Lemma new_EmailSMTPService_optional (config : Schema.EmailConfigInput)
    (this : EmailSMTPService) :
  new_EmailSMTPService hasAt sampleNumber configIssuesText config = Return this ->
  Nodemailer.service (transporter this)
  = match Schema.in_service config with
    | Some EmptyString | None => None
    | Some name => Some name
    end
  /\ Nodemailer.tls (transporter this) = Schema.in_tls config.
Proof.
  unfold new_EmailSMTPService, Schema.emailConfigSchema_parse.
  destruct (Schema.configValid _ _ _); [| done].
  intros H. injection H as <-. simpl. split; [| done].
  by destruct (Schema.in_service config) as [[|c name]|].
Qed.

Example constructor_optional_settings :
  (Nodemailer.service <$>
     (transporter <$>
        match new_EmailSMTPService hasAt sampleNumber configIssuesText
                (optionalConfig (Some "gmail") (Some {| Schema.rejectUnauthorized := None |}))
        with Return this => Some this | Throw _ => None end))
  = Some (Some "gmail")
  /\ (Nodemailer.tls <$>
        (transporter <$>
           match new_EmailSMTPService hasAt sampleNumber configIssuesText
                   (optionalConfig (Some EmptyString)
                      (Some {| Schema.rejectUnauthorized := None |}))
           with Return this => Some this | Throw _ => None end))
     = Some (Some {| Schema.rejectUnauthorized := None |})
  /\ (Nodemailer.service <$>
        (transporter <$>
           match new_EmailSMTPService hasAt sampleNumber configIssuesText
                   (optionalConfig (Some EmptyString) None)
           with Return this => Some this | Throw _ => None end))
     = Some None.
Proof. vm_compute. repeat split. Qed.

End TransportFlagsSpec.

(** ** The environment that starts the server and the service it gives *)

Module EnvSchemaSpec.

Import JS Eff Mailer MailerService EnvSchema.

Section Facts.

Variable isEmail : string -> bool.
Variable Number_of_string : string -> number.
Variable zodConfigIssues : Schema.EmailConfigInput -> string.
Variable env : Env.

Local Abbreviation createEmailService :=
  (MailerService.createEmailService isEmail Number_of_string zodConfigIssues env).
Local Abbreviation smtpEnvSchema_accepts := (EnvSchema.smtpEnvSchema_accepts Number_of_string).

Lemma accepted_port :
  smtpEnvSchema_accepts env = true ->
  exists s,
    SMTP_PORT env = PortString s
    /\ s <> EmptyString
    /\ Schema.portValid (Number_of_string s) = true
    /\ is_integer (Number_of_string s) = true.
Proof.
  unfold EnvSchema.smtpEnvSchema_accepts, validateEnvNumber, bound.
  destruct (SMTP_PORT env) as [n|s]; [done |].
  change (1 =? 0)%Z with false. change (65535 =? 0)%Z with false. cbv beta iota zeta.
  destruct (Schema.min1 s) eqn:Hs; [| done].
  destruct (EmailController.isNaN (Number_of_string s)); [done |].
  destruct (le (of_Z 1) (Number_of_string s)) eqn:H1; [| done].
  destruct (le (Number_of_string s) (of_Z 65535)) eqn:H2; [| done].
  destruct (is_integer (Number_of_string s)) eqn:H3; [| done].
  intros _. exists s. split; [done |]. split; [by destruct s |].
  split; [| done]. unfold Schema.portValid. by rewrite H1, H2.
Qed.

(** X25. An environment that the start-up validation accepts has its
    SMTP_PORT as a non-empty string whose number is an integer from 1 to
    65535, so the port is never why [createEmailService] throws, and the
    service it returns always has [secure: false]. The validation accepts
    any strings for the rest, so [createEmailService] still throws on an
    accepted environment exactly when SMTP_HOST is empty, SMTP_USER is empty
    or not an e-mail address, or SMTP_PASSWORD is empty. *)
Theorem accepted_env_and_constructor :
  smtpEnvSchema_accepts env = true ->
  Schema.portValid (Schema.coerceNumber Number_of_string (SMTP_PORT env)) = true
  /\ is_integer (Schema.coerceNumber Number_of_string (SMTP_PORT env)) = true
  /\ ((exists instance, createEmailService = Return instance)
      <-> SMTP_HOST env <> EmptyString
          /\ SMTP_USER env <> EmptyString /\ isEmail (SMTP_USER env) = true
          /\ SMTP_PASSWORD env <> EmptyString)
  /\ (forall instance, createEmailService = Return instance ->
        Nodemailer.secure (transporter instance) = false
        /\ Nodemailer.requireTLS (transporter instance) = None)
  /\ (forall e, createEmailService = Throw e ->
        e = Error (zodConfigIssues (envConfig env))).
Proof.
  intros Ha. destruct (accepted_port Ha) as (s & Hs & Hne & Hv & Hi).
  assert (Hn : Schema.coerceNumber Number_of_string (SMTP_PORT env) = Number_of_string s)
    by (by rewrite Hs).
  rewrite Hn. split; [exact Hv |]. split; [exact Hi |].
  assert (Hvalid : Schema.configValid isEmail Number_of_string (envConfig env)
                   = Schema.min1 (SMTP_HOST env)
                     && Schema.validateEmail isEmail (SMTP_USER env)
                     && Schema.min1 (SMTP_PASSWORD env)).
  { unfold Schema.configValid. simpl. by rewrite Hn, Hv, andb_true_r. }
  split; [| split].
  - unfold MailerService.createEmailService, new_EmailSMTPService,
      Schema.emailConfigSchema_parse. rewrite Hvalid.
    unfold Schema.validateEmail, Schema.min1.
    destruct (SMTP_HOST env) as [|h0 h]; simpl.
    { split; [by intros [i H] | by intros [H _]]. }
    destruct (SMTP_USER env) as [|u0 u]; simpl.
    { split; [by intros [i H] | by intros (_ & H & _)]. }
    destruct (isEmail (String u0 u)); simpl.
    2: { split; [by intros [i H] | by intros (_ & _ & H & _)]. }
    destruct (SMTP_PASSWORD env) as [|p0 p]; simpl.
    { split; [by intros [i H] | by intros (_ & _ & _ & H)]. }
    split; [done | intros _; by eexists].
  - intros instance Hc.
    rewrite (TransportFlagsSpec.createEmailService_transporter _ _ _ _ instance Hc).
    cbn [Nodemailer.secure Nodemailer.requireTLS]. by rewrite Hs.
  - intros e. unfold MailerService.createEmailService, new_EmailSMTPService,
      Schema.emailConfigSchema_parse.
    destruct (Schema.configValid _ _ _); [done |]. intros H. by injection H as <-.
Qed.

End Facts.

(** *** On sample inputs *)

Import Samples.

Lemma accepted_env_and_constructor_witness :
  EnvSchema.smtpEnvSchema_accepts sampleNumber sampleEnv = true
  /\ Schema.portValid (Schema.coerceNumber sampleNumber (SMTP_PORT sampleEnv)) = true.
Proof.
  assert (Ha : EnvSchema.smtpEnvSchema_accepts sampleNumber sampleEnv = true)
    by (vm_compute; reflexivity).
  split; [exact Ha |].
  exact (proj1 (accepted_env_and_constructor hasAt sampleNumber configIssuesText sampleEnv Ha)).
Defined.

End EnvSchemaSpec.
